(** * Form-management web application: a shallow embedding of [app.js]

    The Express application of [src/app.js] and the Mongoose schema of
    [models/User] are embedded as pure functions over an explicit world
    (the [users] collection, the log of outbound calls to the e-mail
    deliverability service, the rate limiter's hit table) and an explicit
    session.  External collaborators whose code is not part of the
    repository (validator.js predicates, the JavaScript engine's date
    parser, MongoDB's regular-expression engine, the deliverability
    service itself) are variables of the section [Application].

    The collection is always reachable, so the [catch] branches that only
    a lost connection leads to do not appear.  Security headers, static
    files, the access log and [res.locals] have no part in what the
    handlers answer and are left out.

    Texts are sequences of bytes, in UTF-8.  [trim], [toLowerCase], the
    lengths and the character classes of the schema are the JavaScript
    ones on texts made of ASCII characters, and [parseInt] is exact up to
    [2^53]; the properties that depend on them are stated for such texts
    and such numbers.  The clock of the server is in UTC.  The messages that
    Mongoose and the MongoDB server word themselves are a variable of the
    section [Application], like the other collaborators. *)

From Stdlib Require Import ZArith List String Ascii Bool Lia.
From Stdlib Require Import DecimalString SpecFloat.
From Stdlib Require Import Sorted Permutation.
From stdpp Require Import base gmap strings.

Import ListNotations.
Local Open Scope string_scope.
Local Open Scope Z_scope.

(* ===================================================================== *)
(** * The JavaScript primitives the handlers rely on *)
(* ===================================================================== *)

Module JS.

(** Strings are sequences of bytes.  A text all of whose bytes are below
    128 is made of ASCII characters; on such a text a byte is a character
    and a UTF-16 code unit. *)
Fixpoint is_ascii (s : string) : bool :=
  match s with
  | String c s' => (nat_of_ascii c <? 128)%nat && is_ascii s'
  | EmptyString => true
  end.

(** White space, among the ASCII characters. *)
Definition is_space (c : ascii) : bool :=
  match nat_of_ascii c with
  | 9%nat | 10%nat | 11%nat | 12%nat | 13%nat | 32%nat => true
  | _ => false
  end.

Fixpoint trimStart (s : string) : string :=
  match s with
  | String c s' => if is_space c then trimStart s' else s
  | EmptyString => EmptyString
  end.

Fixpoint rev_append (s acc : string) : string :=
  match s with
  | String c s' => rev_append s' (String c acc)
  | EmptyString => acc
  end.

Definition reverse (s : string) : string := rev_append s EmptyString.

(** [String.prototype.trim], on an ASCII text. *)
Definition trim (s : string) : string :=
  reverse (trimStart (reverse (trimStart s))).

Definition lower_char (c : ascii) : ascii :=
  let n := nat_of_ascii c in
  if (65 <=? n)%nat && (n <=? 90)%nat then ascii_of_nat (n + 32) else c.

(** [String.prototype.toLowerCase], on an ASCII text. *)
Fixpoint toLowerCase (s : string) : string :=
  match s with
  | String c s' => String (lower_char c) (toLowerCase s')
  | EmptyString => EmptyString
  end.

Fixpoint join (sep : string) (l : list string) : string :=
  match l with
  | [] => ""
  | [x] => x
  | x :: l' => x +:+ sep +:+ join sep l'
  end.

(** [Number.prototype.toString] on an integer value. *)
Definition string_of_Z (z : Z) : string :=
  NilZero.string_of_int (Z.to_int z).

(** Truthiness of a string value that may be [undefined]. *)
Definition truthy (v : option string) : bool :=
  match v with
  | Some (String _ _) => true
  | _ => false
  end.

(** ** Digits *)

Definition digit_val (c : ascii) : option Z :=
  let n := nat_of_ascii c in
  if (48 <=? n)%nat && (n <=? 57)%nat then Some (Z.of_nat n - 48) else None.

Definition hex_val (c : ascii) : option Z :=
  let n := nat_of_ascii c in
  if (48 <=? n)%nat && (n <=? 57)%nat then Some (Z.of_nat n - 48)
  else if (97 <=? n)%nat && (n <=? 102)%nat then Some (Z.of_nat n - 87)
  else if (65 <=? n)%nat && (n <=? 70)%nat then Some (Z.of_nat n - 55)
  else None.

(** [scan val radix acc cnt s]: the longest prefix of [s] made of digits,
    as (value, number of digits, rest). *)
Fixpoint scan (val : ascii -> option Z) (radix acc : Z) (cnt : nat)
         (s : string) : Z * nat * string :=
  match s with
  | String c s' =>
      match val c with
      | Some d => scan val radix (acc * radix + d) (S cnt) s'
      | None => (acc, cnt, s)
      end
  | EmptyString => (acc, cnt, s)
  end.

(** ** The white space in front of a numeric text

    [parseInt] and [parseFloat] skip the white space and the line
    terminators of the language, which a text holds in UTF-8: U+00A0 on two
    bytes; U+1680, U+2000 to U+200A, U+2028, U+2029, U+202F, U+205F, U+3000
    and U+FEFF on three. *)
Definition white2 (a b : nat) : bool := ((a =? 194) && (b =? 160))%nat.

Definition white3 (a b c : nat) : bool :=
  (((a =? 225) && (b =? 154) && (c =? 128)) ||
   ((a =? 226) && (b =? 128) &&
    (((128 <=? c) && (c <=? 138)) || (c =? 168) || (c =? 169) || (c =? 175))) ||
   ((a =? 226) && (b =? 129) && (c =? 159)) ||
   ((a =? 227) && (b =? 128) && (c =? 128)) ||
   ((a =? 239) && (b =? 187) && (c =? 191)))%nat.

Fixpoint skip_white (s : string) : string :=
  match s with
  | String a s1 =>
      if is_space a then skip_white s1
      else
        match s1 with
        | String b s2 =>
            if white2 (nat_of_ascii a) (nat_of_ascii b) then skip_white s2
            else
              match s2 with
              | String c s3 =>
                  if white3 (nat_of_ascii a) (nat_of_ascii b) (nat_of_ascii c)
                  then skip_white s3 else s
              | EmptyString => s
              end
        | EmptyString => s
        end
  | EmptyString => EmptyString
  end.

(** Optional sign: [(negative, rest)]. *)
Definition scan_sign (s : string) : bool * string :=
  match s with
  | String "-" s' => (true, s')
  | String "+" s' => (false, s')
  | _ => (false, s)
  end.

(** The integers up to [max_exact] are numbers of the language, and so
    are their sums, differences and products that stay within it. *)
Definition max_exact : Z := 2 ^ 53.

(** ** [parseInt(string)] with no radix

    [None] is [NaN].  The result is the exact integer; JavaScript rounds
    it to a double, which is the identity up to [max_exact]. *)
Definition parseInt_string (s : string) : option Z :=
  let '(neg, s1) := scan_sign (skip_white s) in
  let '(v, n, _) :=
    match s1 with
    | String "0" (String "x" s2) | String "0" (String "X" s2) =>
        scan hex_val 16 0 0 s2
    | _ => scan digit_val 10 0 0 s1
    end in
  match n with
  | O => None
  | _ => Some (if neg then - v else v)
  end.

(** A query parameter is a string or [undefined];
    [parseInt(undefined)] reads the text "undefined" and is [NaN]. *)
Definition parseInt (v : option string) : option Z :=
  match v with
  | Some s => parseInt_string s
  | None => None
  end.

(** [parseInt(v) || dflt]: [NaN] and [0] are falsy. *)
Definition parseInt_or (v : option string) (dflt : Z) : Z :=
  match parseInt v with
  | Some 0 | None => dflt
  | Some n => n
  end.

(** ** Numbers: IEEE-754 binary64, through the Standard Library's
    specification of floating-point numbers *)

Definition prec : Z := 53.
Definition emax : Z := 1024.

Definition number := spec_float.

(** The double nearest to [m * 10^e] (round to nearest, ties to even). *)
Definition of_decimal (neg : bool) (m e : Z) : number :=
  match m with
  | Zpos p =>
      let x :=
        if 0 <=? e
        then binary_normalize prec emax (m * 10 ^ e) 0 false
        else SFdiv prec emax (S754_finite false p 0)
                   (S754_finite false (Z.to_pos (10 ^ (- e))) 0) in
      if neg then SFopp x else x
  | _ => S754_zero neg
  end.

Definition starts_with_Infinity (s : string) : bool :=
  String.prefix "Infinity" s.

(** The exponent part of a decimal literal: [e], an optional sign and at
    least one digit; anything else is not part of the literal. *)
Definition scan_exponent (s : string) : Z :=
  match s with
  | String "e" s1 | String "E" s1 =>
      let '(neg, s2) := scan_sign s1 in
      let '(v, n, _) := scan digit_val 10 0 0 s2 in
      match n with
      | O => 0
      | _ => if neg then - v else v
      end
  | _ => 0
  end.

(** [parseFloat(string)]: leading white space is skipped, the longest
    prefix that is a decimal literal is converted, [NaN] when there is
    none. *)
Definition parseFloat (s : string) : number :=
  let '(neg, s1) := scan_sign (skip_white s) in
  if starts_with_Infinity s1 then S754_infinity neg
  else
    let '(ip, ni, s2) := scan digit_val 10 0 0 s1 in
    let '(m, nf, s3) :=
      match s2 with
      | String "." s2' => scan digit_val 10 ip 0 s2'
      | _ => (ip, O, s2)
      end in
    match (ni + nf)%nat with
    | O => S754_nan
    | _ => of_decimal neg m (scan_exponent s3 - Z.of_nat nf)
    end.

(** The literal [0.7]. *)
Definition lit_0_7 : number := of_decimal false 7 (-1).

(** [x > y] on numbers. *)
Definition gt (x y : number) : bool := SFltb y x.

(** ** [decodeURIComponent]

    Every escape [%XX] stands for a byte; the bytes of the escapes have to
    make up UTF-8 sequences.  [None] is a [URIError]. *)

(** What the bytes of a UTF-8 sequence under way may go on with: [k] more
    bytes after the next one, which lies between [lo] and [hi]. *)
Inductive expect :=
| Start
| More (k : nat) (lo hi : Z).

Definition lead (b : Z) : option expect :=
  if b <? 128 then Some Start
  else if (194 <=? b) && (b <=? 223) then Some (More 0 128 191)
  else if b =? 224 then Some (More 1 160 191)
  else if b =? 237 then Some (More 1 128 159)
  else if (225 <=? b) && (b <=? 239) then Some (More 1 128 191)
  else if b =? 240 then Some (More 2 144 191)
  else if (241 <=? b) && (b <=? 243) then Some (More 2 128 191)
  else if b =? 244 then Some (More 2 128 143)
  else None.

Definition next_byte (e : expect) (b : Z) : option expect :=
  match e with
  | Start => lead b
  | More k lo hi =>
      if (lo <=? b) && (b <=? hi)
      then Some (match k with O => Start | S k' => More k' 128 191 end)
      else None
  end.

Definition cons_char (c : ascii) (r : option string) : option string :=
  match r with Some s => Some (String c s) | None => None end.

Fixpoint decode (e : expect) (s : string) : option string :=
  match s with
  | EmptyString =>
      match e with Start => Some EmptyString | More _ _ _ => None end
  | String c s1 =>
      if Ascii.eqb c "%" then
        match s1 with
        | String a (String b s') =>
            match hex_val a, hex_val b with
            | Some x, Some y =>
                match next_byte e (16 * x + y) with
                | Some e' =>
                    cons_char (ascii_of_nat (Z.to_nat (16 * x + y))) (decode e' s')
                | None => None
                end
            | _, _ => None
            end
        | _ => None
        end
      else
        match e with
        | Start => cons_char c (decode Start s1)
        | More _ _ _ => None
        end
  end.

Definition decodeURIComponent (s : string) : option string := decode Start s.

End JS.

(* ===================================================================== *)
(** * Dates: the time values of ECMAScript (milliseconds since the epoch,
      UTC), with the day arithmetic of the language specification *)
(* ===================================================================== *)

Module Dates.

Definition msPerDay : Z := 86400000.

Definition Day (t : Z) : Z := t / msPerDay.

Definition InLeapYear (y : Z) : bool :=
  ((y mod 4 =? 0) && negb (y mod 100 =? 0)) || (y mod 400 =? 0).

Definition DayFromYear (y : Z) : Z :=
  365 * (y - 1970) + (y - 1969) / 4 - (y - 1901) / 100 + (y - 1601) / 400.

(** Days of the year before the first of month [m] (0 = January). *)
Definition DaysBeforeMonth (leap : bool) (m : Z) : Z :=
  let l := if leap then 1 else 0 in
  match m with
  | 0 => 0
  | 1 => 31
  | 2 => 59 + l
  | 3 => 90 + l
  | 4 => 120 + l
  | 5 => 151 + l
  | 6 => 181 + l
  | 7 => 212 + l
  | 8 => 243 + l
  | 9 => 273 + l
  | 10 => 304 + l
  | _ => 334 + l
  end.

Definition DaysInMonth (leap : bool) (m : Z) : Z :=
  match m with
  | 1 => if leap then 29 else 28
  | 3 | 5 | 8 | 10 => 30
  | _ => 31
  end.

(** [MakeDay(year, month, date)]: [month] is 0-based and may overflow
    into the following years, [date] may overflow into the following
    months. *)
Definition MakeDay (year month date : Z) : Z :=
  let ym := year + month / 12 in
  let mn := month mod 12 in
  DayFromYear ym + DaysBeforeMonth (InLeapYear ym) mn + date - 1.

Definition MakeDate (day time : Z) : Z := day * msPerDay + time.

(** Year, month (0-based) and day of the month of a day number. *)
Definition civil (day : Z) : Z * Z * Z :=
  let z := day + 719468 in
  let era := z / 146097 in
  let doe := z - era * 146097 in
  let yoe := (doe - doe / 1460 + doe / 36524 - doe / 146096) / 365 in
  let doy := doe - (365 * yoe + yoe / 4 - yoe / 100) in
  let mp := (5 * doy + 2) / 153 in
  let d := doy - (153 * mp + 2) / 5 + 1 in
  let m := if mp <? 10 then mp + 2 else mp - 10 in
  let y := yoe + era * 400 + (if m <=? 1 then 1 else 0) in
  (y, m, d).

Definition YearFromTime (t : Z) : Z := fst (fst (civil (Day t))).
Definition MonthFromTime (t : Z) : Z := snd (fst (civil (Day t))).
Definition DateFromTime (t : Z) : Z := snd (civil (Day t)).

(** A calendar date that exists: month 0..11, day within the month. *)
Definition valid_date (y m d : Z) : bool :=
  (0 <=? m) && (m <=? 11) && (1 <=? d) && (d <=? DaysInMonth (InLeapYear y) m).

(** The instant [t] lies exactly [n] calendar years after the instant
    [t0]: same month, same day of the month, same time of day, and the
    year [n] later. *)
Definition years_before (n t0 t : Z) : Prop :=
  exists y m d tod,
    valid_date y m d = true /\ valid_date (y - n) m d = true /\
    0 <= tod < msPerDay /\
    t = MakeDate (MakeDay y m d) tod /\
    t0 = MakeDate (MakeDay (y - n) m d) tod.

End Dates.

(* ===================================================================== *)
(** * The [User] model: schema, validators and collection operations *)
(* ===================================================================== *)

Module Model.

(** A persisted document of the [users] collection, with the paths the
    schema declares.  Dates are time values; [validationStatus] is a string
    or [null].  The paths Mongoose keeps for itself ([__v], and the
    [updatedAt] of the [timestamps] option) are left out. *)
Record User := mkUser {
  _id : N;
  name : string;
  email : string;
  dob : Z;
  contact : string;
  state : string;
  country : string;
  createdAt : Z;
  validationStatus : option string
}.

(** ** Regular expressions of the schema *)

Fixpoint all_chars (p : ascii -> bool) (s : string) : bool :=
  match s with
  | String c s' => p c && all_chars p s'
  | EmptyString => true
  end.

Fixpoint has_char (p : ascii -> bool) (s : string) : bool :=
  match s with
  | String c s' => p c || has_char p s'
  | EmptyString => false
  end.

(** The text before the first [c] and the text after it. *)
Fixpoint split_at (c : ascii) (s : string) : option (string * string) :=
  match s with
  | String a s' =>
      if Ascii.eqb a c then Some (EmptyString, s')
      else match split_at c s' with
           | Some (l, r) => Some (String a l, r)
           | None => None
           end
  | EmptyString => None
  end.

Definition is_digit (c : ascii) : bool :=
  match JS.digit_val c with Some _ => true | None => false end.

(** The class [[^\s@]]. *)
Definition not_space_at (c : ascii) : bool :=
  negb (JS.is_space c) && negb (Ascii.eqb c "@").

Definition is_dot (c : ascii) : bool := Ascii.eqb c ".".

Definition drop_last (s : string) : string :=
  match JS.reverse s with
  | String _ r => JS.reverse r
  | EmptyString => EmptyString
  end.

(** [/^[^\s@]+@[^\s@]+\.[^\s@]+$/], on an ASCII text: one [@], no
    white space, a non-empty local part, and a dot strictly inside the
    domain part. *)
Definition email_regex (s : string) : bool :=
  match split_at "@" s with
  | Some (String a l, String b r) =>
      all_chars not_space_at (String a l) &&
      all_chars not_space_at (String b r) &&
      has_char is_dot (drop_last r)
  | _ => false
  end.

(** [/^[0-9]{10}$/] *)
Definition contact_regex (s : string) : bool :=
  all_chars is_digit s && (String.length s =? 10)%nat.

(** ** Documents under construction *)

(** The outcome of casting a value to the type of a schema path.  A cast
    that fails keeps the value it was given: a text, or ([None]) the
    invalid date that [new Date] made of a text. *)
Inductive cast (A : Type) : Type :=
| Absent
| CastFailed (given : option string)
| Value (a : A).
Arguments Absent {A}.
Arguments CastFailed {A} given.
Arguments Value {A} a.

(** The paths a caller may set, after casting and after the schema's
    setters ([trim], [lowercase]).  [p_validationStatus] is [None] when
    the caller does not supply the path. *)
Record Paths := mkPaths {
  p_name : option string;
  p_email : option string;
  p_dob : cast Z;
  p_contact : option string;
  p_state : option string;
  p_country : option string;
  p_validationStatus : option (option string)
}.

Definition set_trim (v : option string) : option string :=
  match v with Some s => Some (JS.trim s) | None => None end.

Definition set_email (v : option string) : option string :=
  match v with Some s => Some (JS.toLowerCase (JS.trim s)) | None => None end.

(** ** Validators, one entry per path: the first validator that fails

    What a validation error says of a path: the message of the validator
    of the schema that failed, or that the value given could not be cast,
    which Mongoose words itself. *)
Inductive reason :=
| Failed (msg : string)
| NotCast (given : option string).

Definition required_text (msg : string) (v : option string)
           (rest : string -> list string) : list string :=
  match v with
  | None | Some EmptyString => [msg]
  | Some s => rest s
  end.

(** [minlength] and [maxlength], on an ASCII text. *)
Definition check_length (what : string) (s : string) : list string :=
  if (String.length s <? 2)%nat
  then [what +:+ " must be at least 2 characters"]
  else if (50 <? String.length s)%nat
  then [what +:+ " cannot exceed 50 characters"]
  else [].

(** The [dob] validator of the schema, with the server clock in UTC:
    [minDate] is midnight of the same calendar day 120 years earlier. *)
Definition dob_in_range (today value : Z) : bool :=
  let minDate :=
    Dates.MakeDate
      (Dates.MakeDay (Dates.YearFromTime today - 120)
                     (Dates.MonthFromTime today) (Dates.DateFromTime today))
      0 in
  (value <=? today) && (minDate <=? value).

Definition tag (path : string) (msgs : list string) : list (string * reason) :=
  List.map (fun m => (path, Failed m)) msgs.

Definition validate_name (v : option string) :=
  tag "name" (required_text "Name is required" v (check_length "Name")).

Definition validate_email (v : option string) :=
  tag "email"
    (required_text "Email is required" v (fun s =>
       if email_regex s then [] else ["Please enter a valid email address"])).

(** A value that could not be cast is not validated again: its cast error
    is the entry of the path. *)
Definition validate_dob (today : Z) (v : cast Z) :=
  tag "dob"
    match v with
    | Absent => ["Date of birth is required"]
    | CastFailed _ => []
    | Value d =>
        if dob_in_range today d then []
        else ["Date of birth must be valid and not in the future or more than 120 years ago"]
    end.

(** The cast errors of a new document, which its constructor records
    before any validator runs. *)
Definition cast_errors (p_dob : cast Z) : list (string * reason) :=
  match p_dob with
  | CastFailed given => [("dob", NotCast given)]
  | _ => []
  end.

Definition validate_contact (v : option string) :=
  tag "contact"
    (required_text "Contact number is required" v (fun s =>
       if contact_regex s then []
       else ["Contact number must be a valid 10-digit number"])).

Definition validate_state (v : option string) :=
  tag "state" (required_text "State is required" v (check_length "State")).

Definition validate_country (v : option string) :=
  tag "country" (required_text "Country is required" v (check_length "Country")).

(** Validation of a whole new document. *)
Definition validate (today : Z) (p : Paths) : list (string * reason) :=
  cast_errors (p_dob p) ++
  validate_name (p_name p) ++ validate_email (p_email p) ++
  validate_dob today (p_dob p) ++ validate_contact (p_contact p) ++
  validate_state (p_state p) ++ validate_country (p_country p).

(** Update validators ([runValidators]): only the paths of the update. *)
Definition when_set {A} (present : bool) (errs : list A) : list A :=
  if present then errs else [].

Definition is_set {A} (v : option A) : bool :=
  match v with Some _ => true | None => false end.

Definition validate_update (today : Z) (p : Paths) : list (string * reason) :=
  when_set (is_set (p_name p)) (validate_name (p_name p)) ++
  when_set (is_set (p_email p)) (validate_email (p_email p)) ++
  when_set (match p_dob p with Absent => false | _ => true end)
           (validate_dob today (p_dob p)) ++
  when_set (is_set (p_contact p)) (validate_contact (p_contact p)) ++
  when_set (is_set (p_state p)) (validate_state (p_state p)) ++
  when_set (is_set (p_country p)) (validate_country (p_country p)).

(** ** Errors raised by the model *)

Inductive error :=
| ValidationError (errs : list (string * reason))
| EmailExists            (* E11000 on [save], rewritten by the post-save hook *)
| DuplicateKey (address : string)   (* E11000 on an update, as the server words it *)
| CastError (path : string) (given : option string).

(** [err.message].  The message of a validation error is a headline
    followed by the entries [path: message]; the headline names the model
    for a document that is saved and does not for an update.  The hook of
    the schema words the duplicate address of a [save].  Mongoose words
    the cast errors and the server the duplicate key of an update, from
    the value and from the name of the database: [worded] stands for
    these texts. *)
Definition entry_text (worded : error -> string) (entry : string * reason)
  : string :=
  fst entry +:+ ": " +:+
  match snd entry with
  | Failed msg => msg
  | NotCast given => worded (CastError (fst entry) given)
  end.

Definition message (worded : error -> string) (headline : string) (e : error)
  : string :=
  match e with
  | ValidationError errs =>
      headline +:+ ": " +:+ JS.join ", " (List.map (entry_text worded) errs)
  | EmailExists => "Email already exists"
  | DuplicateKey _ | CastError _ _ => worded e
  end.

Inductive result (A : Type) : Type :=
| Ok (a : A)
| Throw (e : error).
Arguments Ok {A} a.
Arguments Throw {A} e.

(** ** The collection *)

Definition collection := list User.

Definition email_taken (db : collection) (e : string) : bool :=
  existsb (fun u => String.eqb (email u) e) db.

(** An identifier no document of the collection carries. *)
Definition fresh_id (db : collection) : N :=
  N.succ (fold_right (fun u m => N.max (_id u) m) 0%N db).

Definition text (v : option string) : string :=
  match v with Some s => s | None => EmptyString end.

(** [new User(paths).save()] at time [now]: validation, the pre-save
    hook (which leaves the defaulted [createdAt] alone), the insertion
    under the unique index on [email].  A path that is not supplied takes
    its schema default: [createdAt] is [now], [validationStatus] is
    [null]. *)
Definition save (now : Z) (db : collection) (p : Paths)
  : result (User * collection) :=
  match validate now p with
  | (_ :: _) as errs => Throw (ValidationError errs)
  | [] =>
      match p_dob p with
      | Value d =>
          if email_taken db (text (p_email p)) then Throw EmailExists
          else
            let u := {| _id := fresh_id db;
                        name := text (p_name p);
                        email := text (p_email p);
                        dob := d;
                        contact := text (p_contact p);
                        state := text (p_state p);
                        country := text (p_country p);
                        createdAt := now;
                        validationStatus :=
                          match p_validationStatus p with
                          | Some v => v
                          | None => None
                          end |} in
            Ok (u, (db ++ [u])%list)
      | _ => Throw (ValidationError (cast_errors (p_dob p)))
      end
  end.

(** ** Identifiers: 24 hexadecimal digits *)

Definition castObjectId (s : string) : option N :=
  if (String.length s =? 24)%nat then
    match JS.scan JS.hex_val 16 0 0 s with
    | (v, _, EmptyString) => Some (Z.to_N v)
    | _ => None
    end
  else None.

Fixpoint find_id (i : N) (db : collection) : option User :=
  match db with
  | u :: db' => if N.eqb (_id u) i then Some u else find_id i db'
  | [] => None
  end.

Definition findById (db : collection) (id : string) : result (option User) :=
  match castObjectId id with
  | Some i => Ok (find_id i db)
  | None => Throw (CastError "_id" (Some id))
  end.

Definition or_else {A} (v : option A) (old : A) : A :=
  match v with Some a => a | None => old end.

(** [$set] of the supplied paths on one document. *)
Definition apply_update (p : Paths) (u : User) : User :=
  {| _id := _id u;
     name := or_else (p_name p) (name u);
     email := or_else (p_email p) (email u);
     dob := match p_dob p with Value d => d | _ => dob u end;
     contact := or_else (p_contact p) (contact u);
     state := or_else (p_state p) (state u);
     country := or_else (p_country p) (country u);
     createdAt := createdAt u;
     validationStatus := or_else (p_validationStatus p) (validationStatus u) |}.

Fixpoint replace_id (i : N) (u' : User) (db : collection) : collection :=
  match db with
  | u :: db' => if N.eqb (_id u) i then u' :: db' else u :: replace_id i u' db'
  | [] => []
  end.

Definition email_clash (db : collection) (i : N) (p : Paths) : bool :=
  match p_email p with
  | Some e =>
      existsb (fun u => negb (N.eqb (_id u) i) && String.eqb (email u) e) db
  | None => false
  end.

(** [findByIdAndUpdate(id, paths, { new: true, runValidators })]: the
    updated document, or [null] when no document has this identifier. *)
Definition findByIdAndUpdate (runValidators : bool) (now : Z)
           (db : collection) (id : string) (p : Paths)
  : result (option User * collection) :=
  match castObjectId id with
  | None => Throw (CastError "_id" (Some id))
  | Some i =>
      match p_dob p with
      | CastFailed given => Throw (CastError "dob" given)
      | _ =>
          match (if runValidators then validate_update now p else []) with
          | (_ :: _) as errs => Throw (ValidationError errs)
          | [] =>
              match find_id i db with
              | None => Ok (None, db)
              | Some u =>
                  if email_clash db i p
                  then Throw (DuplicateKey (text (p_email p)))
                  else
                    let u' := apply_update p u in
                    Ok (Some u', replace_id i u' db)
              end
          end
      end
  end.

Fixpoint remove_id (i : N) (db : collection) : collection :=
  match db with
  | u :: db' => if N.eqb (_id u) i then db' else u :: remove_id i db'
  | [] => []
  end.

(** [findByIdAndDelete(id)]: the removed document, or [null]. *)
Definition findByIdAndDelete (db : collection) (id : string)
  : result (option User * collection) :=
  match castObjectId id with
  | None => Throw (CastError "_id" (Some id))
  | Some i => Ok (find_id i db, remove_id i db)
  end.

End Model.

(* ===================================================================== *)
(** * The e-mail validation gateway: [validateEmail] *)
(* ===================================================================== *)

Module Gateway.

(** Values found in the payloads of the deliverability service.  The
    gateway only looks at the presence and the type of fields; numbers
    in payloads are integers here. *)
#[local] Unset Elimination Schemes.
Inductive jsval :=
| JUndefined
| JNull
| JBool (b : bool)
| JNumber (z : Z)
| JString (s : string)
| JObject (fields : list (string * jsval)).
#[local] Set Elimination Schemes.

(** What [axios.get] settles to: a response with its [data], or a
    rejection with the error's [message] and, when the service answered
    with an error status, the [data] of [error.response]. *)
Inductive axios_outcome :=
| Resolved (data : jsval)
| Rejected (message : string) (response_data : option jsval).

Definition falsy (v : jsval) : bool :=
  match v with
  | JUndefined | JNull | JBool false | JNumber 0 | JString EmptyString => true
  | _ => false
  end.

Fixpoint lookup_field (k : string) (fs : list (string * jsval)) : jsval :=
  match fs with
  | (k', v) :: fs' => if String.eqb k k' then v else lookup_field k fs'
  | [] => JUndefined
  end.

(** [v.k] on a value that is neither [undefined] nor [null]. *)
Definition get (v : jsval) (k : string) : jsval :=
  match v with
  | JObject fs => lookup_field k fs
  | _ => JUndefined
  end.

(** String concatenation's conversion of a value. *)
Definition to_text (v : jsval) : string :=
  match v with
  | JUndefined => "undefined"
  | JNull => "null"
  | JBool true => "true"
  | JBool false => "false"
  | JNumber z => JS.string_of_Z z
  | JString s => s
  | JObject _ => "[object Object]"
  end.

Record verdict := mkVerdict { isValid : bool; message : string }.

(** A settled [async] call: a value, or a thrown [Error] with its
    message. *)
Inductive settled (A : Type) : Type :=
| Returned (a : A)
| Thrown (msg : string).
Arguments Returned {A} a.
Arguments Thrown {A} msg.

(** The body of the [try] block, on the data of a response. *)
Definition classify (data : jsval) : settled verdict :=
  if falsy data then Thrown "Invalid API response format"
  else
    match get data "deliverability", get data "quality_score" with
    | JString deliverability, JString quality_score =>
        let isValid :=
          String.eqb deliverability "DELIVERABLE" &&
          JS.gt (JS.parseFloat quality_score) JS.lit_0_7 in
        Returned
          {| isValid := isValid;
             message :=
               if isValid then "Email validated"
               else "Email " +:+ JS.toLowerCase deliverability +:+
                    " (Quality: " +:+ quality_score +:+ ")" |}
    | _, _ => Thrown "Invalid API response format"
    end.

(** The [catch] block: every failure is thrown again. *)
Definition rethrow (message : string) (response_data : option jsval)
  : settled verdict :=
  match response_data with
  | None => Thrown ("Failed to validate email: " +:+ message)
  | Some JUndefined =>
      Thrown "Cannot read properties of undefined (reading 'error')"
  | Some JNull =>
      Thrown "Cannot read properties of null (reading 'error')"
  | Some d =>
      Thrown ("Failed to validate email: " +:+ to_text (get d "error"))
  end.

(** [validateEmail], on what the outbound call settles to. *)
Definition validateEmail (o : axios_outcome) : settled verdict :=
  match o with
  | Resolved data =>
      match classify data with
      | Returned v => Returned v
      | Thrown msg => rethrow msg None
      end
  | Rejected message response_data => rethrow message response_data
  end.

(** The texts [validateEmail] looks into, [deliverability] and
    [quality_score], are made of ASCII characters. *)
Definition ascii_field (v : jsval) : bool :=
  match v with
  | JString s => JS.is_ascii s
  | _ => true
  end.

Definition plain_answer (o : axios_outcome) : bool :=
  match o with
  | Resolved data =>
      ascii_field (get data "deliverability") &&
      ascii_field (get data "quality_score")
  | Rejected _ _ => true
  end.

End Gateway.

(* ===================================================================== *)
(** * The rate limiter *)
(* ===================================================================== *)

Module Limiter.

Definition windowMs : Z := 15 * 60 * 1000.
Definition max : Z := 100.

(** Per client, the times of the requests let through. *)
Definition table := gmap string (list Z).

Definition recent (now : Z) (ts : list Z) : list Z :=
  List.filter (fun t => now - windowMs <? t) ts.

(** Modelled from the spec: the middleware built by [rateLimit] (package
    express-rate-limit, not part of the repository) lets a client through
    while fewer than [max] of its requests were let through during the
    last [windowMs] milliseconds and rejects every other request
    outright.  The result is [(allowed, table')]. *)
Definition apiLimiter (now : Z) (client : string) (tb : table) : bool * table :=
  let ts := recent now (default [] (tb !! client)) in
  if Z.of_nat (length ts) <? max
  then (true, <[client := now :: ts]> tb)
  else (false, <[client := ts]> tb).

End Limiter.

(* ===================================================================== *)
(** * Requests, sessions, responses *)
(* ===================================================================== *)

Module Http.

Inductive method := GET | POST | PUT | DELETE.

(** [req.query], with the parameters the handlers read. *)
Record Query := mkQuery {
  q_email : option string;
  q_page : option string;
  q_limit : option string;
  q_search : option string
}.

(** [req.body], with the fields the handlers read; a field is a string
    or absent. *)
Record Body := mkBody {
  b_name : option string;
  b_email : option string;
  b_dob : option string;
  b_contact : option string;
  b_state : option string;
  b_country : option string;
  b_username : option string;
  b_password : option string
}.

Record Request := mkRequest {
  meth : method;
  path : string;
  query : Query;
  body : Body;
  ip : string;          (* the client, as the rate limiter keys it *)
  now : Z               (* the clock when the request is handled *)
}.

(** [req.session]: [attempts] is [undefined] until the middleware in
    front of the login routes initialises it. *)
Record Session := mkSession {
  isAdmin : bool;
  attempts : option Z
}.

Definition fresh_session : Session :=
  {| isAdmin := false; attempts := None |}.

(** The counter as the login route reads it: the middleware in front of it
    has turned [undefined] into 0. *)
Definition failed_attempts (s : Session) : Z := default 0 (attempts s).

(** A chart series of the dashboard. *)
Record series := mkSeries { labels : list string; data : list Z }.

Definition empty_series : series := {| labels := []; data := [] |}.

Inductive view :=
| V_index (error success validationMessage : option string)
| V_about
| V_admin (error : option string)
| V_users (users : list Model.User) (page totalPages : Z) (error : option string)
| V_create
| V_edit (user : option Model.User) (error : option string)
| V_dashboard (totalUsers : Z)
              (usersOverTime usersByCountry ageDistribution topStates : series)
              (recentUsers : list Model.User).

Inductive json :=
| J_verdict (isValid : bool) (message : string)
| J_users (users : list Model.User) (page totalPages totalUsers : Z)
| J_users_error (error : string)   (* with users [], page 1, totalPages 1, totalUsers 0 *)
| J_user (user : Model.User)
| J_error (error : string)
| J_errors (errors : list (string * string)).   (* (param, msg) *)

Inductive response :=
| Render (status : Z) (v : view)
| Json (status : Z) (j : json)
| Redirect (location : string)
| Empty (status : Z)
| Attachment (filename : string) (fields : list string) (rows : list Model.User)
| TooManyRequests
| NotFound
| NoResponse.     (* a rejection outside every [try]: nothing is sent *)

(** ** Paths

    The application sets neither [case sensitive routing] nor [strict
    routing]: a registered path matches the request path whatever the case
    of its letters, with or without one [/] at the end.  The registered
    paths are written in lower case. *)

Fixpoint strip_prefix (p s : string) : option string :=
  match p, s with
  | EmptyString, _ => Some s
  | String a p', String b s' =>
      if Ascii.eqb a b then strip_prefix p' s' else None
  | String _ _, EmptyString => None
  end.

Definition is_slash (c : ascii) : bool := Ascii.eqb c "/".

(** The request path with its letters A-Z in lower case: what a registered
    path is compared with. *)
Fixpoint fold_case (s : string) : string :=
  match s with
  | String c s' => String (JS.lower_char c) (fold_case s')
  | EmptyString => EmptyString
  end.

(** A registered path without parameter against the folded request
    path. *)
Definition path_is (registered t : string) : bool :=
  String.eqb t registered || String.eqb t (registered +:+ "/").

(** The path [/] is matched by [/] and by the empty path. *)
Definition path_is_root (t : string) : bool :=
  String.eqb t "/" || String.eqb t EmptyString.

Fixpoint drop (n : nat) (s : string) : string :=
  match n, s with
  | S n', String _ s' => drop n' s'
  | _, _ => s
  end.

(** Without the [/] at its end, if it has one. *)
Fixpoint strip_slash (s : string) : string :=
  match s with
  | EmptyString => EmptyString
  | String c EmptyString => if is_slash c then EmptyString else s
  | String c s' => String c (strip_slash s')
  end.

(** The [:id] of a route [prefix:id], as it is written in the request
    path: one non-empty path segment. *)
Definition param_after (prefix s : string) : option string :=
  match strip_prefix prefix (fold_case s) with
  | Some _ =>
      match strip_slash (drop (String.length prefix) s) with
      | String c r =>
          if Model.has_char is_slash (String c r) then None
          else Some (String c r)
      | EmptyString => None
      end
  | None => None
  end.

(** [app.use(mount, ...)]: the middleware runs for the mount path itself
    and for the paths below it, that is when the request path continues
    with a [/] right after the mount path. *)
Definition mount_matches (mount s : string) : bool :=
  match strip_prefix mount (fold_case s) with
  | Some EmptyString => true
  | Some (String c _) => is_slash c
  | None => false
  end.

End Http.

(* ===================================================================== *)
(** * The dashboard's aggregation pipelines *)
(* ===================================================================== *)

Module Dashboard.

Import Model Http.

Section Grouping.
Context {K : Type} (eqb : K -> K -> bool).

Fixpoint bump (k : K) (groups : list (K * Z)) : list (K * Z) :=
  match groups with
  | (k', n) :: groups' =>
      if eqb k k' then (k', n + 1) :: groups' else (k', n) :: bump k groups'
  | [] => [(k, 1)]
  end.

(** [{ $group: { _id: key, count: { $sum: 1 } } }]; the groups come in
    the order of their first document. *)
Definition group_count (keys : list K) : list (K * Z) :=
  fold_left (fun groups k => bump k groups) keys [].
End Grouping.

Section Sorting.
Context {A : Type} (before : A -> A -> bool).

Fixpoint insert_sorted (x : A) (l : list A) : list A :=
  match l with
  | y :: l' => if before y x then y :: insert_sorted x l' else x :: l
  | [] => [x]
  end.

(** [$sort], stable: [before y x] when [y] may stay in front of [x]. *)
Definition sort (l : list A) : list A :=
  fold_left (fun acc x => insert_sorted x acc) l [].
End Sorting.

Definition count_desc {K} (a b : K * Z) : bool := snd b <=? snd a.

Definition or_unknown (s : string) : string :=
  match s with EmptyString => "Unknown" | _ => s end.

(** [usersByYear]: documents per calendar year of [createdAt], by
    ascending year. *)
Definition usersByYear (db : collection) : list (Z * Z) :=
  sort (fun a b => fst a <=? fst b)
       (group_count Z.eqb (List.map (fun u => Dates.YearFromTime (createdAt u)) db)).

Definition usersByCountryAgg (db : collection) : list (string * Z) :=
  sort count_desc (group_count String.eqb (List.map country db)).

(** ** The age histogram *)

(** [1000 * 60 * 60 * 24 * 365.25] *)
Definition msPerYear : Z := 31557600000.

(** [$floor] of [$divide] of [$subtract: [today, "$dob"]] by
    [msPerYear].  Both operands of the division are integers below
    [2^53], so the floor of the double quotient is the floor of the exact
    quotient. *)
Definition age (today dob : Z) : Z := (today - dob) / msPerYear.

Inductive bucket_id :=
| Lower (b : Z)
| Other.

Definition boundaries : list Z := [0; 18; 30; 45; 60; 120].

(** [$bucket]: the lower boundary of the range [[b, b')] of consecutive
    boundaries that holds the value, the default otherwise. *)
Fixpoint bucket_in (bs : list Z) (x : Z) : bucket_id :=
  match bs with
  | b :: ((b' :: _) as bs') =>
      if (b <=? x) && (x <? b') then Lower b else bucket_in bs' x
  | _ => Other
  end.

Definition bucket_of (today : Z) (u : User) : bucket_id :=
  bucket_in boundaries (age today (dob u)).

Definition bucket_eqb (a b : bucket_id) : bool :=
  match a, b with
  | Lower x, Lower y => x =? y
  | Other, Other => true
  | _, _ => false
  end.

Definition bucket_ids : list bucket_id :=
  [Lower 0; Lower 18; Lower 30; Lower 45; Lower 60; Other].

(** The number of documents of a bucket. *)
Definition bucket_count (today : Z) (db : collection) (b : bucket_id) : Z :=
  Z.of_nat (length (List.filter (fun u => bucket_eqb (bucket_of today u) b) db)).

(** The output of the [$bucket] stage: the buckets that hold at least
    one document, in the order of their boundaries. *)
Definition ageDistributionAgg (today : Z) (db : collection)
  : list (bucket_id * Z) :=
  List.filter (fun bc => 0 <? snd bc)
    (List.map (fun b => (b, bucket_count today db b)) bucket_ids).

(** The document [u] is one of those the count of bucket [b] counts, and
    the bucket is part of the output of the stage. *)
Definition counts_in (today : Z) (db : collection) (u : User)
           (b : bucket_id) : Prop :=
  In u (List.filter (fun v => bucket_eqb (bucket_of today v) b) db) /\
  In (b, bucket_count today db b) (ageDistributionAgg today db).

Definition bucket_label (b : bucket_id) : string :=
  match b with
  | Other => "Other"
  | Lower x =>
      JS.string_of_Z x +:+ "-" +:+
      JS.string_of_Z (x + (if x =? 60 then 60 else 14))
  end.

Definition topStatesAgg (db : collection) (c : string) : list (string * Z) :=
  firstn 5
    (sort count_desc
       (group_count String.eqb
          (List.map state (List.filter (fun u => String.eqb (country u) c) db)))).

Definition recentUsers (db : collection) : list User :=
  firstn 5 (sort (fun a b => createdAt b <=? createdAt a) db).

Definition series_of {K} (label : K -> string) (agg : list (K * Z)) : series :=
  {| labels := List.map (fun item => label (fst item)) agg;
     data := List.map snd agg |}.

(** The variables the dashboard view is rendered with. *)
Definition compute (today : Z) (db : collection) : view :=
  let totalUsers := Z.of_nat (length db) in
  if 0 <? totalUsers then
    let byCountry := usersByCountryAgg db in
    let mostCommonCountry :=
      match byCountry with
      | (c, _) :: _ => c
      | [] => EmptyString
      end in
    V_dashboard totalUsers
      (series_of JS.string_of_Z (usersByYear db))
      (series_of or_unknown byCountry)
      (series_of bucket_label (ageDistributionAgg today db))
      (match mostCommonCountry with
       | EmptyString => empty_series
       | _ => series_of or_unknown (topStatesAgg db mostCommonCountry)
       end)
      (recentUsers db)
  else
    V_dashboard totalUsers empty_series empty_series empty_series
                empty_series [].

End Dashboard.

(* ===================================================================== *)
(** * The application *)
(* ===================================================================== *)

Module App.

Import Model Gateway Http.

(** The state shared by all requests: the [users] collection, the
    addresses sent to the deliverability service (latest first), and the
    rate limiter's table. *)
Record World := mkWorld {
  users : collection;
  outbound : list (option string);
  hits : Limiter.table
}.

Definition with_users (w : World) (db : collection) : World :=
  {| users := db; outbound := outbound w; hits := hits w |}.

Definition with_call (w : World) (address : option string) : World :=
  {| users := users w; outbound := address :: outbound w; hits := hits w |}.

Definition with_hits (w : World) (tb : Limiter.table) : World :=
  {| users := users w; outbound := outbound w; hits := tb |}.

(** [process.env.X || dflt] *)
Definition env_or (v : option string) (dflt : string) : string :=
  if JS.truthy v then Model.text v else dflt.

(** The emoji of the login messages, as UTF-8. *)
Definition no_entry : string :=
  String (ascii_of_nat 240) (String (ascii_of_nat 159)
    (String (ascii_of_nat 154) (String (ascii_of_nat 171) EmptyString))).
Definition cross_mark : string :=
  String (ascii_of_nat 226) (String (ascii_of_nat 157)
    (String (ascii_of_nat 140) EmptyString)).

Inductive route :=
| R_validate_email          (* GET /api/validate-email *)
| R_api_list                (* GET /api/users *)
| R_api_get (id : string)   (* GET /api/users/:id *)
| R_api_create              (* POST /api/users *)
| R_api_update (id : string) (* PUT /api/users/:id *)
| R_api_delete (id : string) (* DELETE /api/users/:id *)
| R_api_delete_all          (* DELETE /api/users *)
| R_index                   (* GET / *)
| R_about                   (* GET /about *)
| R_submit                  (* POST /submit *)
| R_users                   (* GET /users *)
| R_create                  (* GET /create *)
| R_delete_all              (* GET /delete-all *)
| R_export                  (* GET /export *)
| R_edit (id : string)      (* GET /edit/:id *)
| R_update (id : string)    (* POST /update/:id *)
| R_delete (id : string)    (* GET /delete/:id *)
| R_dashboard               (* GET /dashboard *)
| R_admin                   (* GET /admin *)
| R_login                   (* POST /admin *)
| R_logout                  (* GET /logout *)
| R_malformed.              (* a parameter that cannot be decoded *)

(** [req.params.id]: the segment of the path, decoded. *)
Definition with_param (prefix s : string) (r : string -> route) : option route :=
  match param_after prefix s with
  | Some segment =>
      match JS.decodeURIComponent segment with
      | Some id => Some (r id)
      | None => None
      end
  | None => None
  end.

(** The registered paths that take a parameter. *)
Definition param_prefixes : list string :=
  ["/api/users/"; "/edit/"; "/update/"; "/delete/"].

(** The router decodes the parameter of a registered path as soon as the
    path matches, before it looks at the method: a parameter that cannot be
    decoded is an error, which no later route takes up. *)
Definition undecodable (s : string) : bool :=
  existsb (fun prefix =>
             match param_after prefix s with
             | Some segment =>
                 match JS.decodeURIComponent segment with
                 | Some _ => false
                 | None => true
                 end
             | None => false
             end) param_prefixes.

(** The first route registered for the method whose path matches. *)
Definition route_of (m : method) (s : string) : option route :=
  let t := fold_case s in
  if undecodable s then Some R_malformed
  else
  match m with
  | GET =>
      if path_is "/api/validate-email" t then Some R_validate_email
      else if path_is "/api/users" t then Some R_api_list
      else match with_param "/api/users/" s R_api_get with
      | Some r => Some r
      | None =>
      if path_is_root t then Some R_index
      else if path_is "/about" t then Some R_about
      else if path_is "/users" t then Some R_users
      else if path_is "/create" t then Some R_create
      else if path_is "/delete-all" t then Some R_delete_all
      else if path_is "/export" t then Some R_export
      else match with_param "/edit/" s R_edit with
      | Some r => Some r
      | None =>
      match with_param "/delete/" s R_delete with
      | Some r => Some r
      | None =>
      if path_is "/dashboard" t then Some R_dashboard
      else if path_is "/admin" t then Some R_admin
      else if path_is "/logout" t then Some R_logout
      else None
      end end end
  | POST =>
      if path_is "/api/users" t then Some R_api_create
      else if path_is "/submit" t then Some R_submit
      else match with_param "/update/" s R_update with
      | Some r => Some r
      | None => if path_is "/admin" t then Some R_login else None
      end
  | PUT => with_param "/api/users/" s R_api_update
  | DELETE =>
      match with_param "/api/users/" s R_api_delete with
      | Some r => Some r
      | None => if path_is "/api/users" t then Some R_api_delete_all else None
      end
  end.

(** The routes the interface description lists as admin-only. *)
Definition admin_only (r : route) : bool :=
  match r with
  | R_api_list | R_api_get _ | R_api_create | R_api_update _
  | R_api_delete _ | R_api_delete_all
  | R_users | R_create | R_delete_all | R_export | R_edit _ | R_update _
  | R_delete _ | R_dashboard => true
  | _ => false
  end.

(** The texts of a body that the handlers look into are made of ASCII
    characters. *)
Definition plain_body (b : Body) : bool :=
  JS.is_ascii (Model.text (b_name b)) && JS.is_ascii (Model.text (b_email b)) &&
  JS.is_ascii (Model.text (b_dob b)) && JS.is_ascii (Model.text (b_contact b)) &&
  JS.is_ascii (Model.text (b_state b)) && JS.is_ascii (Model.text (b_country b)).

(** The same for the parameters of the query. *)
Definition plain_query (q : Query) : bool :=
  JS.is_ascii (Model.text (q_page q)) && JS.is_ascii (Model.text (q_limit q)) &&
  JS.is_ascii (Model.text (q_search q)).

(** ** The handlers, over the external collaborators *)

Section Application.

(** validator.js: [isEmail] and [isDate] with their default options. *)
Variable isEmail : string -> bool.
Variable isDate : string -> bool.
(** [new Date(string)]: the time value, [None] for an invalid date. *)
Variable parseDate : string -> option Z.
(** MongoDB's [{ $regex: pattern, $options: 'i' }] as a predicate on
    the subject, [None] when the pattern does not compile. *)
Variable regex_i : string -> option (string -> bool).
(** What the call to the deliverability service settles to, for the
    address it is asked about. *)
Variable axios_get : option string -> axios_outcome.
(** The messages of the errors that Mongoose and the MongoDB server
    word themselves: cast errors and the duplicate key of an update. *)
Variable worded : Model.error -> string.
(** [process.env.ADMIN_USER] and [process.env.ADMIN_PASS]. *)
Variable env_ADMIN_USER env_ADMIN_PASS : option string.

Definition ADMIN_USER : string := env_or env_ADMIN_USER "admin".
Definition ADMIN_PASSWORD : string := env_or env_ADMIN_PASS "admin123".

(** ** The validation chains of express-validator *)

Definition check (ok : bool) (param msg : string) : list (string * string) :=
  if ok then [] else [(param, msg)].

Definition nonEmpty (s : string) : bool :=
  match s with EmptyString => false | _ => true end.

(** One validator of a chain; with [optional] an absent field is
    skipped. *)
Definition chain (optional : bool) (v : option string)
           (test : string -> bool) (param msg : string)
  : list (string * string) :=
  match v with
  | None => if optional then [] else check (test EmptyString) param msg
  | Some s => check (test s) param msg
  end.

(** The [trim] sanitizer writes the trimmed text back to the body. *)
Definition sanitize (optional : bool) (v : option string) : option string :=
  match v with
  | None => if optional then None else Some EmptyString
  | Some s => Some (JS.trim s)
  end.

(** The six-field chain of the create and update routes: the errors,
    in the order of the chain. *)
Definition validationErrors (optional : bool) (b : Body)
  : list (string * string) :=
  chain optional (sanitize optional (b_name b)) nonEmpty
        "name" "Name is required" ++
  chain optional (b_email b) isEmail "email" "Invalid email address" ++
  chain optional (b_dob b) isDate "dob" "Invalid date of birth" ++
  chain optional (b_contact b) contact_regex
        "contact" "Contact must be a valid 10-digit number" ++
  chain optional (sanitize optional (b_state b)) nonEmpty
        "state" "State is required" ++
  chain optional (sanitize optional (b_country b)) nonEmpty
        "country" "Country is required".

(** The body after the sanitizers ran. *)
Definition sanitized (optional : bool) (b : Body) : Body :=
  {| b_name := sanitize optional (b_name b);
     b_email := b_email b;
     b_dob := b_dob b;
     b_contact := b_contact b;
     b_state := sanitize optional (b_state b);
     b_country := sanitize optional (b_country b);
     b_username := b_username b;
     b_password := b_password b |}.

(** [errors.array().map((e) => e.msg).join(", ")] *)
Definition joined (errs : list (string * string)) : string :=
  JS.join ", " (List.map snd errs).

(** ** Casting request values to schema paths *)

(** A string given for the [dob] path. *)
Definition cast_date_text (v : option string) : cast Z :=
  match v with
  | None | Some EmptyString => Absent
  | Some s =>
      match parseDate s with
      | Some t => Value t
      | None => CastFailed (Some s)
      end
  end.

(** ** The messages of the errors the handlers catch *)

(** [err.message] of an error thrown by [save]. *)
Definition save_message (e : error) : string :=
  Model.message worded "User validation failed" e.

(** [err.message] of an error thrown by [findByIdAndUpdate]. *)
Definition update_message (e : error) : string :=
  Model.message worded "Validation failed" e.

(** [text || dflt] *)
Definition or_text (text dflt : string) : string :=
  match text with EmptyString => dflt | _ => text end.

(** [new User({ name, email, dob, contact, state, country })], with
    [validationStatus] when the caller gives one. *)
Definition new_user (b : Body) (status : option (option string)) : Paths :=
  {| p_name := set_trim (b_name b);
     p_email := set_email (b_email b);
     p_dob := cast_date_text (b_dob b);
     p_contact := b_contact b;
     p_state := set_trim (b_state b);
     p_country := set_trim (b_country b);
     p_validationStatus := status |}.

(** ** [ensureAdmin] *)

Definition ensureAdmin {A} (s : Session) (w : A)
           (next : response * A) : response * A :=
  if isAdmin s then next else (Redirect "/admin", w).

(** ** The gateway call of a handler: the call is logged, the verdict
    is what [validateEmail] makes of the service's answer. *)
Definition call_gateway (w : World) (address : option string)
  : settled verdict * World :=
  (validateEmail (axios_get address), with_call w address).

(** ** Public routes *)

(** [GET /api/validate-email] *)
Definition get_validate_email (w : World) (r : Request) : response * World :=
  let email := q_email (query r) in
  if negb (JS.truthy email)
  then (Json 400 (J_verdict false "Email is required"), w)
  else
    match call_gateway w email with
    | (Returned v, w') => (Json 200 (J_verdict (isValid v) (message v)), w')
    | (Thrown msg, w') =>
        (Json 500 (J_verdict false
                     ("Validation service unavailable: " +:+ msg)), w')
    end.

(** [POST /submit] *)
Definition post_submit (w : World) (r : Request) : response * World :=
  match validationErrors false (body r) with
  | (_ :: _) as errs =>
      (Render 200 (V_index (Some (joined errs)) None None), w)
  | [] =>
      let b := sanitized false (body r) in
      let '(outcome, w1) := call_gateway w (b_email b) in
      let proceed (validationMessage : option string) :=
        match save (now r) (users w1) (new_user b (Some validationMessage)) with
        | Ok (_, db') =>
            (Render 200 (V_index None (Some "Form submitted successfully!")
                                 validationMessage),
             with_users w1 db')
        | Throw e =>
            (Render 200 (V_index (Some ("Server error: " +:+ save_message e))
                                 None None), w1)
        end in
      match outcome with
      | Returned v =>
          if isValid v then proceed (Some (message v))
          else (Render 200 (V_index (Some (message v)) None None), w1)
      | Thrown _ => proceed (Some "Validation unavailable")
      end
  end.

(** ** The JSON API *)

(** [find(query).skip(skip).limit(limit)]: MongoDB refuses a negative
    [skip] and reads a negative [limit] as its absolute value. *)
Definition find_page (db : collection) (skip limit : Z) : option (list User) :=
  if skip <? 0 then None
  else Some (firstn (Z.to_nat (Z.abs limit)) (skipn (Z.to_nat skip) db)).

(** [Math.ceil(total / limit)] *)
Definition ceil_div (total limit : Z) : Z := - ((- total) / limit).

(** The documents matching the [search] filter on [name], [None] when
    the query fails. *)
Definition matching (db : collection) (search : string) : option collection :=
  match search with
  | EmptyString => Some db
  | _ =>
      match regex_i search with
      | Some p => Some (List.filter (fun u => p (name u)) db)
      | None => None
      end
  end.

(** [GET /api/users] *)
Definition api_list (w : World) (r : Request) : response * World :=
  let page := JS.parseInt_or (q_page (query r)) 1 in
  let limit := JS.parseInt_or (q_limit (query r)) 50 in
  let skip := (page - 1) * limit in
  let search :=
    if JS.truthy (q_search (query r))
    then JS.trim (Model.text (q_search (query r))) else EmptyString in
  let failed := (Json 500 (J_users_error "Error fetching users"), w) in
  match matching (users w) search with
  | None => failed
  | Some found =>
      let total := Z.of_nat (length found) in
      match find_page found skip limit with
      | None => failed
      | Some us => (Json 200 (J_users us page (ceil_div total limit) total), w)
      end
  end.

(** [GET /api/users/:id] *)
Definition api_get (id : string) (w : World) : response * World :=
  match findById (users w) id with
  | Ok (Some u) => (Json 200 (J_user u), w)
  | Ok None => (Json 404 (J_error "User not found"), w)
  | Throw _ => (Json 500 (J_error "Error fetching user"), w)
  end.

(** [POST /api/users] *)
Definition api_create (w : World) (r : Request) : response * World :=
  match validationErrors false (body r) with
  | (_ :: _) as errs => (Json 400 (J_errors errs), w)
  | [] =>
      let b := sanitized false (body r) in
      match save (now r) (users w) (new_user b None) with
      | Ok (u, db') => (Json 201 (J_user u), with_users w db')
      | Throw e =>
          (Json 500 (J_error (or_text (save_message e) "Error creating user")), w)
      end
  end.

(** [if (v) updateData.path = v] *)
Definition if_truthy (v : option string) : option string :=
  if JS.truthy v then v else None.

(** [new Date(dob)] given for the [dob] path of an update. *)
Definition cast_date_value (v : option string) : cast Z :=
  match v with
  | None => CastFailed None
  | Some s =>
      match parseDate s with
      | Some t => Value t
      | None => CastFailed None
      end
  end.

(** The [updateData] of [PUT /api/users/:id]. *)
Definition api_updateData (b : Body) : Paths :=
  {| p_name := set_trim (if_truthy (b_name b));
     p_email := set_email (if_truthy (b_email b));
     p_dob := if JS.truthy (b_dob b) then cast_date_value (b_dob b) else Absent;
     p_contact := if_truthy (b_contact b);
     p_state := set_trim (if_truthy (b_state b));
     p_country := set_trim (if_truthy (b_country b));
     p_validationStatus := None |}.

(** [PUT /api/users/:id] *)
Definition api_update (id : string) (w : World) (r : Request)
  : response * World :=
  match validationErrors true (body r) with
  | (_ :: _) as errs => (Json 400 (J_errors errs), w)
  | [] =>
      let b := sanitized true (body r) in
      match findByIdAndUpdate false (now r) (users w) id (api_updateData b) with
      | Ok (Some u, db') => (Json 200 (J_user u), with_users w db')
      | Ok (None, _) => (Json 404 (J_error "User not found"), w)
      | Throw e =>
          (Json 500 (J_error (or_text (update_message e) "Error updating user")), w)
      end
  end.

(** [DELETE /api/users/:id] *)
Definition api_delete (id : string) (w : World) : response * World :=
  match findByIdAndDelete (users w) id with
  | Ok (Some _, db') => (Empty 204, with_users w db')
  | Ok (None, _) => (Json 404 (J_error "User not found"), w)
  | Throw _ => (Json 500 (J_error "Error deleting user"), w)
  end.

(** [DELETE /api/users] *)
Definition api_delete_all (w : World) : response * World :=
  (Empty 204, with_users w []).

(** ** Rendered admin routes *)

(** [GET /users] *)
Definition get_users (w : World) (r : Request) : response * World :=
  let page := JS.parseInt_or (q_page (query r)) 1 in
  let limit := 10 in
  let skip := (page - 1) * limit in
  let total := Z.of_nat (length (users w)) in
  match find_page (users w) skip limit with
  | Some us => (Render 200 (V_users us page (ceil_div total limit) None), w)
  | None =>
      (Render 200 (V_users [] 1 1
                     (Some "Error loading users. Please try again.")), w)
  end.

(** [GET /delete-all] *)
Definition get_delete_all (w : World) : response * World :=
  (Redirect "/users", with_users w []).

Definition export_fields : list string :=
  ["name"; "email"; "dob"; "contact"; "state"; "country"; "createdAt";
   "validationStatus"].

(** [GET /export] *)
Definition get_export (w : World) : response * World :=
  (Attachment "users.csv" export_fields (users w), w).

(** [GET /edit/:id] *)
Definition get_edit (id : string) (w : World) : response * World :=
  match findById (users w) id with
  | Ok (Some u) => (Render 200 (V_edit (Some u) None), w)
  | _ => (Redirect "/users", w)
  end.

(** The [updateData] of [POST /update/:id]. *)
Definition form_updateData (b : Body) (validationMessage : option string)
  : Paths :=
  {| p_name := set_trim (b_name b);
     p_email := set_email (b_email b);
     p_dob := cast_date_value (b_dob b);
     p_contact := b_contact b;
     p_state := set_trim (b_state b);
     p_country := set_trim (b_country b);
     p_validationStatus := Some validationMessage |}.

(** [POST /update/:id] *)
Definition post_update (id : string) (w : World) (r : Request)
  : response * World :=
  match validationErrors false (body r) with
  | (_ :: _) as errs =>
      match findById (users w) id with
      | Throw _ => (NoResponse, w)
      | Ok None => (Redirect "/users", w)
      | Ok (Some u) => (Render 400 (V_edit (Some u) (Some (joined errs))), w)
      end
  | [] =>
      let b := sanitized false (body r) in
      match findById (users w) id with
      | Throw _ =>
          (* the [catch] block looks the document up again *)
          (NoResponse, w)
      | Ok None =>
          (* reading [validationStatus] of [null] throws *)
          (Redirect "/users", w)
      | Ok (Some u) =>
          let '(outcome, w1) := call_gateway w (b_email b) in
          let proceed (validationMessage : option string) :=
            match findByIdAndUpdate true (now r) (users w1) id
                    (form_updateData b validationMessage) with
            | Ok (_, db') => (Redirect "/users", with_users w1 db')
            | Throw e =>
                (Render 500
                   (V_edit (Some u)
                      (Some ("Failed to update user: " +:+
                             or_text (update_message e) "Internal server error"))),
                 w1)
            end in
          match outcome with
          | Returned v =>
              if isValid v then proceed (Some (message v))
              else (Render 400 (V_edit (Some u) (Some (message v))), w1)
          | Thrown _ => proceed (Some "Validation unavailable")
          end
      end
  end.

(** [GET /delete/:id] *)
Definition get_delete (id : string) (w : World) : response * World :=
  match findByIdAndDelete (users w) id with
  | Ok (_, db') => (Redirect "/users", with_users w db')
  | Throw _ => (Redirect "/users", w)
  end.

(** [GET /dashboard] *)
Definition get_dashboard (w : World) (r : Request) : response * World :=
  (Render 200 (Dashboard.compute (now r) (users w)), w).

(** ** The session gate *)

(** The middleware in front of the login routes. *)
Definition init_attempts (s : Session) : Session :=
  match attempts s with
  | None => {| isAdmin := isAdmin s; attempts := Some 0 |}
  | Some _ => s
  end.

(** [v === text] for a body field. *)
Definition same (v : option string) (text : string) : bool :=
  match v with
  | Some s => String.eqb s text
  | None => false
  end.

Definition lockout_message : string :=
  no_entry +:+ " Too many failed attempts. Please try again later.".

Definition invalid_message (attempts : Z) : string :=
  cross_mark +:+ " Invalid credentials. " +:+ JS.string_of_Z (3 - attempts)
  +:+ " attempts remaining.".

(** [POST /admin], on a session whose [attempts] is initialised. *)
Definition post_admin (s : Session) (r : Request) : response * Session :=
  let n := default 0 (attempts s) in
  if 3 <=? n then (Render 200 (V_admin (Some lockout_message)), s)
  else if same (b_username (body r)) ADMIN_USER &&
          same (b_password (body r)) ADMIN_PASSWORD
  then (Redirect "/dashboard", {| isAdmin := true; attempts := Some 0 |})
  else (Render 200 (V_admin (Some (invalid_message (n + 1)))),
        {| isAdmin := isAdmin s; attempts := Some (n + 1) |}).

(** ** Dispatch *)

Definition keep (s : Session) (rw : response * World)
  : response * Session * World :=
  (fst rw, s, snd rw).

(** The handlers, each behind the middleware of its registration. *)
Definition handle (rt : route) (w : World) (s : Session) (r : Request)
  : response * Session * World :=
  match rt with
  | R_validate_email => keep s (get_validate_email w r)
  | R_api_list => keep s (ensureAdmin s w (api_list w r))
  | R_api_get id => keep s (ensureAdmin s w (api_get id w))
  | R_api_create => keep s (ensureAdmin s w (api_create w r))
  | R_api_update id => keep s (ensureAdmin s w (api_update id w r))
  | R_api_delete id => keep s (ensureAdmin s w (api_delete id w))
  | R_api_delete_all => keep s (ensureAdmin s w (api_delete_all w))
  | R_index => (Render 200 (V_index None None None), s, w)
  | R_about => (Render 200 V_about, s, w)
  | R_submit => keep s (post_submit w r)
  | R_users => keep s (ensureAdmin s w (get_users w r))
  | R_create => keep s (ensureAdmin s w (Render 200 V_create, w))
  | R_delete_all => keep s (ensureAdmin s w (get_delete_all w))
  | R_export => keep s (ensureAdmin s w (get_export w))
  | R_edit id => keep s (ensureAdmin s w (get_edit id w))
  | R_update id => keep s (ensureAdmin s w (post_update id w r))
  | R_delete id => keep s (ensureAdmin s w (get_delete id w))
  | R_dashboard => keep s (ensureAdmin s w (get_dashboard w r))
  | R_admin => (Render 200 (V_admin None), init_attempts s, w)
  | R_login =>
      let '(resp, s') := post_admin (init_attempts s) r in (resp, s', w)
  | R_logout => (Redirect "/admin", fresh_session, w)
  | R_malformed =>
      (* the error-handling middleware at the end of the stack *)
      (Render 500
         (V_index
            (Some "Something went wrong on the server. Please try again later.")
            None None), s, w)
  end.

(** The limiter is mounted with [app.use("/api/validate", apiLimiter)]. *)
Definition limiter_mount : string := "/api/validate".

(** One request through the application: the rate limiter where it is
    mounted, then the first matching route. *)
Definition app (w : World) (s : Session) (r : Request)
  : response * Session * World :=
  let '(allowed, w1) :=
    if mount_matches limiter_mount (path r)
    then let '(ok, tb) := Limiter.apiLimiter (now r) (ip r) (hits w) in
         (ok, with_hits w tb)
    else (true, w) in
  if allowed then
    match route_of (meth r) (path r) with
    | Some rt => handle rt w1 s r
    | None => (NotFound, init_attempts s, w1)
    end
  else (TooManyRequests, s, w1).

(** A client sending the same request [n] times on one session: the
    responses, first to last. *)
Fixpoint repeat_request (n : nat) (w : World) (s : Session) (r : Request)
  : list response :=
  match n with
  | O => []
  | S n' =>
      let '(resp, s', w') := app w s r in
      resp :: repeat_request n' w' s' r
  end.

End Application.

End App.

(* ===================================================================== *)
(** * A sample environment, to run the application on concrete requests *)
(* ===================================================================== *)

Module Sample.

Import Model Gateway Http App.

(** All digits of a text, as a number. *)
Definition number_of (s : string) : option Z :=
  match JS.scan JS.digit_val 10 0 0 s with
  | (v, S _, EmptyString) => Some v
  | _ => None
  end.

(** A calendar date written [YYYY-MM-DD]: year, month (0-based), day. *)
Definition iso_date (s : string) : option (Z * Z * Z) :=
  if (String.length s =? 10)%nat &&
     String.eqb (String.substring 4 1 s) "-" &&
     String.eqb (String.substring 7 1 s) "-"
  then
    match number_of (String.substring 0 4 s),
          number_of (String.substring 5 2 s),
          number_of (String.substring 8 2 s) with
    | Some y, Some m, Some d =>
        if Dates.valid_date y (m - 1) d then Some (y, m - 1, d) else None
    | _, _, _ => None
    end
  else None.

Definition isEmail : string -> bool := email_regex.

Definition isDate (s : string) : bool :=
  match iso_date s with Some _ => true | None => false end.

(** Date-only texts are read as midnight UTC. *)
Definition parseDate (s : string) : option Z :=
  match iso_date s with
  | Some (y, m, d) => Some (Dates.MakeDate (Dates.MakeDay y m d) 0)
  | None => None
  end.

Fixpoint contains (needle s : string) : bool :=
  String.prefix needle s ||
  match s with
  | String _ s' => contains needle s'
  | EmptyString => false
  end.

(** Patterns without metacharacters: a case-insensitive substring
    search. *)
Definition regex_i (pattern : string) : option (string -> bool) :=
  Some (fun s => contains (JS.toLowerCase pattern) (JS.toLowerCase s)).

Definition answer (deliverability quality_score : string) : axios_outcome :=
  Resolved (JObject [("email", JString "x");
                     ("deliverability", JString deliverability);
                     ("quality_score", JString quality_score)]).

(** A service that knows two addresses and is unreachable for every
    other one. *)
Definition axios_get (address : option string) : axios_outcome :=
  if same address "good@example.com" then answer "DELIVERABLE" "0.95"
  else if same address "poor@example.com" then answer "UNDELIVERABLE" "0.40"
  else Rejected "Network Error" None.

(** The messages of the library, in the wording of one of its versions. *)
Definition quote : string := String (ascii_of_nat 34) EmptyString.

Definition shown (given : option string) : string :=
  match given with
  | Some s => quote +:+ s +:+ quote +:+ " (type string)"
  | None => quote +:+ "Invalid Date" +:+ quote +:+ " (type Date)"
  end.

Definition worded (e : error) : string :=
  match e with
  | CastError path given =>
      "Cast to " +:+ (if String.eqb path "_id" then "ObjectId" else "date") +:+
      " failed for value " +:+ shown given +:+
      " at path " +:+ quote +:+ path +:+ quote
  | DuplicateKey address =>
      "E11000 duplicate key error collection: formapp.users index: email_1 dup key: { email: "
      +:+ quote +:+ address +:+ quote +:+ " }"
  | _ => EmptyString
  end.

Definition no_query : Query :=
  {| q_email := None; q_page := None; q_limit := None; q_search := None |}.

Definition no_body : Body :=
  {| b_name := None; b_email := None; b_dob := None; b_contact := None;
     b_state := None; b_country := None; b_username := None;
     b_password := None |}.

Definition form (name email dob contact state country : string) : Body :=
  {| b_name := Some name; b_email := Some email; b_dob := Some dob;
     b_contact := Some contact; b_state := Some state;
     b_country := Some country; b_username := None; b_password := None |}.

Definition credentials (username password : string) : Body :=
  {| b_name := None; b_email := None; b_dob := None; b_contact := None;
     b_state := None; b_country := None; b_username := Some username;
     b_password := Some password |}.

(** 3 November 2026, 00:00 UTC. *)
Definition today : Z := Dates.MakeDate (Dates.MakeDay 2026 10 3) 0.

Definition request (m : method) (path : string) (q : Query) (b : Body)
  : Request :=
  {| meth := m; path := path; query := q; body := b;
     ip := "203.0.113.7"; now := today |}.

Definition empty_world : World :=
  {| users := []; outbound := []; hits := ∅ |}.

Definition admin : Session := {| isAdmin := true; attempts := Some 0 |}.

Definition person (i : N) (name email : string) (dob : Z) : User :=
  {| _id := i; name := name; email := email; dob := dob;
     contact := "0123456789"; state := "Goa"; country := "India";
     createdAt := today; validationStatus := Some "Email validated" |}.

(** [n] documents with distinct identifiers and addresses. *)
Fixpoint people (n : nat) : collection :=
  match n with
  | O => []
  | S n' =>
      (people n' ++
       [person (N.of_nat n) "Asha"
               (JS.string_of_Z (Z.of_nat n) +:+ "@example.com")
               (Dates.MakeDate (Dates.MakeDay 2000 0 15) 0)])%list
  end.

(** Born on 3 November of the given year, at 00:00 UTC. *)
Definition born (year : Z) : User :=
  person 1 "Asha" "asha@example.com"
         (Dates.MakeDate (Dates.MakeDay year 10 3) 0).

Definition world_of (db : collection) : World :=
  {| users := db; outbound := []; hits := ∅ |}.

(** The application in this environment, with the default credentials. *)
Definition run : World -> Session -> Request -> response * Session * World :=
  app isEmail isDate parseDate regex_i axios_get worded None None.

Definition serve : nat -> World -> Session -> Request -> list response :=
  repeat_request isEmail isDate parseDate regex_i axios_get worded None None.

(** [GET /api/validate-email?email=address] *)
Definition check_address (address : string) : Request :=
  request GET "/api/validate-email"
          {| q_email := Some address; q_page := None; q_limit := None;
             q_search := None |} no_body.

(** [GET path?page=page&limit=limit] *)
Definition list_page (path page limit : string) : Request :=
  request GET path
          {| q_email := None; q_page := Some page; q_limit := Some limit;
             q_search := None |} no_body.

(** The identifier of the third document of [people], as a route
    parameter. *)
Definition third : string := "000000000000000000000003".

(** A body that only carries a [state]. *)
Definition only_state (state : string) : Body :=
  {| b_name := None; b_email := None; b_dob := None; b_contact := None;
     b_state := Some state; b_country := None; b_username := None;
     b_password := None |}.

End Sample.

(* ===================================================================== *)
(** * Runs of several requests, and what a request writes *)
(* ===================================================================== *)

Module Run.

Import Model Gateway Http App.

(** A text that does not begin, or does not end, with white space. *)
Definition starts_clean (s : string) : Prop :=
  match s with
  | String c _ => JS.is_space c = false
  | EmptyString => True
  end.

Definition ends_clean (s : string) : Prop := starts_clean (JS.reverse s).

Section Runs.

Variable isEmail : string -> bool.
Variable isDate : string -> bool.
Variable parseDate : string -> option Z.
Variable regex_i : string -> option (string -> bool).
Variable axios_get : option string -> axios_outcome.
Variable worded : Model.error -> string.
Variable env_ADMIN_USER env_ADMIN_PASS : option string.

(** The requests of one client on one session, in order: the responses,
    and the session and the world they leave. *)
Fixpoint serve_all (rs : list Request) (w : World) (s : Session)
  : list response * Session * World :=
  match rs with
  | [] => ([], s, w)
  | r :: rs' =>
      let '(resp, s1, w1) :=
        app isEmail isDate parseDate regex_i axios_get worded
            env_ADMIN_USER env_ADMIN_PASS w s r in
      let '(resps, s2, w2) := serve_all rs' w1 s1 in
      (resp :: resps, s2, w2)
  end.

(** The credentials of a request are the configured ones. *)
Definition right_credentials (r : Request) : Prop :=
  b_username (body r) = Some (ADMIN_USER env_ADMIN_USER) /\
  b_password (body r) = Some (ADMIN_PASSWORD env_ADMIN_PASS).

End Runs.

(** The kinds of write a handler makes to the collection. *)
Inductive kind :=
| K_none
| K_save
| K_update (runValidators : bool)
| K_delete
| K_clear.

(** [write now db k db']: one operation of kind [k] of the model, made at
    time [now], takes the collection from [db] to [db']. *)
Inductive write (now : Z) (db : collection) : kind -> collection -> Prop :=
| write_none : write now db K_none db
| write_save (p : Paths) (u : User) (db' : collection) :
    save now db p = Ok (u, db') -> write now db K_save db'
| write_update (rv : bool) (id : string) (p : Paths) (u' : User)
               (db' : collection) :
    findByIdAndUpdate rv now db id p = Ok (Some u', db') ->
    write now db (K_update rv) db'
| write_delete (id : string) (o : option User) (db' : collection) :
    findByIdAndDelete db id = Ok (o, db') -> write now db K_delete db'
| write_clear : write now db K_clear [].

(** Which route, on which kind of session, makes which kind of write. *)
Definition allowed (rt : route) (admin : bool) (k : kind) : Prop :=
  match k with
  | K_none => True
  | K_save => rt = R_submit \/ (rt = R_api_create /\ admin = true)
  | K_update rv =>
      admin = true /\
      exists id, (rt = R_api_update id /\ rv = false) \/
                 (rt = R_update id /\ rv = true)
  | K_delete => admin = true /\ exists id, rt = R_api_delete id \/ rt = R_delete id
  | K_clear => admin = true /\ (rt = R_api_delete_all \/ rt = R_delete_all)
  end.

(** No two documents share an identifier or an address. *)
Definition unique (db : collection) : Prop :=
  List.NoDup (List.map _id db) /\ List.NoDup (List.map email db).

(** The validators of the schema that do not look at the clock accept
    the stored values of a document (lengths are counted in bytes, which
    are the characters of an ASCII text). *)
Definition conforms (u : User) : Prop :=
  (validate_name (Some (name u)) ++ validate_email (Some (email u)) ++
   validate_contact (Some (contact u)) ++ validate_state (Some (state u)) ++
   validate_country (Some (country u)))%list = [].

Definition sum (l : list Z) : Z := fold_right Z.add 0 l.

Definition meth_is_delete (m : method) : bool :=
  match m with DELETE => true | _ => false end.

End Run.

(* ===================================================================== *)
(** * The dashboard router of [routes/dashboard.js] *)
(* ===================================================================== *)

Module RouterDashboard.

Import Model Http.

(** The variables the router renders the [dashboard] view with. *)
Record locals := mkLocals {
  totalUsers : Z;
  usersOverTime : series;
  recentUsers : list User
}.

(** [router.get('/')]: no guard, no test on the number of documents. *)
Definition get (db : collection) : locals :=
  {| totalUsers := Z.of_nat (length db);
     usersOverTime := Dashboard.series_of JS.string_of_Z (Dashboard.usersByYear db);
     recentUsers := Dashboard.recentUsers db |}.

End RouterDashboard.

(* ===================================================================== *)
(** * The script of the user grid *)
(* ===================================================================== *)

Module Client.

Import Model Http.

(** [const limit = 50] *)
Definition limit : Z := 50.

(** [String.prototype.includes] *)
Fixpoint includes (s needle : string) : bool :=
  String.prefix needle s ||
  match s with
  | String _ s' => includes s' needle
  | EmptyString => false
  end.

(** The rows [fetchUsers] shows of the users of a response: with a search
    text, those whose name holds it, whatever the letter case. *)
Definition shown (searchQuery : string) (users : list User) : list User :=
  match searchQuery with
  | EmptyString => users
  | _ =>
      List.filter
        (fun u => includes (JS.toLowerCase (name u)) (JS.toLowerCase searchQuery))
        users
  end.

(** [Math.ceil(users.length / limit) || 1] *)
Definition totalPages (users : list User) : Z :=
  match App.ceil_div (Z.of_nat (length users)) limit with
  | 0 => 1
  | n => n
  end.

Inductive control :=
| Previous
| PageInfo (currentPage totalPages : Z)
| Next.

(** [updatePagination(totalPages)]: the controls put in the bar of
    pages. *)
Definition updatePagination (currentPage totalPages : Z) : list control :=
  if 1 <? totalPages then
    ((if 1 <? currentPage then [Previous] else []) ++
     [PageInfo currentPage totalPages] ++
     (if currentPage <? totalPages then [Next] else []))%list
  else [].

End Client.

(* ===================================================================== *)
(** * Sample runs *)
(* ===================================================================== *)

Module Scenario.

Import Model Http App.

(** A run of requests in the environment of [Sample]. *)
Definition run_all : list Request -> World -> Session
                     -> list response * Session * World :=
  Run.serve_all Sample.isEmail Sample.isDate Sample.parseDate Sample.regex_i
                Sample.axios_get Sample.worded None None.

(** [POST /admin] with the fields of the login form. *)
Definition login (username password : string) : Request :=
  Sample.request POST "/admin" Sample.no_query
                 (Sample.credentials username password).

(** [POST /submit] *)
Definition submit (b : Body) : Request :=
  Sample.request POST "/submit" Sample.no_query b.

Definition asha (email : string) : Body :=
  Sample.form "Asha" email "2000-01-15" "0123456789" "Goa" "India".

Definition plain (m : method) (path : string) : Request :=
  Sample.request m path Sample.no_query Sample.no_body.

Definition locked : Session := {| isAdmin := false; attempts := Some 3 |}.

End Scenario.

(* ===================================================================== *)
(** * Properties *)
(* ===================================================================== *)

Import Model Gateway Http App.

(** ** The primitives on sample inputs *)

Example parseInt_samples :
  JS.parseInt_or (Some "2") 1 = 2 /\
  JS.parseInt_or (Some " 12px") 1 = 12 /\
  JS.parseInt_or
    (Some (String (ascii_of_nat 194) (String (ascii_of_nat 160) "-5"))) 50 = -5 /\
  JS.parseInt_or
    (Some (String (ascii_of_nat 227) (String (ascii_of_nat 128)
             (String (ascii_of_nat 128) " 7")))) 1 = 7 /\
  JS.parseInt_or (Some "0x1f") 1 = 31 /\
  JS.parseInt_or (Some "-3") 1 = -3 /\
  JS.parseInt_or (Some "0") 50 = 50 /\
  JS.parseInt_or (Some "ten") 50 = 50 /\
  JS.parseInt_or None 50 = 50.
Proof. repeat split. Qed.

Example parseFloat_samples :
  JS.parseFloat "0.5" = S754_finite false 4503599627370496 (-53) /\
  JS.parseFloat " -2.5e1 units" = S754_finite true 7036874417766400 (-48) /\
  JS.parseFloat ".e1" = S754_nan /\
  JS.parseFloat "-Infinity" = S754_infinity true /\
  JS.lit_0_7 = S754_finite false 6305039478318694 (-53) /\
  JS.parseFloat "0.70000000000000001" = JS.lit_0_7.
Proof. vm_compute. repeat split. Qed.

Example schema_regex_samples :
  email_regex "asha@example.com" = true /\
  email_regex "asha@example" = false /\
  email_regex "as ha@example.com" = false /\
  email_regex "a@b@c.d" = false /\
  email_regex "a@.b" = false /\
  contact_regex "0123456789" = true /\
  contact_regex "012345678" = false /\
  contact_regex "01234567x9" = false.
Proof. repeat split. Qed.

Example calendar_samples :
  Dates.MakeDay 1970 0 1 = 0 /\
  Dates.MakeDay 2026 10 3 = 20760 /\
  Dates.civil 20760 = (2026, 10, 3) /\
  Dates.civil (Dates.MakeDay 2024 1 29) = (2024, 1, 29) /\
  Dates.civil (Dates.MakeDay 1900 2 1) = (1900, 2, 1) /\
  Dates.civil (-1) = (1969, 11, 31) /\
  Dates.YearFromTime (Dates.MakeDate (Dates.MakeDay 2000 11 31) 86399999) = 2000.
Proof. repeat split. Qed.

Example mount_samples :
  mount_matches "/api/validate" "/api/validate" = true /\
  mount_matches "/api/validate" "/api/validate/email" = true /\
  mount_matches "/api/validate" "/API/Validate/" = true /\
  mount_matches "/api/validate" "/api/validate-email" = false /\
  mount_matches "/api/validate" "/api/users" = false.
Proof. repeat split. Qed.

Example route_samples :
  route_of POST "/submit" = Some R_submit /\
  route_of POST "/SUBMIT/" = Some R_submit /\
  route_of POST "/submit//" = None /\
  route_of GET "/Api/Validate-Email/" = Some R_validate_email /\
  route_of GET "/" = Some R_index /\
  route_of GET "//" = None /\
  route_of PUT "/api/users/00000000000000000000000A/"
  = Some (R_api_update "00000000000000000000000A") /\
  route_of GET "/api/users/" = Some R_api_list /\
  route_of GET "/EDIT/%30%31" = Some (R_edit "01") /\
  route_of GET "/edit/a/b" = None /\
  route_of DELETE "/edit/%zz" = Some R_malformed /\
  route_of GET "/delete/%C3" = Some R_malformed /\
  route_of GET "/delete-all/" = Some R_delete_all.
Proof. repeat split. Qed.

Example decodeURIComponent_samples :
  JS.decodeURIComponent "a%20b" = Some "a b" /\
  JS.decodeURIComponent "%41%2F" = Some "A/" /\
  JS.decodeURIComponent "100%" = None /\
  JS.decodeURIComponent "%4" = None /\
  JS.decodeURIComponent "%C3%A9"
  = Some (String (ascii_of_nat 195) (String (ascii_of_nat 169) EmptyString)) /\
  JS.decodeURIComponent "%C3a" = None /\
  JS.decodeURIComponent "%C0%80" = None /\
  JS.decodeURIComponent "%ED%A0%80" = None /\
  JS.decodeURIComponent "%F0%9F%9A%AB" = Some no_entry /\
  JS.decodeURIComponent "%F5%80%80%80" = None.
Proof. repeat split. Qed.

(** ** Routing facts *)

Lemma strip_prefix_app (p s rest : string) :
  strip_prefix p s = Some rest -> s = p +:+ rest.
Proof.
  revert s; induction p as [|a p IH]; intros s H; simpl in *.
  - now inversion H.
  - destruct s as [|b s]; [discriminate|].
    destruct (Ascii.eqb_spec a b) as [->|]; [|discriminate].
    now rewrite (IH _ H).
Qed.

(** No route of the application lies under the path the limiter is mounted
    on, except through a path that no route matches. *)
Lemma mounted_paths_have_no_route (m : method) (s : string) :
  mount_matches limiter_mount s = true -> route_of m s = None.
Proof.
  unfold mount_matches, limiter_mount.
  destruct (strip_prefix "/api/validate" (fold_case s)) as [rest|] eqn:E;
    [|discriminate].
  apply strip_prefix_app in E.
  unfold route_of, undecodable, param_prefixes, with_param, param_after.
  cbn [existsb]. rewrite E.
  destruct rest as [|c rest]; intros H.
  - now destruct m.
  - unfold is_slash in H. destruct (Ascii.eqb_spec c "/") as [->|]; [|discriminate].
    now destruct m.
Qed.

Lemma unmounted_route (m : method) (s : string) (rt : route) :
  route_of m s = Some rt -> mount_matches limiter_mount s = false.
Proof.
  intros H. destruct (mount_matches limiter_mount s) eqn:E; [|reflexivity].
  rewrite (mounted_paths_have_no_route m s E) in H. discriminate.
Qed.

(** ** The gateway *)

(** C5: on a response that carries a text [deliverability] and a text
    [quality_score], both made of ASCII characters, [validateEmail]
    returns a verdict; the verdict is valid exactly when the classification
    is [DELIVERABLE] and the score is above 0.7, and a verdict that is not
    valid carries the service's classification (in lower case) and its
    score in the message. *)
Theorem validateEmail_verdict (data : jsval) (deliverability quality_score : string) :
  get data "deliverability" = JString deliverability ->
  get data "quality_score" = JString quality_score ->
  JS.is_ascii deliverability = true ->
  JS.is_ascii quality_score = true ->
  exists v,
    validateEmail (Resolved data) = Returned v /\
    (isValid v = true <->
       deliverability = "DELIVERABLE" /\
       JS.gt (JS.parseFloat quality_score) JS.lit_0_7 = true) /\
    (isValid v = true -> message v = "Email validated") /\
    (isValid v = false ->
       message v = "Email " +:+ JS.toLowerCase deliverability +:+
                   " (Quality: " +:+ quality_score +:+ ")").
Proof.
  intros Hd Hq _ _.
  destruct data as [| | | | |fields]; try discriminate Hd.
  unfold validateEmail, classify. rewrite Hd, Hq.
  cbn [falsy].
  destruct (String.eqb_spec deliverability "DELIVERABLE") as [->|Hne];
    destruct (JS.gt (JS.parseFloat quality_score) JS.lit_0_7) eqn:G;
    cbn [andb]; eexists; (split; [reflexivity|]); cbn [isValid message];
    repeat split; try discriminate; try tauto; intros [? ?];
    congruence.
Qed.

(** The threshold is strict, and a score that is not a number never
    passes. *)
Lemma quality_threshold :
  JS.gt (JS.parseFloat "0.71") JS.lit_0_7 = true /\
  JS.gt (JS.parseFloat "0.7") JS.lit_0_7 = false /\
  JS.gt (JS.parseFloat "0.70") JS.lit_0_7 = false /\
  JS.gt (JS.parseFloat "0.69") JS.lit_0_7 = false /\
  JS.gt (JS.parseFloat "1") JS.lit_0_7 = true /\
  JS.gt (JS.parseFloat "n/a") JS.lit_0_7 = false.
Proof. vm_compute. repeat split. Qed.

(** Whatever the outbound call settles to, [validateEmail] returns a
    verdict only on a response that carries both texts; everything else is
    thrown. *)
Lemma validateEmail_throws (o : axios_outcome) :
  (forall data d q, o = Resolved data ->
     get data "deliverability" = JString d ->
     get data "quality_score" = JString q -> False) ->
  exists msg, validateEmail o = Thrown msg.
Proof.
  intros H. destruct o as [data|m rd].
  - unfold validateEmail, classify.
    destruct (falsy data); [eexists; reflexivity|].
    destruct (get data "deliverability") eqn:Hd; try (eexists; reflexivity).
    destruct (get data "quality_score") eqn:Hq; try (eexists; reflexivity).
    exfalso. eapply H; eauto.
  - unfold validateEmail, rethrow.
    destruct rd as [[| | | | |]|]; eexists; reflexivity.
Qed.

(** ** The age histogram *)

Lemma month_offset_leap (a b : bool) (m : Z) :
  -1 <= Dates.DaysBeforeMonth a m - Dates.DaysBeforeMonth b m <= 1.
Proof.
  unfold Dates.DaysBeforeMonth.
  destruct a, b;
    repeat match goal with
           | |- context [match ?x with _ => _ end] => destruct x
           end; lia.
Qed.

Lemma valid_date_month (y m d : Z) :
  Dates.valid_date y m d = true -> 0 <= m <= 11.
Proof.
  unfold Dates.valid_date. rewrite !andb_true_iff. lia.
Qed.

(** The number of days between a date and the same date [n] years
    earlier, for the two spans of interest. *)
Lemma MakeDay_same_month (y m d : Z) :
  0 <= m <= 11 ->
  Dates.MakeDay y m d =
  Dates.DayFromYear y + Dates.DaysBeforeMonth (Dates.InLeapYear y) m + d - 1.
Proof.
  intros H. unfold Dates.MakeDay.
  rewrite (Z.div_small m 12), (Z.mod_small m 12) by lia.
  now rewrite Z.add_0_r.
Qed.

Lemma span_17_years (y m d : Z) :
  0 <= m <= 11 ->
  6207 <= Dates.MakeDay y m d - Dates.MakeDay (y - 17) m d <= 6212.
Proof.
  intros H. rewrite !MakeDay_same_month by assumption.
  pose proof (month_offset_leap (Dates.InLeapYear y) (Dates.InLeapYear (y - 17)) m).
  unfold Dates.DayFromYear. Z.div_mod_to_equations. lia.
Qed.

Lemma span_18_years (y m d : Z) :
  0 <= m <= 11 ->
  6572 <= Dates.MakeDay y m d - Dates.MakeDay (y - 18) m d <= 6577.
Proof.
  intros H. rewrite !MakeDay_same_month by assumption.
  pose proof (month_offset_leap (Dates.InLeapYear y) (Dates.InLeapYear (y - 18)) m).
  unfold Dates.DayFromYear. Z.div_mod_to_equations. lia.
Qed.

Lemma bucket_below_18 (x : Z) :
  0 <= x < 18 -> Dashboard.bucket_in Dashboard.boundaries x = Dashboard.Lower 0.
Proof.
  intros H. unfold Dashboard.boundaries, Dashboard.bucket_in.
  destruct (Z.leb_spec 0 x); [|lia]. destruct (Z.ltb_spec x 18); [|lia].
  reflexivity.
Qed.

Lemma bucket_from_18 (x : Z) :
  18 <= x < 30 -> Dashboard.bucket_in Dashboard.boundaries x = Dashboard.Lower 18.
Proof.
  intros H. unfold Dashboard.boundaries, Dashboard.bucket_in.
  destruct (Z.ltb_spec x 18); [lia|]. rewrite andb_false_r.
  destruct (Z.leb_spec 18 x); [|lia]. destruct (Z.ltb_spec x 30); [|lia].
  reflexivity.
Qed.

(** A document is counted in the bucket its age falls in. *)
Lemma counted_in_own_bucket (today : Z) (db : collection) (u : User) :
  In u db ->
  Dashboard.counts_in today db u (Dashboard.bucket_of today u).
Proof.
  intros Hin.
  assert (Hself : forall b, Dashboard.bucket_eqb b b = true).
  { intros [x|]; simpl; [apply Z.eqb_refl|reflexivity]. }
  assert (Hf : In u (List.filter
                       (fun v => Dashboard.bucket_eqb (Dashboard.bucket_of today v)
                                                      (Dashboard.bucket_of today u)) db)).
  { apply filter_In. split; [assumption|apply Hself]. }
  split; [exact Hf|].
  unfold Dashboard.ageDistributionAgg. apply filter_In. split.
  - apply in_map_iff. exists (Dashboard.bucket_of today u). split; [reflexivity|].
    unfold Dashboard.bucket_of, Dashboard.boundaries, Dashboard.bucket_in,
      Dashboard.bucket_ids.
    repeat match goal with
           | |- context [if ?c then _ else _] => destruct c
           end; simpl; tauto.
  - cbn [snd]. unfold Dashboard.bucket_count.
    destruct (List.filter _ db); [destruct Hf|]. simpl length.
    apply Z.ltb_lt. lia.
Qed.


(** ** The collection *)

Lemma save_inserts (now : Z) (db db' : collection) (p : Paths) (u : User) :
  save now db p = Ok (u, db') ->
  db' = (db ++ [u])%list /\
  validationStatus u = match p_validationStatus p with Some v => v | None => None end /\
  validate now p = [] /\
  email_taken db (Model.text (p_email p)) = false.
Proof.
  unfold save. intros H.
  destruct (validate now p) eqn:V; [|discriminate].
  destruct (p_dob p); try discriminate.
  destruct (email_taken db (Model.text (p_email p))) eqn:T; [discriminate|].
  inversion H; subst. cbn [validationStatus]. auto.
Qed.

Lemma save_accepts (now : Z) (db : collection) (p : Paths) :
  validate now p = [] ->
  email_taken db (Model.text (p_email p)) = false ->
  exists u, save now db p = Ok (u, (db ++ [u])%list) /\
            validationStatus u =
              match p_validationStatus p with Some v => v | None => None end.
Proof.
  intros V T. unfold save. rewrite V.
  unfold validate in V.
  destruct (p_dob p) eqn:D.
  - apply app_eq_nil in V as [_ V].
    apply app_eq_nil in V as [_ V]. apply app_eq_nil in V as [_ V].
    apply app_eq_nil in V as [V _]. discriminate V.
  - discriminate V.
  - rewrite T. eexists. split; reflexivity.
Qed.

Lemma find_id_replace_same (i : N) (u u' : User) (db : collection) :
  find_id i db = Some u -> _id u' = i ->
  find_id i (replace_id i u' db) = Some u'.
Proof.
  intros H Hi. induction db as [|v db IH]; simpl in *; [discriminate|].
  destruct (N.eqb (_id v) i) eqn:E; simpl.
  - now rewrite Hi, N.eqb_refl.
  - rewrite E. auto.
Qed.

Lemma find_id_replace_other (i j : N) (u' : User) (db : collection) :
  _id u' = i -> j <> i ->
  find_id j (replace_id i u' db) = find_id j db.
Proof.
  intros Hi Hj. induction db as [|v db IH]; simpl; [reflexivity|].
  destruct (N.eqb_spec (_id v) i) as [E|E]; simpl.
  - destruct (N.eqb_spec (_id u') j); [congruence|].
    destruct (N.eqb_spec (_id v) j); [congruence|]. reflexivity.
  - now rewrite IH.
Qed.

Lemma find_id_id (i : N) (u : User) (db : collection) :
  find_id i db = Some u -> _id u = i.
Proof.
  induction db as [|v db IH]; simpl; [discriminate|].
  destruct (N.eqb_spec (_id v) i); [|assumption].
  intros H; inversion H; now subst.
Qed.

Lemma findByIdAndUpdate_updates (rv : bool) (now : Z) (db db' : collection)
      (id : string) (p : Paths) (u' : User) :
  findByIdAndUpdate rv now db id p = Ok (Some u', db') ->
  exists i u,
    castObjectId id = Some i /\ find_id i db = Some u /\
    u' = apply_update p u /\ db' = replace_id i u' db.
Proof.
  unfold findByIdAndUpdate. intros H.
  destruct (castObjectId id) as [i|]; [|discriminate].
  destruct (p_dob p) eqn:D; try discriminate;
    destruct (if rv then validate_update now p else []); try discriminate;
    destruct (find_id i db) as [u|] eqn:F; try discriminate;
    destruct (email_clash db i p); try discriminate;
    inversion H; subst; exists i, u; auto.
Qed.

Lemma findById_found (db : collection) (id : string) (u : User) :
  findById db id = Ok (Some u) ->
  exists i, castObjectId id = Some i /\ find_id i db = Some u.
Proof.
  unfold findById. destruct (castObjectId id) as [i|]; [|discriminate].
  intros H; inversion H. eauto.
Qed.

(** ** The routes *)

Section Properties.

Variable isEmail : string -> bool.
Variable isDate : string -> bool.
Variable parseDate : string -> option Z.
Variable regex_i : string -> option (string -> bool).
Variable axios_get : option string -> axios_outcome.
Variable worded : Model.error -> string.
Variable env_ADMIN_USER env_ADMIN_PASS : option string.

Local Abbreviation app :=
  (App.app isEmail isDate parseDate regex_i axios_get worded
           env_ADMIN_USER env_ADMIN_PASS).
Local Abbreviation handle :=
  (App.handle isEmail isDate parseDate regex_i axios_get worded
              env_ADMIN_USER env_ADMIN_PASS).

(** A request that matches a route is handled by that route's handler:
    the limiter does not stand in front of any route. *)
Lemma app_routes (w : World) (s : Session) (r : Request) (rt : route) :
  route_of (meth r) (path r) = Some rt -> app w s r = handle rt w s r.
Proof.
  intros H. unfold App.app.
  rewrite (unmounted_route _ _ _ H), H. reflexivity.
Qed.

(** C8: a request to an admin-only route on a session that is not an
    admin session is answered with a redirect to [/admin]; the session and
    the world are left as they were, and the answer is the same whatever
    the collection holds. *)
Theorem guard_redirects (w1 w2 : World) (s : Session) (r : Request) (rt : route) :
  route_of (meth r) (path r) = Some rt ->
  admin_only rt = true ->
  isAdmin s = false ->
  app w1 s r = (Redirect "/admin", s, w1) /\
  fst (fst (app w2 s r)) = fst (fst (app w1 s r)).
Proof.
  intros Hroute Hguard Hs.
  assert (G : forall w, app w s r = (Redirect "/admin", s, w)).
  { intros w. rewrite (app_routes w s r rt Hroute).
    destruct rt; try discriminate Hguard;
      unfold App.handle, ensureAdmin; rewrite Hs; reflexivity. }
  split; [apply G|]. now rewrite !G.
Qed.

(** C7: with no document in the collection, the dashboard is rendered
    for an admin with a total of 0 and five empty series. *)
Theorem dashboard_of_empty_store (w : World) (s : Session) (r : Request) :
  isAdmin s = true ->
  users w = [] ->
  meth r = GET ->
  path r = "/dashboard" ->
  app w s r =
    (Render 200
       (V_dashboard 0 empty_series empty_series empty_series empty_series []),
     s, w).
Proof.
  intros Hs Hu Hm Hp.
  rewrite (app_routes w s r R_dashboard) by (rewrite Hm, Hp; reflexivity).
  unfold App.handle, ensureAdmin, get_dashboard, Dashboard.compute.
  rewrite Hs, Hu. reflexivity.
Qed.

(** C3: the login route.  On a session locked out (three failures or
    more) the lockout message is rendered whatever the credentials and the
    session is untouched; below three failures, the configured
    credentials open an admin session with the counter back at 0 and
    redirect to the dashboard, any other credentials add one failure and
    render the form with three minus the new count as remaining
    attempts. *)
Theorem login_gate (w : World) (s : Session) (r : Request) (n : Z) :
  meth r = POST ->
  path r = "/admin" ->
  failed_attempts s = n ->
  (3 <= n ->
     app w s r = (Render 200 (V_admin (Some lockout_message)), s, w)) /\
  (n < 3 ->
     b_username (body r) = Some (ADMIN_USER env_ADMIN_USER) /\
     b_password (body r) = Some (ADMIN_PASSWORD env_ADMIN_PASS) ->
     app w s r =
       (Redirect "/dashboard", {| isAdmin := true; attempts := Some 0 |}, w)) /\
  (n < 3 ->
     ~ (b_username (body r) = Some (ADMIN_USER env_ADMIN_USER) /\
        b_password (body r) = Some (ADMIN_PASSWORD env_ADMIN_PASS)) ->
     app w s r =
       (Render 200
          (V_admin
             (Some (cross_mark +:+ " Invalid credentials. " +:+
                    JS.string_of_Z (3 - (n + 1)) +:+ " attempts remaining."))),
        {| isAdmin := isAdmin s; attempts := Some (n + 1) |}, w)).
Proof.
  intros Hm Hp Hn.
  rewrite (app_routes w s r R_login) by (rewrite Hm, Hp; reflexivity).
  assert (Hinit : default 0 (attempts (init_attempts s)) = n /\
                  isAdmin (init_attempts s) = isAdmin s /\
                  (3 <= n -> init_attempts s = s)).
  { unfold failed_attempts, init_attempts in *.
    destruct (attempts s) as [k|] eqn:E; cbn [default from_option id] in Hn.
    - rewrite E. now cbn.
    - cbn. subst n. repeat split. intros; lia. }
  destruct Hinit as (Hn' & Hadm & Hsame).
  unfold App.handle, post_admin. rewrite Hn', Hadm.
  repeat split.
  - intros H. destruct (Z.leb_spec 3 n); [|lia]. now rewrite (Hsame H).
  - intros H [Hu Hw]. destruct (Z.leb_spec 3 n); [lia|].
    rewrite Hu, Hw. unfold same. rewrite !String.eqb_refl. reflexivity.
  - intros H Hne. destruct (Z.leb_spec 3 n); [lia|].
    destruct (same (b_username (body r)) _ && same (b_password (body r)) _) eqn:E.
    + exfalso. apply Hne. apply andb_true_iff in E as [E1 E2].
      unfold same in E1, E2.
      destruct (b_username (body r)); [|discriminate].
      destruct (b_password (body r)); [|discriminate].
      apply String.eqb_eq in E1, E2. now subst.
    + reflexivity.
Qed.

(** ** Pagination *)

Lemma ceil_div_spec (total limit : Z) :
  1 <= limit ->
  (ceil_div total limit - 1) * limit < total <= ceil_div total limit * limit.
Proof.
  intros H. unfold ceil_div. Z.div_mod_to_equations. nia.
Qed.

Lemma find_page_ok (db : collection) (page limit : Z) :
  1 <= page -> 1 <= limit ->
  find_page db ((page - 1) * limit) limit =
  Some (firstn (Z.to_nat limit) (skipn (Z.to_nat ((page - 1) * limit)) db)).
Proof.
  intros Hp Hl. unfold find_page.
  destruct (Z.ltb_spec ((page - 1) * limit) 0); [nia|].
  now rewrite Z.abs_eq by lia.
Qed.

Lemma page_length (db : collection) (skip limit : Z) :
  0 <= limit ->
  Z.of_nat (length (firstn (Z.to_nat limit) (skipn (Z.to_nat skip) db))) <= limit.
Proof.
  intros H. pose proof (firstn_le_length (Z.to_nat limit) (skipn (Z.to_nat skip) db)).
  lia.
Qed.

(** C6: the list routes, for an admin session, parameters written in
    ASCII characters, and a page and a limit that are at least 1 and whose
    product is an exact number of the language.  With 25 documents, page 2
    of the JSON list with limit 10 holds exactly 10 documents and there are
    3 pages.  In general the JSON list leaves out the first
    (page - 1) * limit documents that match the search, returns at most
    [limit] of the following ones, [limit] being 50 when the parameter is
    absent, and reports the total divided by the limit, rounded up, as the
    number of pages; the rendered list does the same over the whole
    collection with a page size of 10. *)
Theorem pagination (w : World) (s : Session) (r : Request) (page : Z) :
  isAdmin s = true ->
  meth r = GET ->
  plain_query (query r) = true ->
  JS.parseInt_or (q_page (query r)) 1 = page ->
  1 <= page ->
  (path r = "/api/users" ->
   length (users w) = 25%nat ->
   q_page (query r) = Some "2" ->
   q_limit (query r) = Some "10" ->
   q_search (query r) = None ->
   exists us,
     app w s r = (Json 200 (J_users us 2 3 25), s, w) /\ length us = 10%nat) /\
  (path r = "/api/users" ->
   forall (limit : Z) (found : collection),
     JS.parseInt_or (q_limit (query r)) 50 = limit ->
     1 <= limit ->
     page * limit <= JS.max_exact ->
     matching regex_i (users w)
       (if JS.truthy (q_search (query r))
        then JS.trim (Model.text (q_search (query r))) else EmptyString)
     = Some found ->
     let us := firstn (Z.to_nat limit)
                      (skipn (Z.to_nat ((page - 1) * limit)) found) in
     let total := Z.of_nat (length found) in
     app w s r =
       (Json 200 (J_users us page (ceil_div total limit) total), s, w) /\
     Z.of_nat (length us) <= limit /\
     (ceil_div total limit - 1) * limit < total <= ceil_div total limit * limit /\
     (q_limit (query r) = None -> limit = 50)) /\
  (path r = "/users" ->
   page * 10 <= JS.max_exact ->
   let us := firstn 10 (skipn (Z.to_nat ((page - 1) * 10)) (users w)) in
   let total := Z.of_nat (length (users w)) in
   app w s r = (Render 200 (V_users us page (ceil_div total 10) None), s, w) /\
   Z.of_nat (length us) <= 10 /\
   (ceil_div total 10 - 1) * 10 < total <= ceil_div total 10 * 10).
Proof.
  intros Hs Hm _ Hpage Hp1.
  assert (General :
    path r = "/api/users" ->
    forall (limit : Z) (found : collection),
      JS.parseInt_or (q_limit (query r)) 50 = limit ->
      1 <= limit ->
      matching regex_i (users w)
        (if JS.truthy (q_search (query r))
         then JS.trim (Model.text (q_search (query r))) else EmptyString)
      = Some found ->
      app w s r =
        (Json 200
           (J_users (firstn (Z.to_nat limit)
                            (skipn (Z.to_nat ((page - 1) * limit)) found))
                    page (ceil_div (Z.of_nat (length found)) limit)
                    (Z.of_nat (length found))), s, w)).
  { intros Hpath limit found Hlimit Hl1 Hfound.
    rewrite (app_routes w s r R_api_list) by (rewrite Hm, Hpath; reflexivity).
    unfold App.handle, ensureAdmin, api_list, keep. rewrite Hs, Hpage, Hlimit, Hfound.
    rewrite find_page_ok by assumption. reflexivity. }
  split; [|split].
  - intros Hpath Hlen Hq2 Hq10 Hsearch.
    assert (page = 2) as -> by (rewrite <- Hpage, Hq2; reflexivity).
    specialize (General Hpath 10 (users w)).
    rewrite Hq10, Hsearch in General.
    specialize (General eq_refl ltac:(lia) eq_refl).
    rewrite Hlen in General. eexists. split; [exact General|].
    rewrite length_firstn, length_skipn, Hlen. reflexivity.
  - intros Hpath limit found Hlimit Hl1 _ Hfound. cbv zeta.
    split; [now apply General|].
    split; [apply page_length; lia|].
    split; [now apply ceil_div_spec|].
    intros Hnone. rewrite Hnone in Hlimit. now rewrite <- Hlimit.
  - intros Hpath _. cbv zeta.
    split; [|split].
    + rewrite (app_routes w s r R_users) by (rewrite Hm, Hpath; reflexivity).
      unfold App.handle, ensureAdmin, get_users, keep. rewrite Hs, Hpage.
      rewrite find_page_ok by lia. reflexivity.
    + apply (page_length (users w) ((page - 1) * 10) 10). lia.
    + apply ceil_div_spec; lia.
Qed.

(** ** Creating records *)

Local Abbreviation validationErrors := (App.validationErrors isEmail isDate).
Local Abbreviation new_user := (App.new_user parseDate).
Local Abbreviation save_message := (App.save_message worded).
Local Abbreviation update_message := (App.update_message worded).

(** C10: [POST /api/users] never calls the gateway, and the only way it
    changes the collection is by appending the one document it answers
    with, whose [validationStatus] is [null]. *)
Theorem api_create_status (w w' : World) (s s' : Session) (r : Request)
        (resp : response) :
  meth r = POST ->
  path r = "/api/users" ->
  app w s r = (resp, s', w') ->
  outbound w' = outbound w /\
  ((users w' = users w /\ forall u, resp <> Json 201 (J_user u)) \/
   (exists u, resp = Json 201 (J_user u) /\
              users w' = (users w ++ [u])%list /\
              validationStatus u = None)).
Proof.
  intros Hm Hp.
  rewrite (app_routes w s r R_api_create) by (rewrite Hm, Hp; reflexivity).
  unfold App.handle, ensureAdmin, api_create, keep.
  destruct (isAdmin s).
  - destruct (validationErrors false (body r)).
    + destruct (save _ _ _) as [[u db']|e] eqn:S; cbn [fst snd];
        intros H; inversion H; subst; clear H.
      * apply save_inserts in S as (-> & St & _ & _).
        split; [reflexivity|]. right. exists u. auto.
      * split; [reflexivity|]. left. split; [reflexivity|]. discriminate.
    + cbn [fst snd]. intros H; inversion H; subst.
      split; [reflexivity|]. left. split; [reflexivity|]. discriminate.
  - cbn [fst snd]. intros H; inversion H; subst.
    split; [reflexivity|]. left. split; [reflexivity|]. discriminate.
Qed.

(** C1, as the code has it: a submission that passes the field checks,
    its texts and those of the service's answer being made of ASCII
    characters.  When the gateway call fails, the record goes to the store with the
    status "Validation unavailable": if the store accepts it (the schema's
    validators pass and the address is not stored yet) it is persisted and
    the success message is rendered, and if the store refuses it nothing
    is persisted and the store's error is rendered.  When the gateway
    returns a verdict that is not valid, nothing is persisted and the
    verdict's message is the form error. *)
Theorem submit_after_gateway (w w' : World) (s s' : Session) (r : Request)
        (resp : response) :
  meth r = POST ->
  path r = "/submit" ->
  plain_body (body r) = true ->
  plain_answer (axios_get (b_email (body r))) = true ->
  validationErrors false (body r) = [] ->
  app w s r = (resp, s', w') ->
  ((exists msg, validateEmail (axios_get (b_email (body r))) = Thrown msg) ->
   forall p,
     p = new_user (sanitized false (body r)) (Some (Some "Validation unavailable")) ->
     (validate (now r) p = [] ->
      email_taken (users w) (Model.text (p_email p)) = false ->
      exists u,
        users w' = (users w ++ [u])%list /\
        validationStatus u = Some "Validation unavailable" /\
        resp = Render 200 (V_index None (Some "Form submitted successfully!")
                                   (Some "Validation unavailable"))) /\
     (validate (now r) p <> [] \/
      email_taken (users w) (Model.text (p_email p)) = true ->
      users w' = users w /\
      exists e,
        save (now r) (users w) p = Throw e /\
        resp = Render 200 (V_index (Some ("Server error: " +:+ save_message e))
                                   None None))) /\
  (forall v,
     validateEmail (axios_get (b_email (body r))) = Returned v ->
     isValid v = false ->
     users w' = users w /\
     resp = Render 200 (V_index (Some (message v)) None None)).
Proof.
  intros Hm Hp _ _ Hv.
  rewrite (app_routes w s r R_submit) by (rewrite Hm, Hp; reflexivity).
  unfold App.handle, post_submit, call_gateway, keep. rewrite Hv.
  cbn [b_email sanitized].
  destruct (validateEmail (axios_get (b_email (body r)))) as [v|msg] eqn:G.
  - intros H. split; [intros [? ?]; discriminate|].
    intros v' Hv' Hinvalid. inversion Hv'; subst v'. rewrite Hinvalid in H.
    cbn [fst snd] in H. inversion H; subst. auto.
  - intros H. split; [|intros ? ?; discriminate].
    intros _ p ->.
    destruct (save _ _ _) as [[u db']|e] eqn:S; cbn [fst snd] in H;
      inversion H; subst; clear H; cbn [users with_users with_call].
    + apply save_inserts in S as (-> & St & V & T). cbn [users with_call] in *.
      split.
      * intros _ _. exists u. auto.
      * intros [V'|T']; [contradiction|congruence].
    + cbn [users with_call] in S. split.
      * intros V T. destruct (save_accepts (now r) (users w) _ V T) as (u & S' & _).
        congruence.
      * intros _. split; [reflexivity|]. exists e. split; reflexivity.
Qed.

(** ** Updating records *)

Lemma or_else_absent (v : option string) (old : string) :
  v = None -> or_else (set_trim (if_truthy v)) old = old.
Proof. now intros ->. Qed.

(** C9: the two update routes, on an admin session and an existing
    record [u].  A [PUT /api/users/:id] that answers with the updated
    document leaves every field that is absent from the body as it was,
    leaves [validationStatus], [createdAt] and the other documents as they
    were, and makes no call to the gateway.  A [POST /update/:id] that
    passes the field checks, its texts and those of the service's answer
    being made of ASCII characters, calls the gateway once for the
    submitted address; a verdict that is not valid blocks the update and
    renders the edit form with the verdict's message; otherwise, when the
    update goes through, the stored [validationStatus] is the verdict's
    message, or "Validation unavailable" when the gateway call failed, and
    when the store refuses the update nothing is changed and the edit form
    is rendered with the message of the store's error. *)
Theorem update_routes (w w' : World) (s s' : Session) (r : Request)
        (id : string) (u : User) (resp : response) :
  isAdmin s = true ->
  findById (users w) id = Ok (Some u) ->
  app w s r = (resp, s', w') ->
  (route_of (meth r) (path r) = Some (R_api_update id) ->
   forall u', resp = Json 200 (J_user u') ->
     (b_name (body r) = None -> name u' = name u) /\
     (b_email (body r) = None -> email u' = email u) /\
     (b_dob (body r) = None -> dob u' = dob u) /\
     (b_contact (body r) = None -> contact u' = contact u) /\
     (b_state (body r) = None -> state u' = state u) /\
     (b_country (body r) = None -> country u' = country u) /\
     validationStatus u' = validationStatus u /\
     createdAt u' = createdAt u /\
     _id u' = _id u /\
     findById (users w') id = Ok (Some u') /\
     (forall j, j <> _id u -> find_id j (users w') = find_id j (users w)) /\
     outbound w' = outbound w) /\
  (route_of (meth r) (path r) = Some (R_update id) ->
   plain_body (body r) = true ->
   plain_answer (axios_get (b_email (body r))) = true ->
   validationErrors false (body r) = [] ->
   outbound w' = b_email (body r) :: outbound w /\
   (forall v,
      validateEmail (axios_get (b_email (body r))) = Returned v ->
      isValid v = false ->
      users w' = users w /\
      resp = Render 400 (V_edit (Some u) (Some (message v)))) /\
   (forall status,
      validateEmail (axios_get (b_email (body r))) =
        Returned {| isValid := true; message := status |} \/
      (status = "Validation unavailable" /\
       exists msg, validateEmail (axios_get (b_email (body r))) = Thrown msg) ->
      (resp = Redirect "/users" /\
       exists u', findById (users w') id = Ok (Some u') /\
                  validationStatus u' = Some status) \/
      (users w' = users w /\
       exists e, resp = Render 500
                   (V_edit (Some u)
                      (Some ("Failed to update user: " +:+
                             or_text (update_message e)
                                     "Internal server error")))))).
Proof.
  intros Hs Hu Happ.
  destruct (findById_found _ _ _ Hu) as (i & Hi & Hf).
  pose proof (find_id_id _ _ _ Hf) as Hid. subst i.
  split.
  - intros Hroute u' ->.
    rewrite (app_routes w s r _ Hroute) in Happ.
    unfold App.handle, ensureAdmin, api_update, keep in Happ. rewrite Hs in Happ.
    destruct (validationErrors true (body r)); [|discriminate Happ].
    destruct (findByIdAndUpdate _ _ _ _ _) as [[[u2|] db']|e] eqn:U;
      cbn [fst snd] in Happ; inversion Happ; subst; clear Happ.
    apply findByIdAndUpdate_updates in U as (i' & u0 & Hi' & Hf' & -> & ->).
    assert (i' = _id u) as -> by congruence.
    assert (u0 = u) as -> by congruence.
    cbn [users with_users outbound name email dob contact state country
         validationStatus createdAt _id apply_update api_updateData
         p_name p_email p_dob p_contact p_state p_country p_validationStatus
         sanitized b_name b_email b_dob b_contact b_state b_country or_else].
    repeat split.
    + intros E; now rewrite E.
    + intros E; now rewrite E.
    + intros E; now rewrite E.
    + intros E; now rewrite E.
    + intros E; now rewrite E.
    + intros E; now rewrite E.
    + unfold findById. rewrite Hi.
      erewrite find_id_replace_same; eauto.
    + intros j Hj. apply find_id_replace_other; [reflexivity|assumption].
  - intros Hroute _ _ Hv.
    rewrite (app_routes w s r _ Hroute) in Happ.
    unfold App.handle, ensureAdmin, post_update, call_gateway, keep in Happ.
    rewrite Hs, Hv, Hu in Happ. cbn [sanitized b_email] in Happ.
    destruct (validateEmail (axios_get (b_email (body r)))) as [v|msg] eqn:G.
    + destruct (isValid v) eqn:Valid.
      * destruct (findByIdAndUpdate _ _ _ _ _) as [[u2 db']|e] eqn:U;
          cbn [fst snd] in Happ; inversion Happ; subst; clear Happ;
          cbn [users with_users with_call outbound] in *.
        -- split; [reflexivity|]. split; [intros v' Hv'; inversion Hv'; congruence|].
           intros status [Hst|[_ [? ?]]]; [|discriminate].
           inversion Hst; subst v. left. split; [reflexivity|].
           destruct u2 as [u2|].
           ++ apply findByIdAndUpdate_updates in U as (i' & u0 & Hi' & Hf' & -> & ->).
              assert (i' = _id u) as -> by congruence.
              assert (u0 = u) as -> by congruence.
              eexists. split.
              ** unfold findById. rewrite Hi.
                 erewrite find_id_replace_same; [reflexivity|eassumption|reflexivity].
              ** reflexivity.
           ++ exfalso. unfold findByIdAndUpdate in U. rewrite Hi in U.
              destruct (p_dob _); try discriminate;
                destruct (validate_update _ _); try discriminate;
                rewrite Hf in U;
                destruct (email_clash _ _ _); discriminate.
        -- split; [reflexivity|]. split; [intros v' Hv'; inversion Hv'; congruence|].
           intros status _. right. split; [reflexivity|]. eauto.
      * cbn [fst snd] in Happ. inversion Happ; subst; clear Happ.
        cbn [users with_call outbound].
        split; [reflexivity|]. split.
        -- intros v' Hv' _. inversion Hv'; subst. auto.
        -- intros status [Hst|[_ [? ?]]]; [|discriminate].
           inversion Hst; subst v. discriminate.
    + destruct (findByIdAndUpdate _ _ _ _ _) as [[u2 db']|e] eqn:U;
        cbn [fst snd] in Happ; inversion Happ; subst; clear Happ;
        cbn [users with_users with_call outbound] in *.
      * split; [reflexivity|]. split; [intros v' Hv'; discriminate|].
        intros status [Hst|[-> _]]; [discriminate|].
        left. split; [reflexivity|].
        destruct u2 as [u2|].
        -- apply findByIdAndUpdate_updates in U as (i' & u0 & Hi' & Hf' & -> & ->).
           assert (i' = _id u) as -> by congruence.
              assert (u0 = u) as -> by congruence.
           eexists. split.
           ++ unfold findById. rewrite Hi.
              erewrite find_id_replace_same; [reflexivity|eassumption|reflexivity].
           ++ reflexivity.
        -- exfalso. unfold findByIdAndUpdate in U. rewrite Hi in U.
           destruct (p_dob _); try discriminate;
             destruct (validate_update _ _); try discriminate;
             rewrite Hf in U;
             destruct (email_clash _ _ _); discriminate.
      * split; [reflexivity|]. split; [intros v' Hv'; discriminate|].
        intros status _. right. split; [reflexivity|]. eauto.
Qed.

(** ** The rate limiter and the validation route *)

(** The limiter is never consulted for [/api/validate-email]: the mount
    path [/api/validate] is not followed by a [/] in that path. *)
Lemma validation_route_not_limited (w : World) (s : Session) (r : Request) :
  path r = "/api/validate-email" ->
  hits (snd (app w s r)) = hits w /\
  fst (fst (app w s r)) <> TooManyRequests.
Proof.
  intros Hp. unfold App.app. rewrite Hp.
  change (mount_matches limiter_mount "/api/validate-email") with false.
  cbv iota beta.
  destruct (meth r); cbn [route_of];
    try (split; [reflexivity|discriminate]).
  change (String.eqb "/api/validate-email" "/api/validate-email") with true.
  cbv iota. unfold App.handle, keep, get_validate_email, call_gateway.
  destruct (negb _); cbn [fst snd hits]; [split; [reflexivity|discriminate]|].
  destruct (validateEmail _); cbn [fst snd hits with_call];
    split; try reflexivity; discriminate.
Qed.

(** However many requests a client sends to [/api/validate-email], none
    is rejected by the limiter. *)
Lemma validation_requests_never_rejected (n : nat) (w : World) (s : Session)
      (r : Request) :
  path r = "/api/validate-email" ->
  Forall (fun resp => resp <> TooManyRequests)
         (App.repeat_request isEmail isDate parseDate regex_i axios_get worded
                             env_ADMIN_USER env_ADMIN_PASS n w s r).
Proof.
  intros Hp. revert w s. induction n as [|n IH]; intros w s; simpl.
  - constructor.
  - pose proof (validation_route_not_limited w s r Hp) as [_ Hne].
    destruct (app w s r) as [[resp s'] w']. constructor; [exact Hne|apply IH].
Qed.

(** Under the mount path the limiter does its work: a client that was let
    through [max] times during the window is rejected. *)
Lemma mounted_path_limited (w : World) (s : Session) (r : Request) (ts : list Z) :
  mount_matches limiter_mount (path r) = true ->
  hits w !! ip r = Some ts ->
  Limiter.max <= Z.of_nat (length (Limiter.recent (now r) ts)) ->
  fst (fst (app w s r)) = TooManyRequests.
Proof.
  intros Hm Hts Hmax. unfold App.app, Limiter.apiLimiter. rewrite Hm, Hts.
  cbn [default from_option id].
  destruct (Z.ltb_spec (Z.of_nat (length (Limiter.recent (now r) ts))) Limiter.max);
    [lia|reflexivity].
Qed.

End Properties.

(* ===================================================================== *)
(** * The properties on concrete requests *)
(* ===================================================================== *)

(** C2 fails on the code: one client sends 101 validation requests within
    the window and the 101st is served like the first, because the limiter
    is mounted on [/api/validate] and never runs for
    [/api/validate-email]; on a path under the mount the 101st request is
    rejected. *)
Theorem validation_requests_beyond_limit_served :
  nth_error (Sample.serve 101 Sample.empty_world fresh_session
               (Sample.check_address "good@example.com")) 100
  = Some (Json 200 (J_verdict true "Email validated")) /\
  nth_error (Sample.serve 101 Sample.empty_world fresh_session
               (Sample.request GET "/api/validate/" Sample.no_query Sample.no_body))
            100
  = Some TooManyRequests /\
  nth_error (Sample.serve 101 Sample.empty_world fresh_session
               (Sample.request GET "/api/validate/" Sample.no_query Sample.no_body))
            99
  = Some NotFound.
Proof. vm_compute. repeat split. Qed.

(** C1 fails as stated: a submission that passes the field checks, with
    the service unreachable, whose one-letter name the schema refuses: no
    record is persisted and the store's error is rendered. *)
Lemma submit_unavailable_refused_by_store :
  validationErrors Sample.isEmail Sample.isDate false
    (Sample.form "A" "a@b.co" "2000-01-15" "0123456789" "Goa" "India") = [] /\
  validateEmail (Sample.axios_get (Some "a@b.co"))
  = Thrown "Failed to validate email: Network Error" /\
  Sample.run Sample.empty_world fresh_session
    (Sample.request POST "/submit" Sample.no_query
       (Sample.form "A" "a@b.co" "2000-01-15" "0123456789" "Goa" "India"))
  = (Render 200
       (V_index
          (Some "Server error: User validation failed: name: Name must be at least 2 characters")
          None None),
     fresh_session,
     {| users := []; outbound := [Some "a@b.co"]; hits := ∅ |}).
Proof. vm_compute. repeat split. Qed.

(** Express routes a path whatever the case of its letters and with or
    without a [/] at its end, and answers a parameter that cannot be
    decoded through the error handler. *)
Example requests_in_other_spellings :
  List.map name
    (users (snd (Sample.run Sample.empty_world fresh_session
                   (Sample.request POST "/SUBMIT/" Sample.no_query
                      (Sample.form "Asha" "a@b.co" "2000-01-15" "0123456789"
                                   "Goa" "India")))))
  = ["Asha"] /\
  Sample.run Sample.empty_world fresh_session
    (Sample.request POST "/Admin/" Sample.no_query
       (Sample.credentials "admin" "admin123"))
  = (Redirect "/dashboard", Sample.admin, Sample.empty_world) /\
  Sample.run Sample.empty_world Sample.admin
    (Sample.request GET "/LOGOUT" Sample.no_query Sample.no_body)
  = (Redirect "/admin", fresh_session, Sample.empty_world) /\
  outbound (snd (Sample.run Sample.empty_world fresh_session
                   (Sample.request GET "/api/validate-email/"
                      {| q_email := Some "good@example.com"; q_page := None;
                         q_limit := None; q_search := None |} Sample.no_body)))
  = [Some "good@example.com"] /\
  List.map state
    (users (snd (Sample.run (Sample.world_of (Sample.people 3)) Sample.admin
                   (Sample.request PUT ("/API/Users/" +:+ Sample.third +:+ "/")
                      Sample.no_query (Sample.only_state "K")))))
  = ["Goa"; "Goa"; "K"] /\
  Sample.run (Sample.world_of (Sample.people 3)) fresh_session
    (Sample.request GET "/edit/%zz" Sample.no_query Sample.no_body)
  = (Render 500
       (V_index
          (Some "Something went wrong on the server. Please try again later.")
          None None),
     fresh_session, Sample.world_of (Sample.people 3)).
Proof. vm_compute. repeat split. Qed.

(** The messages of a refused update: the update validators do not name
    the model, and the texts of the library come from the environment. *)
Example update_error_messages :
  fst (fst (Sample.run (Sample.world_of (Sample.people 3)) Sample.admin
              (Sample.request POST ("/update/" +:+ Sample.third) Sample.no_query
                 (Sample.form "A" "good@example.com" "2000-01-15" "0123456789"
                              "Goa" "India"))))
  = Render 500
      (V_edit (Some (Sample.person 3 "Asha" "3@example.com"
                       (Dates.MakeDate (Dates.MakeDay 2000 0 15) 0)))
         (Some "Failed to update user: Validation failed: name: Name must be at least 2 characters")) /\
  fst (fst (Sample.run (Sample.world_of (Sample.people 3)) Sample.admin
              (Sample.request PUT ("/api/users/" +:+ Sample.third) Sample.no_query
                 {| b_name := None; b_email := Some "1@example.com";
                    b_dob := None; b_contact := None; b_state := None;
                    b_country := None; b_username := None;
                    b_password := None |})))
  = Json 500
      (J_error (Sample.worded (DuplicateKey "1@example.com"))).
Proof. vm_compute. repeat split. Qed.

(** The same happens when the address is already stored. *)
Lemma submit_unavailable_duplicate_address :
  Sample.run (Sample.world_of (Sample.people 1)) fresh_session
    (Sample.request POST "/submit" Sample.no_query
       (Sample.form "Asha" "1@example.com" "2000-01-15" "0123456789" "Goa" "India"))
  = (Render 200 (V_index (Some "Server error: Email already exists") None None),
     fresh_session,
     {| users := Sample.people 1; outbound := [Some "1@example.com"]; hits := ∅ |}).
Proof. vm_compute. reflexivity. Qed.

(** The service is unreachable and the store accepts the record; the
    service calls the address undeliverable and nothing is stored. *)
Lemma submit_after_gateway_witness :
  validationErrors Sample.isEmail Sample.isDate false
    (Sample.form "Asha" "a@b.co" "2000-01-15" "0123456789" "Goa" "India") = [] /\
  List.map validationStatus
    (users (snd (Sample.run Sample.empty_world fresh_session
                   (Sample.request POST "/submit" Sample.no_query
                      (Sample.form "Asha" "a@b.co" "2000-01-15" "0123456789"
                                   "Goa" "India")))))
  = [Some "Validation unavailable"] /\
  Sample.run Sample.empty_world fresh_session
    (Sample.request POST "/submit" Sample.no_query
       (Sample.form "Asha" "poor@example.com" "2000-01-15" "0123456789"
                    "Goa" "India"))
  = (Render 200 (V_index (Some "Email undeliverable (Quality: 0.40)") None None),
     fresh_session,
     {| users := []; outbound := [Some "poor@example.com"]; hits := ∅ |}).
Proof.
  split; [reflexivity|]. split; [|reflexivity].
  set (r := Sample.request POST "/submit" Sample.no_query
              (Sample.form "Asha" "a@b.co" "2000-01-15" "0123456789" "Goa" "India")).
  destruct (Sample.run Sample.empty_world fresh_session r) as [[resp s'] w'] eqn:E.
  destruct (submit_after_gateway Sample.isEmail Sample.isDate Sample.parseDate
              Sample.regex_i Sample.axios_get Sample.worded None None
              Sample.empty_world w' fresh_session s' r resp
              eq_refl eq_refl eq_refl eq_refl eq_refl E) as [Hfail _].
  destruct (Hfail (ex_intro _ "Failed to validate email: Network Error" eq_refl)
                  _ eq_refl) as [Hok _].
  destruct (Hok eq_refl eq_refl) as (u & Hu & Hs & _).
  cbn [snd]. rewrite Hu. cbn. now rewrite Hs.
Defined.

(** The dashboard, asked for without an admin session. *)
Lemma guard_redirects_witness :
  route_of GET "/dashboard" = Some R_dashboard /\
  admin_only R_dashboard = true /\
  isAdmin fresh_session = false /\
  Sample.run (Sample.world_of (Sample.people 3)) fresh_session
    (Sample.request GET "/dashboard" Sample.no_query Sample.no_body)
  = (Redirect "/admin", fresh_session, Sample.world_of (Sample.people 3)) /\
  fst (fst (Sample.run Sample.empty_world fresh_session
              (Sample.request GET "/dashboard" Sample.no_query Sample.no_body)))
  = fst (fst (Sample.run (Sample.world_of (Sample.people 3)) fresh_session
                (Sample.request GET "/dashboard" Sample.no_query Sample.no_body))).
Proof.
  split; [reflexivity|]. split; [reflexivity|]. split; [reflexivity|].
  exact (guard_redirects Sample.isEmail Sample.isDate Sample.parseDate
           Sample.regex_i Sample.axios_get Sample.worded None None
           (Sample.world_of (Sample.people 3)) Sample.empty_world fresh_session
           (Sample.request GET "/dashboard" Sample.no_query Sample.no_body)
           R_dashboard eq_refl eq_refl eq_refl).
Defined.

(** The dashboard of an empty collection. *)
Lemma dashboard_of_empty_store_witness :
  isAdmin Sample.admin = true /\
  users Sample.empty_world = [] /\
  Sample.run Sample.empty_world Sample.admin
    (Sample.request GET "/dashboard" Sample.no_query Sample.no_body)
  = (Render 200
       (V_dashboard 0 empty_series empty_series empty_series empty_series []),
     Sample.admin, Sample.empty_world).
Proof.
  split; [reflexivity|]. split; [reflexivity|].
  exact (dashboard_of_empty_store Sample.isEmail Sample.isDate Sample.parseDate
           Sample.regex_i Sample.axios_get Sample.worded None None
           Sample.empty_world Sample.admin
           (Sample.request GET "/dashboard" Sample.no_query Sample.no_body)
           eq_refl eq_refl eq_refl eq_refl).
Defined.

(** The three cases of the login route, with the default credentials. *)
Lemma login_gate_witness :
  Sample.run Sample.empty_world {| isAdmin := false; attempts := Some 3 |}
    (Sample.request POST "/admin" Sample.no_query
       (Sample.credentials "admin" "admin123"))
  = (Render 200 (V_admin (Some lockout_message)),
     {| isAdmin := false; attempts := Some 3 |}, Sample.empty_world) /\
  Sample.run Sample.empty_world {| isAdmin := false; attempts := Some 2 |}
    (Sample.request POST "/admin" Sample.no_query
       (Sample.credentials "admin" "admin123"))
  = (Redirect "/dashboard", {| isAdmin := true; attempts := Some 0 |},
     Sample.empty_world) /\
  Sample.run Sample.empty_world {| isAdmin := false; attempts := Some 2 |}
    (Sample.request POST "/admin" Sample.no_query
       (Sample.credentials "admin" "letmein"))
  = (Render 200
       (V_admin (Some (cross_mark +:+ " Invalid credentials. 0 attempts remaining."))),
     {| isAdmin := false; attempts := Some 3 |}, Sample.empty_world).
Proof.
  split; [|split].
  - apply (login_gate Sample.isEmail Sample.isDate Sample.parseDate
             Sample.regex_i Sample.axios_get Sample.worded None None
             Sample.empty_world {| isAdmin := false; attempts := Some 3 |}
             (Sample.request POST "/admin" Sample.no_query
                (Sample.credentials "admin" "admin123"))
             3 eq_refl eq_refl eq_refl).
    lia.
  - apply (login_gate Sample.isEmail Sample.isDate Sample.parseDate
             Sample.regex_i Sample.axios_get Sample.worded None None
             Sample.empty_world {| isAdmin := false; attempts := Some 2 |}
             (Sample.request POST "/admin" Sample.no_query
                (Sample.credentials "admin" "admin123"))
             2 eq_refl eq_refl eq_refl).
    + lia.
    + split; reflexivity.
  - apply (login_gate Sample.isEmail Sample.isDate Sample.parseDate
             Sample.regex_i Sample.axios_get Sample.worded None None
             Sample.empty_world {| isAdmin := false; attempts := Some 2 |}
             (Sample.request POST "/admin" Sample.no_query
                (Sample.credentials "admin" "letmein"))
             2 eq_refl eq_refl eq_refl).
    + lia.
    + intros [_ H]. discriminate H.
Defined.


(** With five leap days in between, the eighteenth birthday is counted in
    [18,30): 1 March 2024 for a record born on 1 March 2006. *)
Lemma eighteenth_birthday_counted_from_18 :
  Dates.years_before 18 (Dates.MakeDate (Dates.MakeDay 2006 2 1) 0)
                        (Dates.MakeDate (Dates.MakeDay 2024 2 1) 0) /\
  Dashboard.bucket_in Dashboard.boundaries
    (Dashboard.age (Dates.MakeDate (Dates.MakeDay 2024 2 1) 0)
                   (Dates.MakeDate (Dates.MakeDay 2006 2 1) 0))
  = Dashboard.Lower 18.
Proof.
  split; [|reflexivity].
  exists 2024, 2, 1, 0. unfold Dates.msPerDay.
  repeat split; try reflexivity; lia.
Qed.


(** A deliverable address with a score of 0.95. *)
Lemma validateEmail_verdict_witness :
  get (JObject [("deliverability", JString "DELIVERABLE");
                ("quality_score", JString "0.95")]) "deliverability"
  = JString "DELIVERABLE" /\
  get (JObject [("deliverability", JString "DELIVERABLE");
                ("quality_score", JString "0.95")]) "quality_score"
  = JString "0.95" /\
  validateEmail (Resolved (JObject [("deliverability", JString "DELIVERABLE");
                                    ("quality_score", JString "0.95")]))
  = Returned {| isValid := true; message := "Email validated" |}.
Proof.
  split; [reflexivity|]. split; [reflexivity|].
  destruct (validateEmail_verdict
              (JObject [("deliverability", JString "DELIVERABLE");
                        ("quality_score", JString "0.95")])
              "DELIVERABLE" "0.95" eq_refl eq_refl eq_refl eq_refl)
    as (v & Hv & Hiff & Hmsg & _).
  rewrite Hv. destruct v as [valid msg]. cbn [isValid message] in *.
  assert (valid = true) as -> by (apply Hiff; split; reflexivity).
  now rewrite (Hmsg eq_refl).
Defined.

(** 25 documents: page 2 of the JSON list with 10 per page, page 1 of the
    JSON list with the default limit, page 3 of the rendered list. *)
Lemma pagination_witness :
  isAdmin Sample.admin = true /\
  length (Sample.people 25) = 25%nat /\
  match fst (fst (Sample.run (Sample.world_of (Sample.people 25)) Sample.admin
                    (Sample.list_page "/api/users" "2" "10"))) with
  | Json 200 (J_users us 2 3 25) => length us = 10%nat
  | _ => False
  end /\
  Sample.run (Sample.world_of (Sample.people 25)) Sample.admin
    (Sample.request GET "/api/users" Sample.no_query Sample.no_body)
  = (Json 200 (J_users (Sample.people 25) 1 1 25), Sample.admin,
     Sample.world_of (Sample.people 25)) /\
  Sample.run (Sample.world_of (Sample.people 25)) Sample.admin
    (Sample.list_page "/users" "3" "50")
  = (Render 200 (V_users (skipn 20 (Sample.people 25)) 3 3 None), Sample.admin,
     Sample.world_of (Sample.people 25)).
Proof.
  split; [reflexivity|]. split; [reflexivity|]. split; [|split].
  - destruct (proj1 (pagination Sample.isEmail Sample.isDate Sample.parseDate
                       Sample.regex_i Sample.axios_get Sample.worded None None
                       (Sample.world_of (Sample.people 25)) Sample.admin
                       (Sample.list_page "/api/users" "2" "10") 2
                       eq_refl eq_refl eq_refl eq_refl ltac:(lia))
                    eq_refl eq_refl eq_refl eq_refl eq_refl) as (us & Hr & Hlen).
    unfold Sample.run. rewrite Hr. exact Hlen.
  - exact (proj1 (proj1 (proj2 (pagination Sample.isEmail Sample.isDate
                                  Sample.parseDate Sample.regex_i Sample.axios_get Sample.worded
                                  None None
                                  (Sample.world_of (Sample.people 25)) Sample.admin
                                  (Sample.request GET "/api/users" Sample.no_query
                                                  Sample.no_body) 1
                                  eq_refl eq_refl eq_refl eq_refl ltac:(lia)))
                   eq_refl 50 (Sample.people 25) eq_refl ltac:(lia)
                   ltac:(vm_compute; discriminate) eq_refl)).
  - exact (proj1 (proj2 (proj2 (pagination Sample.isEmail Sample.isDate
                                  Sample.parseDate Sample.regex_i Sample.axios_get Sample.worded
                                  None None
                                  (Sample.world_of (Sample.people 25)) Sample.admin
                                  (Sample.list_page "/users" "3" "50") 3
                                  eq_refl eq_refl eq_refl eq_refl ltac:(lia)))
                   eq_refl ltac:(vm_compute; discriminate))).
Defined.

(** An admin creates a record through the JSON API. *)
Lemma api_create_status_witness :
  Sample.run Sample.empty_world Sample.admin
    (Sample.request POST "/api/users" Sample.no_query
       (Sample.form "Asha" "good@example.com" "2000-01-15" "0123456789"
                    "Goa" "India"))
  = (Json 201
       (J_user {| _id := 1; name := "Asha"; email := "good@example.com";
                  dob := Dates.MakeDate (Dates.MakeDay 2000 0 15) 0;
                  contact := "0123456789"; state := "Goa"; country := "India";
                  createdAt := Sample.today; validationStatus := None |}),
     Sample.admin,
     {| users := [{| _id := 1; name := "Asha"; email := "good@example.com";
                     dob := Dates.MakeDate (Dates.MakeDay 2000 0 15) 0;
                     contact := "0123456789"; state := "Goa"; country := "India";
                     createdAt := Sample.today; validationStatus := None |}];
        outbound := []; hits := ∅ |}) /\
  List.map validationStatus
    (users (snd (Sample.run Sample.empty_world Sample.admin
                   (Sample.request POST "/api/users" Sample.no_query
                      (Sample.form "Asha" "good@example.com" "2000-01-15"
                                   "0123456789" "Goa" "India")))))
  = [None].
Proof.
  split; [reflexivity|].
  set (r := Sample.request POST "/api/users" Sample.no_query
              (Sample.form "Asha" "good@example.com" "2000-01-15" "0123456789"
                           "Goa" "India")).
  destruct (Sample.run Sample.empty_world Sample.admin r) as [[resp s'] w'] eqn:E.
  destruct (api_create_status Sample.isEmail Sample.isDate Sample.parseDate
              Sample.regex_i Sample.axios_get Sample.worded None None
              Sample.empty_world w' Sample.admin s' r resp eq_refl eq_refl E)
    as [_ [[_ Hno]|(u & _ & Hu & Hs)]].
  - exfalso. vm_compute in E. inversion E; subst. eapply Hno. reflexivity.
  - cbn [snd]. rewrite Hu. cbn. now rewrite Hs.
Defined.

(** An admin moves the third record to another state through the JSON
    API, then edits it through the form while the service is unreachable,
    then with an address the service calls undeliverable. *)
Lemma update_routes_witness :
  isAdmin Sample.admin = true /\
  findById (Sample.people 3) Sample.third
  = Ok (Some (Sample.person 3 "Asha" "3@example.com"
                (Dates.MakeDate (Dates.MakeDay 2000 0 15) 0))) /\
  route_of PUT ("/api/users/" +:+ Sample.third) = Some (R_api_update Sample.third) /\
  match Sample.run (Sample.world_of (Sample.people 3)) Sample.admin
          (Sample.request PUT ("/api/users/" +:+ Sample.third) Sample.no_query
             (Sample.only_state "Kerala")) with
  | (Json 200 (J_user u'), _, w') =>
      state u' = "Kerala" /\ name u' = "Asha" /\
      validationStatus u' = Some "Email validated" /\ outbound w' = []
  | _ => False
  end /\
  match Sample.run (Sample.world_of (Sample.people 3)) Sample.admin
          (Sample.request POST ("/update/" +:+ Sample.third) Sample.no_query
             (Sample.form "Asha" "new@example.com" "2000-01-15" "0123456789"
                          "Goa" "India")) with
  | (Redirect "/users", _, w') =>
      match findById (users w') Sample.third with
      | Ok (Some u') => validationStatus u' = Some "Validation unavailable"
      | _ => False
      end /\ outbound w' = [Some "new@example.com"]
  | _ => False
  end /\
  Sample.run (Sample.world_of (Sample.people 3)) Sample.admin
    (Sample.request POST ("/update/" +:+ Sample.third) Sample.no_query
       (Sample.form "Asha" "poor@example.com" "2000-01-15" "0123456789"
                    "Goa" "India"))
  = (Render 400
       (V_edit (Some (Sample.person 3 "Asha" "3@example.com"
                        (Dates.MakeDate (Dates.MakeDay 2000 0 15) 0)))
               (Some "Email undeliverable (Quality: 0.40)")),
     Sample.admin,
     {| users := Sample.people 3; outbound := [Some "poor@example.com"];
        hits := ∅ |}).
Proof.
  split; [reflexivity|]. split; [reflexivity|]. split; [reflexivity|].
  split; [|split; [|reflexivity]].
  - set (r := Sample.request PUT ("/api/users/" +:+ Sample.third) Sample.no_query
                (Sample.only_state "Kerala")).
    destruct (Sample.run (Sample.world_of (Sample.people 3)) Sample.admin r)
      as [[resp s'] w'] eqn:E.
    pose proof (update_routes Sample.isEmail Sample.isDate Sample.parseDate
                  Sample.regex_i Sample.axios_get Sample.worded None None
                  (Sample.world_of (Sample.people 3)) w' Sample.admin s' r
                  Sample.third
                  (Sample.person 3 "Asha" "3@example.com"
                     (Dates.MakeDate (Dates.MakeDay 2000 0 15) 0))
                  resp eq_refl eq_refl E) as [Hput _].
    specialize (Hput eq_refl).
    vm_compute in E. inversion E; subst resp s' w'; clear E.
    destruct (Hput _ eq_refl)
      as (Hname & _ & _ & _ & _ & _ & Hstatus & _ & _ & _ & _ & Hout).
    split; [reflexivity|]. split; [exact (Hname eq_refl)|].
    split; [exact Hstatus|exact Hout].
  - set (r := Sample.request POST ("/update/" +:+ Sample.third) Sample.no_query
                (Sample.form "Asha" "new@example.com" "2000-01-15" "0123456789"
                             "Goa" "India")).
    destruct (Sample.run (Sample.world_of (Sample.people 3)) Sample.admin r)
      as [[resp s'] w'] eqn:E.
    pose proof (update_routes Sample.isEmail Sample.isDate Sample.parseDate
                  Sample.regex_i Sample.axios_get Sample.worded None None
                  (Sample.world_of (Sample.people 3)) w' Sample.admin s' r
                  Sample.third
                  (Sample.person 3 "Asha" "3@example.com"
                     (Dates.MakeDate (Dates.MakeDay 2000 0 15) 0))
                  resp eq_refl eq_refl E) as [_ Hform].
    destruct (Hform eq_refl eq_refl eq_refl eq_refl) as (Hout & _ & Hstatus).
    destruct (Hstatus "Validation unavailable")
      as [[-> (u' & Hu' & Hs')]|[_ [e He]]].
    + right. split; [reflexivity|].
      exists "Failed to validate email: Network Error". reflexivity.
    + rewrite Hu'. split; [exact Hs'|exact Hout].
    + exfalso. vm_compute in E. rewrite He in E. discriminate E.
Defined.

(* ===================================================================== *)
(** * Further properties of the handlers *)
(* ===================================================================== *)

(** ** What the operations of the model keep *)

Lemma findByIdAndUpdate_missing (rv : bool) (now : Z) (db db' : collection)
      (id : string) (p : Paths) :
  findByIdAndUpdate rv now db id p = Ok (None, db') -> db' = db.
Proof.
  unfold findByIdAndUpdate. intros H.
  destruct (castObjectId id) as [i|]; [|discriminate].
  destruct (p_dob p); try discriminate;
    destruct (if rv then validate_update now p else []); try discriminate;
    destruct (find_id i db); try discriminate;
    try (destruct (email_clash db i p); discriminate);
    now inversion H.
Qed.

Lemma findByIdAndUpdate_inv (rv : bool) (now : Z) (db db' : collection)
      (id : string) (p : Paths) (u' : User) :
  findByIdAndUpdate rv now db id p = Ok (Some u', db') ->
  exists i u,
    find_id i db = Some u /\ u' = apply_update p u /\
    db' = replace_id i u' db /\ email_clash db i p = false /\
    (rv = true -> validate_update now p = []).
Proof.
  unfold findByIdAndUpdate. intros H.
  destruct (castObjectId id) as [i|]; [|discriminate].
  destruct (p_dob p) eqn:D; try discriminate;
    destruct (if rv then validate_update now p else []) eqn:V; try discriminate;
    destruct (find_id i db) as [u|] eqn:F; try discriminate;
    destruct (email_clash db i p) eqn:C; try discriminate;
    inversion H; subst; exists i, u; repeat split; auto;
    intros ->; exact V.
Qed.

Lemma find_id_In (i : N) (u : User) (db : collection) :
  find_id i db = Some u -> In u db /\ _id u = i.
Proof.
  induction db as [|v db IH]; simpl; [discriminate|].
  destruct (N.eqb_spec (_id v) i).
  - intros H; inversion H; subst. auto.
  - intros H. destruct (IH H). auto.
Qed.

Lemma replace_id_ids (i : N) (u' : User) (db : collection) :
  _id u' = i -> List.map _id (replace_id i u' db) = List.map _id db.
Proof.
  intros Hi. induction db as [|v db IH]; simpl; [reflexivity|].
  destruct (N.eqb_spec (_id v) i); simpl; congruence.
Qed.

Lemma replace_id_In (i : N) (u' x : User) (db : collection) :
  In x (replace_id i u' db) -> x = u' \/ In x db.
Proof.
  induction db as [|v db IH]; simpl; [tauto|].
  destruct (N.eqb (_id v) i); simpl; intuition.
Qed.

Lemma remove_id_In (i : N) (x : User) (db : collection) :
  In x (remove_id i db) -> In x db.
Proof.
  induction db as [|v db IH]; simpl; [tauto|].
  destruct (N.eqb (_id v) i); simpl; intuition.
Qed.

Lemma remove_id_NoDup {A : Type} (f : User -> A) (i : N) (db : collection) :
  List.NoDup (List.map f db) -> List.NoDup (List.map f (remove_id i db)).
Proof.
  induction db as [|v db IH]; simpl; [auto|].
  intros H. inversion H as [|? ? Hnin Hnd]; subst.
  destruct (N.eqb (_id v) i); [assumption|].
  simpl. constructor; [|auto].
  intros Hin. apply Hnin. apply in_map_iff in Hin as (x & Hx & Hin).
  apply in_map_iff. exists x. split; [assumption|]. eapply remove_id_In; eauto.
Qed.

Lemma NoDup_map_injective {A : Type} (f : User -> A) (db : collection) (x y : User) :
  List.NoDup (List.map f db) -> In x db -> In y db -> f x = f y -> x = y.
Proof.
  induction db as [|v db IH]; simpl; [tauto|].
  intros H. inversion H as [|? ? Hnin Hnd]; subst.
  intros [->|Hx] [->|Hy] E; auto.
  - exfalso. apply Hnin. rewrite E. now apply in_map.
  - exfalso. apply Hnin. rewrite <- E. now apply in_map.
Qed.

Lemma replace_id_emails (i : N) (u' : User) (db : collection) :
  _id u' = i ->
  List.NoDup (List.map _id db) ->
  List.NoDup (List.map email db) ->
  (forall v, In v db -> _id v <> i -> email v <> email u') ->
  List.NoDup (List.map email (replace_id i u' db)).
Proof.
  intros Hi. induction db as [|v db IH]; simpl; [auto|].
  intros Hids Hem Hother.
  inversion Hids as [|? ? Hnin Hnd]; subst.
  inversion Hem as [|? ? Hnin' Hnd']; subst.
  destruct (N.eqb_spec (_id v) (_id u')) as [E|E]; simpl.
  - constructor; [|assumption].
    intros Hin. apply in_map_iff in Hin as (x & Hx & Hin).
    apply (Hother x); auto.
    intros Hxi. apply Hnin. rewrite E, <- Hxi. now apply in_map.
  - constructor.
    + intros Hin. apply in_map_iff in Hin as (x & Hx & Hin).
      apply replace_id_In in Hin as [->|Hin].
      * apply (Hother v); auto.
      * apply Hnin'. rewrite <- Hx. now apply in_map.
    + apply IH; auto.
Qed.

Lemma fresh_id_above (db : collection) (u : User) :
  In u db -> (_id u < fresh_id db)%N.
Proof.
  unfold fresh_id. induction db as [|v db IH]; simpl; [tauto|].
  intros [->|H]; [lia|]. specialize (IH H). lia.
Qed.

Lemma email_taken_In (db : collection) (e : string) :
  email_taken db e = false -> ~ In e (List.map email db).
Proof.
  unfold email_taken. intros H Hin.
  apply in_map_iff in Hin as (x & Hx & Hin).
  assert (existsb (fun u => String.eqb (email u) e) db = true); [|congruence].
  apply existsb_exists. exists x. split; [assumption|]. now apply String.eqb_eq.
Qed.

Lemma save_inv (now : Z) (db db' : collection) (p : Paths) (u : User) :
  save now db p = Ok (u, db') ->
  db' = (db ++ [u])%list /\ validate now p = [] /\
  _id u = fresh_id db /\ email_taken db (email u) = false /\
  name u = Model.text (p_name p) /\ email u = Model.text (p_email p) /\
  contact u = Model.text (p_contact p) /\ state u = Model.text (p_state p) /\
  country u = Model.text (p_country p) /\ p_dob p = Value (dob u) /\
  createdAt u = now /\
  validationStatus u =
    match p_validationStatus p with Some v => v | None => None end.
Proof.
  unfold save. intros H.
  destruct (validate now p) eqn:V; [|discriminate].
  destruct (p_dob p); try discriminate.
  destruct (email_taken db (Model.text (p_email p))) eqn:T; [discriminate|].
  inversion H; subst. cbn. repeat split; auto.
Qed.

Lemma unique_save (now : Z) (db db' : collection) (p : Paths) (u : User) :
  Run.unique db -> save now db p = Ok (u, db') -> Run.unique db'.
Proof.
  intros [Hids Hem] H.
  apply save_inv in H as (-> & _ & Hid & Ht & _).
  split; rewrite List.map_app; cbn [List.map].
  - apply List.NoDup_app; [assumption|repeat constructor; simpl; tauto|].
    intros a Ha [<-|[]]. apply in_map_iff in Ha as (x & Hx & Ha).
    pose proof (fresh_id_above db x Ha). lia.
  - apply List.NoDup_app; [assumption|repeat constructor; simpl; tauto|].
    intros a Ha [<-|[]]. now apply (email_taken_In db (email u)).
Qed.

Lemma unique_update (rv : bool) (now : Z) (db db' : collection) (id : string)
      (p : Paths) (u' : User) :
  Run.unique db ->
  findByIdAndUpdate rv now db id p = Ok (Some u', db') -> Run.unique db'.
Proof.
  intros [Hids Hem] H.
  apply findByIdAndUpdate_inv in H as (i & u & Hf & -> & -> & Hc & _).
  apply find_id_In in Hf as [Hin Hi].
  split.
  - rewrite replace_id_ids; [assumption|exact Hi].
  - apply replace_id_emails; auto.
    intros v Hv Hvi. cbn [email apply_update].
    unfold email_clash in Hc. destruct (p_email p) as [e|]; cbn [or_else].
    + intros E.
      assert (existsb (fun x => negb (N.eqb (_id x) i) && String.eqb (email x) e) db
              = true); [|congruence].
      apply existsb_exists. exists v. split; [assumption|].
      apply andb_true_iff. split.
      * apply negb_true_iff. now apply N.eqb_neq.
      * now apply String.eqb_eq.
    + intros E. apply Hvi. rewrite <- Hi. f_equal.
      eapply NoDup_map_injective; eauto.
Qed.

Lemma unique_delete (db db' : collection) (id : string) (o : option User) :
  Run.unique db -> findByIdAndDelete db id = Ok (o, db') -> Run.unique db'.
Proof.
  intros [Hids Hem]. unfold findByIdAndDelete.
  destruct (castObjectId id); [|discriminate].
  intros H; inversion H; subst. split; now apply remove_id_NoDup.
Qed.

Lemma unique_write (now : Z) (db db' : collection) (k : Run.kind) :
  Run.unique db -> Run.write now db k db' -> Run.unique db'.
Proof.
  intros Hu Hw. destruct Hw.
  - assumption.
  - eapply unique_save; eauto.
  - eapply unique_update; eauto.
  - eapply unique_delete; eauto.
  - split; constructor.
Qed.

Lemma required_is_set (path msg : string) (v : option string)
      (rest : string -> list string) :
  tag path (required_text msg v rest) = [] -> v = Some (Model.text v).
Proof.
  destruct v as [s|]; [reflexivity|discriminate].
Qed.

Lemma validate_parts (now : Z) (p : Paths) :
  validate now p = [] ->
  validate_name (p_name p) = [] /\ validate_email (p_email p) = [] /\
  validate_contact (p_contact p) = [] /\ validate_state (p_state p) = [] /\
  validate_country (p_country p) = [].
Proof.
  unfold validate. intros H.
  repeat match goal with
         | H : (_ ++ _)%list = [] |- _ => apply app_eq_nil in H as [? H]
         end.
  auto.
Qed.

Lemma conforms_save (now : Z) (db db' : collection) (p : Paths) (u : User) :
  save now db p = Ok (u, db') -> Run.conforms u.
Proof.
  intros H. apply save_inv in H as (_ & V & _ & _ & Hn & He & Hc & Hs & Hk & _).
  apply validate_parts in V as (Vn & Ve & Vc & Vs & Vk).
  unfold Run.conforms. rewrite Hn, He, Hc, Hs, Hk.
  rewrite <- (required_is_set _ _ _ _ Vn), <- (required_is_set _ _ _ _ Ve),
    <- (required_is_set _ _ _ _ Vc), <- (required_is_set _ _ _ _ Vs),
    <- (required_is_set _ _ _ _ Vk).
  now rewrite Vn, Ve, Vc, Vs, Vk.
Qed.

Lemma conforms_parts (u : User) :
  Run.conforms u <->
  validate_name (Some (name u)) = [] /\ validate_email (Some (email u)) = [] /\
  validate_contact (Some (contact u)) = [] /\ validate_state (Some (state u)) = [] /\
  validate_country (Some (country u)) = [].
Proof.
  unfold Run.conforms. split.
  - intros H.
    repeat match goal with
           | H : (_ ++ _)%list = [] |- _ => apply app_eq_nil in H as [? H]
           end.
    auto.
  - intros (-> & -> & -> & -> & ->). reflexivity.
Qed.

Lemma conforms_update (now : Z) (p : Paths) (u : User) :
  Run.conforms u -> validate_update now p = [] ->
  Run.conforms (apply_update p u).
Proof.
  intros Hu V. apply conforms_parts in Hu as (Hn & He & Hc & Hs & Hk).
  unfold validate_update in V.
  repeat match goal with
         | H : (_ ++ _)%list = [] |- _ => apply app_eq_nil in H as [? H]
         end.
  apply conforms_parts. cbn [apply_update name email contact state country].
  repeat split.
  - destruct (p_name p); cbn in *; assumption.
  - destruct (p_email p); cbn in *; assumption.
  - destruct (p_contact p); cbn in *; assumption.
  - destruct (p_state p); cbn in *; assumption.
  - destruct (p_country p); cbn in *; assumption.
Qed.

Lemma conforms_write (now : Z) (db db' : collection) (k : Run.kind) :
  Forall Run.conforms db -> Run.write now db k db' ->
  k <> Run.K_update false -> Forall Run.conforms db'.
Proof.
  intros Hall Hw Hk. destruct Hw as [|p u db' S|rv id p u' db' U|id o db' D|].
  - assumption.
  - pose proof (conforms_save _ _ _ _ _ S) as Hu.
    apply save_inv in S as (-> & _). apply List.Forall_app.
    split; [assumption|repeat constructor; assumption].
  - destruct rv; [|congruence].
    apply findByIdAndUpdate_inv in U as (i & u & Hf & -> & -> & _ & V).
    apply find_id_In in Hf as [Hin _].
    assert (Hu : Run.conforms u) by (rewrite List.Forall_forall in Hall; auto).
    apply List.Forall_forall. intros x Hx.
    apply replace_id_In in Hx as [->|Hx].
    + apply (conforms_update now); auto.
    + rewrite List.Forall_forall in Hall; auto.
  - unfold findByIdAndDelete in D. destruct (castObjectId id); [|discriminate].
    inversion D; subst. apply List.Forall_forall. intros x Hx.
    apply remove_id_In in Hx. rewrite List.Forall_forall in Hall; auto.
  - constructor.
Qed.

(** ** White space *)

Lemma string_app_cons (c : ascii) (s t : string) :
  (String c s +:+ t)%string = String c (s +:+ t).
Proof. reflexivity. Qed.

Lemma string_app_nil (t : string) : ("" +:+ t)%string = t.
Proof. reflexivity. Qed.

Lemma string_app_empty (s : string) : (s +:+ "")%string = s.
Proof.
  induction s as [|c s IH]; [reflexivity|]. now rewrite string_app_cons, IH.
Qed.

Lemma string_app_assoc (a b c : string) :
  ((a +:+ b) +:+ c)%string = (a +:+ (b +:+ c))%string.
Proof.
  induction a as [|x a IH]; [reflexivity|]. now rewrite !string_app_cons, IH.
Qed.

Lemma rev_append_app (s acc : string) :
  JS.rev_append s acc = (JS.reverse s +:+ acc)%string.
Proof.
  unfold JS.reverse. revert acc.
  induction s as [|c s IH]; intros acc; [reflexivity|].
  cbn [JS.rev_append].
  rewrite IH, (IH (String c EmptyString)), string_app_assoc. reflexivity.
Qed.

Lemma reverse_cons (c : ascii) (s : string) :
  JS.reverse (String c s) = (JS.reverse s +:+ String c "")%string.
Proof. unfold JS.reverse at 1. cbn [JS.rev_append]. apply rev_append_app. Qed.

Lemma reverse_app (a b : string) :
  JS.reverse (a +:+ b) = (JS.reverse b +:+ JS.reverse a)%string.
Proof.
  induction a as [|c a IH].
  - rewrite string_app_nil. change (JS.reverse "") with "".
    now rewrite string_app_empty.
  - now rewrite string_app_cons, !reverse_cons, IH, string_app_assoc.
Qed.

Lemma reverse_involutive (s : string) : JS.reverse (JS.reverse s) = s.
Proof.
  induction s as [|c s IH]; [reflexivity|].
  rewrite reverse_cons, reverse_app, IH. reflexivity.
Qed.

Lemma trimStart_suffix (s : string) :
  exists blanks, s = (blanks +:+ JS.trimStart s)%string.
Proof.
  induction s as [|c s (b & IH)]; cbn [JS.trimStart]; [now exists ""|].
  destruct (JS.is_space c).
  - exists (String c b). now rewrite string_app_cons, <- IH.
  - now exists "".
Qed.

Lemma trimStart_clean (s : string) : Run.starts_clean (JS.trimStart s).
Proof.
  induction s as [|c s IH]; cbn [JS.trimStart]; [exact I|].
  destruct (JS.is_space c) eqn:E; [assumption|]. exact E.
Qed.

Lemma trimStart_of_clean (s : string) :
  Run.starts_clean s -> JS.trimStart s = s.
Proof.
  destruct s as [|c s]; cbn [JS.trimStart Run.starts_clean]; [reflexivity|].
  now intros ->.
Qed.

Lemma starts_clean_app (a b : string) :
  a <> EmptyString -> Run.starts_clean (a +:+ b) -> Run.starts_clean a.
Proof. destruct a; [congruence|]. rewrite string_app_cons. auto. Qed.

Lemma trimStart_keeps_end (s : string) :
  Run.ends_clean s -> Run.ends_clean (JS.trimStart s).
Proof.
  unfold Run.ends_clean. intros H.
  destruct (trimStart_suffix s) as (b & Hb).
  destruct (JS.trimStart s) as [|c t] eqn:E; [exact I|].
  rewrite Hb, reverse_app in H.
  apply starts_clean_app in H; [assumption|].
  rewrite reverse_cons. destruct (JS.reverse t); discriminate.
Qed.

(** [trim] leaves no white space at either end. *)
Lemma trim_clean (s : string) :
  Run.starts_clean (JS.trim s) /\ Run.ends_clean (JS.trim s).
Proof.
  unfold JS.trim, Run.ends_clean. rewrite reverse_involutive. split.
  - apply (trimStart_keeps_end (JS.reverse (JS.trimStart s))).
    unfold Run.ends_clean. rewrite reverse_involutive. apply trimStart_clean.
  - apply trimStart_clean.
Qed.

Lemma trim_of_clean (s : string) :
  Run.starts_clean s -> Run.ends_clean s -> JS.trim s = s.
Proof.
  intros H1 H2. unfold JS.trim.
  rewrite (trimStart_of_clean s H1), (trimStart_of_clean _ H2).
  apply reverse_involutive.
Qed.

Lemma trim_idempotent (s : string) : JS.trim (JS.trim s) = JS.trim s.
Proof. destruct (trim_clean s). now apply trim_of_clean. Qed.

(** ** The gateway *)

Lemma rethrow_throws (message : string) (response_data : option jsval) :
  exists msg, rethrow message response_data = Thrown msg.
Proof.
  unfold rethrow. destruct response_data as [[| | | | |]|]; eexists; reflexivity.
Qed.

(** X8: [validateEmail] returns a verdict exactly for a response whose
    data carries a text [deliverability] and a text [quality_score]; a
    rejected call, a response without data and a response of another shape
    all end in a thrown error, never in a verdict. *)
Theorem validateEmail_returns_iff (o : axios_outcome) :
  (exists v, validateEmail o = Returned v) <->
  (exists data d q,
     o = Resolved data /\
     get data "deliverability" = JString d /\
     get data "quality_score" = JString q).
Proof.
  split.
  - intros [v H]. destruct o as [data|m rd].
    + exists data. unfold validateEmail, classify in H.
      destruct (falsy data).
      { destruct (rethrow_throws "Invalid API response format" None) as [x Hx].
        rewrite Hx in H. discriminate. }
      destruct (get data "deliverability") as [| | | |d|] eqn:Hd;
        try (cbn in H; discriminate).
      destruct (get data "quality_score") as [| | | |q|] eqn:Hq;
        try (cbn in H; discriminate).
      eauto.
    + unfold validateEmail in H. destruct (rethrow_throws m rd) as [x Hx].
      rewrite Hx in H. discriminate.
  - intros (data & d & q & -> & Hd & Hq).
    destruct data as [| | | | |fields]; try discriminate Hd.
    unfold validateEmail, classify. rewrite Hd, Hq. cbn [falsy]. eauto.
Qed.

Lemma valid_verdict_message (o : axios_outcome) (v : verdict) :
  validateEmail o = Returned v -> isValid v = true ->
  message v = "Email validated".
Proof.
  intros H Hv. destruct o as [data|m rd].
  - unfold validateEmail, classify in H.
    destruct (falsy data); [discriminate|].
    destruct (get data "deliverability"); try discriminate.
    destruct (get data "quality_score"); try discriminate.
    inversion H; subst. cbn in *. now rewrite Hv.
  - unfold validateEmail in H. destruct (rethrow_throws m rd) as [x Hx].
    rewrite Hx in H. discriminate.
Qed.

Lemma validate_ignores_status (now : Z) (p : Paths) (st : option (option string)) :
  validate now {| p_name := p_name p; p_email := p_email p; p_dob := p_dob p;
                  p_contact := p_contact p; p_state := p_state p;
                  p_country := p_country p; p_validationStatus := st |}
  = validate now p.
Proof. reflexivity. Qed.

(** ** Removing documents, pages *)

Lemma remove_id_missing (i : N) (db : collection) :
  find_id i db = None -> remove_id i db = db.
Proof.
  induction db as [|v db IH]; simpl; [reflexivity|].
  destruct (N.eqb (_id v) i); [discriminate|]. intros H. now rewrite IH.
Qed.

Lemma remove_id_spec (i : N) (u : User) (db : collection) :
  List.NoDup (List.map _id db) ->
  find_id i db = Some u ->
  find_id i (remove_id i db) = None /\
  (forall v, In v (remove_id i db) <-> In v db /\ v <> u) /\
  S (length (remove_id i db)) = length db.
Proof.
  induction db as [|x db IH]; simpl; [discriminate|].
  intros Hnd Hf. inversion Hnd as [|? ? Hnin Hnd']; subst.
  destruct (N.eqb_spec (_id x) i) as [E|E].
  - inversion Hf; subst x. clear Hf.
    assert (Hnone : forall v, In v db -> _id v <> i).
    { intros v Hv Hi. apply Hnin. rewrite E, <- Hi. now apply in_map. }
    split; [|split].
    + clear -Hnone. induction db as [|y db IH]; simpl; [reflexivity|].
      destruct (N.eqb_spec (_id y) i) as [Ey|Ey].
      * exfalso. apply (Hnone y); simpl; auto.
      * apply IH. intros v Hv. apply Hnone. simpl; auto.
    + intros v. split.
      * intros Hv. split; [now right|]. intros Hvu. subst v. now apply (Hnone u).
      * intros [[Hx|Hv] Hne]; [congruence|assumption].
    + reflexivity.
  - destruct (IH Hnd' Hf) as (Hnone & Hin & Hlen).
    simpl. destruct (N.eqb_spec (_id x) i); [contradiction|].
    split; [assumption|split].
    + intros v. split.
      * intros [Hx|Hv].
        -- subst v. split; [now left|]. intros Hxu. subst x.
           apply find_id_In in Hf as [_ Hi]. contradiction.
        -- apply Hin in Hv as [? ?]. split; [now right|assumption].
      * intros [[Hx|Hv] Hne]; [now left|]. right. apply Hin. auto.
    + now rewrite Hlen.
Qed.

Lemma ceil_div_bounds (total limit : Z) :
  1 <= limit ->
  (ceil_div total limit - 1) * limit < total <= ceil_div total limit * limit.
Proof.
  intros H. unfold ceil_div.
  pose proof (Z.div_mod (- total) limit ltac:(lia)).
  pose proof (Z.mod_pos_bound (- total) limit ltac:(lia)). nia.
Qed.

Lemma firstn_add {A : Type} (n m : nat) (l : list A) :
  firstn (n + m) l = (firstn n l ++ firstn m (skipn n l))%list.
Proof.
  revert l. induction n as [|n IH]; intros l; [reflexivity|].
  destruct l as [|x l]; simpl.
  - now rewrite firstn_nil.
  - now rewrite IH.
Qed.

Lemma chunks_cover {A : Type} (size : nat) (l : list A) (count : nat) :
  flat_map (fun k => firstn size (skipn ((k - 1) * size) l)) (seq 1 count)
  = firstn (count * size) l.
Proof.
  induction count as [|c IH]; [reflexivity|].
  rewrite seq_S, flat_map_app, IH. cbn [flat_map].
  rewrite List.app_nil_r.
  replace (1 + c - 1)%nat with c by lia.
  replace (S c * size)%nat with (c * size + size)%nat by lia.
  now rewrite firstn_add.
Qed.

Section Behaviour.

Variable isEmail : string -> bool.
Variable isDate : string -> bool.
Variable parseDate : string -> option Z.
Variable regex_i : string -> option (string -> bool).
Variable axios_get : option string -> axios_outcome.
Variable worded : Model.error -> string.
Variable env_ADMIN_USER env_ADMIN_PASS : option string.

Local Abbreviation app :=
  (App.app isEmail isDate parseDate regex_i axios_get worded
           env_ADMIN_USER env_ADMIN_PASS).
Local Abbreviation handle :=
  (App.handle isEmail isDate parseDate regex_i axios_get worded
              env_ADMIN_USER env_ADMIN_PASS).
Local Abbreviation validationErrors := (App.validationErrors isEmail isDate).
Local Abbreviation new_user := (App.new_user parseDate).

Local Ltac split_matches H :=
  repeat match type of H with
         | context [match ?x with _ => _ end] =>
             let E := fresh "E" in destruct x eqn:E
         | context [if ?x then _ else _] =>
             let E := fresh "E" in destruct x eqn:E
         end.

Local Ltac settle :=
  cbn [users hits outbound with_users with_call with_hits fst snd] in *;
  split; [reflexivity|];
  first
    [ exists Run.K_none; split; [constructor|exact I]
    | exists Run.K_save; split; [econstructor; eassumption|cbn; auto]
    | exists (Run.K_update false); split;
      [econstructor; eassumption|cbn; eauto 6]
    | exists (Run.K_update true); split;
      [econstructor; eassumption|cbn; eauto 6]
    | exists Run.K_delete; split; [econstructor; eassumption|cbn; eauto 6]
    | exists Run.K_clear; split; [constructor|cbn; auto] ].

(** Every handler leaves the limiter's table alone and makes at most one
    write to the collection, of a kind its route and session allow. *)
Lemma handle_writes (rt : route) (w w' : World) (s s' : Session) (r : Request)
      (resp : response) :
  handle rt w s r = (resp, s', w') ->
  hits w' = hits w /\
  exists k, Run.write (now r) (users w) k (users w') /\
            Run.allowed rt (isAdmin s) k.
Proof.
  intros H.
  destruct rt; cbn [App.handle] in H;
    unfold ensureAdmin, keep, get_validate_email, api_list, api_get, api_create,
      api_update, api_delete, api_delete_all, post_submit, get_users,
      get_delete_all, get_export, get_edit, post_update, get_delete,
      get_dashboard, call_gateway in H;
    destruct (isAdmin s) eqn:Hadmin;
    split_matches H;
    cbn [fst snd] in H; inversion H; subst; clear H;
    cbn [users with_call] in *;
    repeat match goal with
           | E : findByIdAndUpdate _ _ _ _ _ = Ok (?o, _) |- _ =>
               is_var o; destruct o
           | E : findByIdAndUpdate _ _ _ _ _ = Ok (None, _) |- _ =>
               apply findByIdAndUpdate_missing in E; subst
           end;
    settle.
Qed.

(** A request goes to the handler of its route, or matches no route and
    leaves the collection and the call log alone. *)
Lemma app_cases (w w' : World) (s s' : Session) (r : Request) (resp : response) :
  app w s r = (resp, s', w') ->
  (exists rt, route_of (meth r) (path r) = Some rt /\
              handle rt w s r = (resp, s', w')) \/
  (route_of (meth r) (path r) = None /\
   users w' = users w /\ outbound w' = outbound w /\
   ((resp = NotFound /\ s' = init_attempts s) \/
    (resp = TooManyRequests /\ s' = s))).
Proof.
  intros H.
  destruct (route_of (meth r) (path r)) as [rt|] eqn:Hroute.
  - left. exists rt. split; [reflexivity|].
    now rewrite <- (app_routes isEmail isDate parseDate regex_i axios_get worded
                      env_ADMIN_USER env_ADMIN_PASS w s r rt Hroute).
  - right. split; [reflexivity|]. unfold App.app in H. rewrite Hroute in H.
    destruct (mount_matches limiter_mount (path r)).
    + destruct (Limiter.apiLimiter _ _ _) as [[|] tb]; inversion H; subst; cbn; auto.
    + inversion H; subst; auto.
Qed.

Lemma app_writes (w w' : World) (s s' : Session) (r : Request) (resp : response) :
  app w s r = (resp, s', w') ->
  exists k, Run.write (now r) (users w) k (users w') /\
            match route_of (meth r) (path r) with
            | Some rt => Run.allowed rt (isAdmin s) k
            | None => k = Run.K_none
            end.
Proof.
  intros H. destruct (app_cases _ _ _ _ _ _ H) as [(rt & Hrt & Hh)|(Hrt & Hu & _)].
  - rewrite Hrt. now destruct (handle_writes _ _ _ _ _ _ _ Hh) as [_ ?].
  - rewrite Hrt, Hu. exists Run.K_none. split; [constructor|reflexivity].
Qed.

(** X1: whatever the request, a collection in which no two documents
    share an identifier or an address is left in that state. *)
Theorem requests_keep_documents_unique (w w' : World) (s s' : Session)
        (r : Request) (resp : response) :
  Run.unique (users w) ->
  app w s r = (resp, s', w') ->
  Run.unique (users w').
Proof.
  intros Hu H. destruct (app_writes _ _ _ _ _ _ H) as (k & Hw & _).
  eapply unique_write; eauto.
Qed.

(** X2: every route except [PUT /api/users/:id] keeps the stored documents
    within the lengths and patterns of the schema (that route updates
    without running the schema's validators), for a request whose body is
    written in ASCII characters. *)
Theorem requests_keep_documents_conforming (w w' : World) (s s' : Session)
        (r : Request) (resp : response) :
  Forall Run.conforms (users w) ->
  plain_body (body r) = true ->
  (forall id, route_of (meth r) (path r) <> Some (R_api_update id)) ->
  app w s r = (resp, s', w') ->
  Forall Run.conforms (users w').
Proof.
  intros Hall _ Hroute H. destruct (app_writes _ _ _ _ _ _ H) as (k & Hw & Hk).
  eapply conforms_write; eauto.
  intros ->. destruct (route_of (meth r) (path r)) as [rt|]; [|discriminate].
  cbn in Hk. destruct Hk as (_ & id & [[-> _]|[_ ?]]); [|discriminate].
  now apply (Hroute id).
Qed.

(** X3: a session that is not an admin session cannot touch a stored
    document: its request leaves the collection as it is, or is a
    submission that appends one document. *)
Theorem visitors_only_append (w w' : World) (s s' : Session) (r : Request)
        (resp : response) :
  isAdmin s = false ->
  app w s r = (resp, s', w') ->
  users w' = users w \/
  (route_of (meth r) (path r) = Some R_submit /\
   exists u, users w' = (users w ++ [u])%list).
Proof.
  intros Hs H. destruct (app_writes _ _ _ _ _ _ H) as (k & Hw & Hk).
  rewrite Hs in Hk.
  destruct (route_of (meth r) (path r)) as [rt|]; [|subst k; inversion Hw; auto].
  destruct Hw as [|p u db' S|rv id p u' db' U|id o db' D|]; cbn in Hk.
  - now left.
  - destruct Hk as [->|[_ ?]]; [|discriminate].
    right. split; [reflexivity|]. exists u.
    now apply save_inv in S as (-> & _).
  - destruct Hk; discriminate.
  - destruct Hk; discriminate.
  - destruct Hk; discriminate.
Qed.

(** ** The session *)

Local Abbreviation serve_all :=
  (Run.serve_all isEmail isDate parseDate regex_i axios_get worded
                 env_ADMIN_USER env_ADMIN_PASS).
Local Abbreviation post_admin := (App.post_admin env_ADMIN_USER env_ADMIN_PASS).

Local Abbreviation right_credentials :=
  (Run.right_credentials env_ADMIN_USER env_ADMIN_PASS).

Lemma same_spec (v : option string) (text : string) :
  same v text = true <-> v = Some text.
Proof.
  unfold same. destruct v as [x|]; [|split; discriminate].
  rewrite String.eqb_eq. split; congruence.
Qed.

Lemma credentials_spec (r : Request) :
  same (b_username (body r)) (ADMIN_USER env_ADMIN_USER) &&
  same (b_password (body r)) (ADMIN_PASSWORD env_ADMIN_PASS) = true
  <-> right_credentials r.
Proof.
  unfold Run.right_credentials. now rewrite andb_true_iff, !same_spec.
Qed.

Lemma failed_attempts_init (s : Session) :
  failed_attempts (init_attempts s) = failed_attempts s /\
  isAdmin (init_attempts s) = isAdmin s /\
  attempts (init_attempts s) = Some (failed_attempts s).
Proof.
  unfold failed_attempts, init_attempts.
  destruct (attempts s) as [n|] eqn:E; simpl; rewrite ?E; simpl; auto.
Qed.

(** The three outcomes of the login handler. *)
Lemma post_admin_cases (s : Session) (r : Request) :
  let n := failed_attempts s in
  post_admin (init_attempts s) r =
    if 3 <=? n then (Render 200 (V_admin (Some lockout_message)), init_attempts s)
    else if same (b_username (body r)) (ADMIN_USER env_ADMIN_USER) &&
            same (b_password (body r)) (ADMIN_PASSWORD env_ADMIN_PASS)
    then (Redirect "/dashboard", {| isAdmin := true; attempts := Some 0 |})
    else (Render 200 (V_admin (Some (invalid_message (n + 1)))),
          {| isAdmin := isAdmin s; attempts := Some (n + 1) |}).
Proof.
  destruct (failed_attempts_init s) as (_ & Ha & Hn).
  unfold App.post_admin. rewrite Hn, Ha. reflexivity.
Qed.

(** What a handler does to the session. *)
Lemma handle_session (rt : route) (w w' : World) (s s' : Session) (r : Request)
      (resp : response) :
  handle rt w s r = (resp, s', w') ->
  match rt with
  | R_admin => s' = init_attempts s
  | R_login => (resp, s') = post_admin (init_attempts s) r /\ w' = w
  | R_logout => s' = fresh_session
  | _ => s' = s
  end.
Proof.
  intros H. destruct rt; cbn [App.handle] in H; unfold keep in H;
    try (inversion H; reflexivity).
  destruct (App.post_admin _ _ _ _) as [resp0 s0]. now inversion H.
Qed.

(** X4: the only request that turns a session into an admin session is a
    login with the configured credentials on a session with fewer than
    three failures; it is answered with a redirect to the dashboard. *)
Theorem admin_only_through_login (w w' : World) (s s' : Session) (r : Request)
        (resp : response) :
  isAdmin s = false ->
  app w s r = (resp, s', w') ->
  isAdmin s' = true ->
  route_of (meth r) (path r) = Some R_login /\
  right_credentials r /\
  failed_attempts s < 3 /\
  resp = Redirect "/dashboard".
Proof.
  intros Hs H Hs'.
  destruct (app_cases _ _ _ _ _ _ H) as [(rt & Hrt & Hh)|(_ & _ & _ & [[_ ->]|[_ ->]])].
  - pose proof (handle_session _ _ _ _ _ _ _ Hh) as Hses.
    destruct (failed_attempts_init s) as (_ & Ha & _).
    destruct rt; cbv iota in Hses;
      try (subst s'; cbn [isAdmin fresh_session] in Hs'; congruence).
    destruct Hses as [Hp _]. rewrite post_admin_cases in Hp. cbv zeta in Hp.
    destruct (Z.leb_spec 3 (failed_attempts s)).
    + inversion Hp; subst. congruence.
    + destruct (same _ _ && same _ _) eqn:C; inversion Hp; subst.
      * apply credentials_spec in C. auto.
      * cbn in Hs'. congruence.
  - destruct (failed_attempts_init s) as (_ & Ha & _). congruence.
  - congruence.
Qed.

(** X5: no request but a logout lifts a lockout: whatever a session with
    three failures or more requests, except a logout, its counter and its
    admin flag stay as they are, and a login is answered with the lockout
    message whatever its credentials. *)
Theorem lockout_stays (w w' : World) (s s' : Session) (r : Request)
        (resp : response) :
  3 <= failed_attempts s ->
  route_of (meth r) (path r) <> Some R_logout ->
  app w s r = (resp, s', w') ->
  failed_attempts s' = failed_attempts s /\ isAdmin s' = isAdmin s /\
  (route_of (meth r) (path r) = Some R_login ->
   resp = Render 200 (V_admin (Some lockout_message))).
Proof.
  intros Hn Hroute H.
  destruct (failed_attempts_init s) as (Hf & Ha & _).
  destruct
    (app_cases _ _ _ _ _ _ H) as [(rt & Hrt & Hh)|(Hnone & _ & _ & [[_ ->]|[_ ->]])].
  - pose proof (handle_session _ _ _ _ _ _ _ Hh) as Hses. rewrite Hrt.
    destruct rt; cbv iota in Hses;
      try (subst s'; repeat split; auto; discriminate).
    + destruct Hses as [Hp _]. rewrite post_admin_cases in Hp. cbv zeta in Hp.
      destruct (Z.leb_spec 3 (failed_attempts s)); [|lia].
      inversion Hp; subst. auto.
    + congruence.
  - rewrite Hnone. repeat split; auto; discriminate.
  - rewrite Hnone. repeat split; auto; discriminate.
Qed.

(** One login request, through the whole application. *)
Lemma login_step (w : World) (s : Session) (r : Request) :
  route_of (meth r) (path r) = Some R_login ->
  app w s r = (fst (post_admin (init_attempts s) r),
               snd (post_admin (init_attempts s) r), w).
Proof.
  intros Hroute.
  rewrite (app_routes isEmail isDate parseDate regex_i axios_get worded
             env_ADMIN_USER env_ADMIN_PASS w s r R_login Hroute).
  cbn [App.handle]. now destruct (App.post_admin _ _ _ _).
Qed.

Lemma login_fails (w : World) (s : Session) (r : Request) :
  route_of (meth r) (path r) = Some R_login ->
  failed_attempts s < 3 ->
  ~ right_credentials r ->
  app w s r =
    (Render 200 (V_admin (Some (invalid_message (failed_attempts s + 1)))),
     {| isAdmin := isAdmin s; attempts := Some (failed_attempts s + 1) |}, w).
Proof.
  intros Hroute Hn Hc. rewrite login_step by assumption.
  rewrite post_admin_cases. cbv zeta.
  destruct (Z.leb_spec 3 (failed_attempts s)); [lia|].
  destruct (same _ _ && same _ _) eqn:C; [|reflexivity].
  apply credentials_spec in C. contradiction.
Qed.

(** X6: three failed logins in a row on a session without failures lock
    it: the remaining attempts shown are 2, 1 and 0, and a fourth login is
    answered with the lockout message whatever its credentials; the
    session has not become an admin session. *)
Theorem three_failures_lock (w : World) (s : Session) (r1 r2 r3 r4 : Request) :
  failed_attempts s = 0 ->
  Forall (fun r => route_of (meth r) (path r) = Some R_login) [r1; r2; r3; r4] ->
  Forall (fun r => ~ right_credentials r) [r1; r2; r3] ->
  serve_all [r1; r2; r3; r4] w s =
    ([Render 200 (V_admin (Some (invalid_message 1)));
      Render 200 (V_admin (Some (invalid_message 2)));
      Render 200 (V_admin (Some (invalid_message 3)));
      Render 200 (V_admin (Some lockout_message))],
     {| isAdmin := isAdmin s; attempts := Some 3 |}, w).
Proof.
  intros Hn Hroutes Hbad.
  inversion Hroutes as [|? ? L1 Hr]; subst. inversion Hr as [|? ? L2 Hr']; subst.
  inversion Hr' as [|? ? L3 Hr'']; subst. inversion Hr'' as [|? ? L4 _]; subst.
  inversion Hbad as [|? ? B1 Hb]; subst. inversion Hb as [|? ? B2 Hb']; subst.
  inversion Hb' as [|? ? B3 _]; subst.
  cbn [Run.serve_all].
  rewrite (login_fails w s r1 L1 ltac:(lia) B1), Hn.
  rewrite (login_fails w {| isAdmin := isAdmin s; attempts := Some (0 + 1) |}
             r2 L2 ltac:(cbn; lia) B2).
  cbn [failed_attempts attempts isAdmin default from_option id].
  rewrite (login_fails w {| isAdmin := isAdmin s; attempts := Some (0 + 1 + 1) |}
             r3 L3 ltac:(cbn; lia) B3).
  cbn [failed_attempts attempts isAdmin default from_option id].
  rewrite login_step by assumption. rewrite post_admin_cases.
  reflexivity.
Qed.

(** X7: a logout gives the client a session without failures, so that a
    login with the configured credentials right after it succeeds even when
    the session was locked out. *)
Theorem logout_lifts_lockout (w : World) (s : Session) (r1 r2 : Request) :
  route_of (meth r1) (path r1) = Some R_logout ->
  route_of (meth r2) (path r2) = Some R_login ->
  right_credentials r2 ->
  serve_all [r1; r2] w s =
    ([Redirect "/admin"; Redirect "/dashboard"],
     {| isAdmin := true; attempts := Some 0 |}, w).
Proof.
  intros Hout Hin Hc. cbn [Run.serve_all].
  rewrite (app_routes isEmail isDate parseDate regex_i axios_get worded
             env_ADMIN_USER env_ADMIN_PASS w s r1 R_logout Hout).
  cbn [App.handle].
  rewrite login_step by assumption. rewrite post_admin_cases. cbn.
  apply credentials_spec in Hc. rewrite Hc. reflexivity.
Qed.

(** ** Submissions *)

(** One entry per field that fails its check. *)
Lemma validationErrors_spec (b : Body) (param msg : string) :
  In (param, msg) (validationErrors false b) <->
  (param = "name" /\ msg = "Name is required" /\
   JS.trim (Model.text (b_name b)) = EmptyString) \/
  (param = "email" /\ msg = "Invalid email address" /\
   isEmail (Model.text (b_email b)) = false) \/
  (param = "dob" /\ msg = "Invalid date of birth" /\
   isDate (Model.text (b_dob b)) = false) \/
  (param = "contact" /\ msg = "Contact must be a valid 10-digit number" /\
   contact_regex (Model.text (b_contact b)) = false) \/
  (param = "state" /\ msg = "State is required" /\
   JS.trim (Model.text (b_state b)) = EmptyString) \/
  (param = "country" /\ msg = "Country is required" /\
   JS.trim (Model.text (b_country b)) = EmptyString).
Proof.
  assert (Hchain : forall v test p m,
             In (param, msg) (chain false v test p m) <->
             (param = p /\ msg = m /\ test (Model.text v) = false)).
  { intros v test p m. unfold chain, check.
    assert (Hx : forall x, In (param, msg) (if test x then [] else [(p, m)]) <->
                           (param = p /\ msg = m /\ test x = false)).
    { intros x. destruct (test x); cbn [In]; split.
      - tauto.
      - intros (_ & _ & H). discriminate.
      - intros [H|[]]. inversion H. auto.
      - intros (-> & -> & _). auto. }
    destruct v; cbn [Model.text]; apply Hx. }
  assert (Hempty : forall v, nonEmpty (Model.text (sanitize false v)) = false <->
                             JS.trim (Model.text v) = EmptyString).
  { intros [x|]; cbn [sanitize Model.text]; unfold nonEmpty.
    - destruct (JS.trim x); split; congruence.
    - split; reflexivity. }
  unfold App.validationErrors. rewrite !in_app_iff, !Hchain, !Hempty. tauto.
Qed.

(** X9: a submission, written in ASCII characters, that fails a field
    check is answered with the form and the messages of all the failing
    fields, joined in the order of the fields, one per failing field;
    nothing is stored, the gateway is not called and the session is left
    alone. *)
Theorem invalid_submission_rejected (w : World) (s : Session) (r : Request) :
  route_of (meth r) (path r) = Some R_submit ->
  plain_body (body r) = true ->
  validationErrors false (body r) <> [] ->
  app w s r =
    (Render 200
       (V_index (Some (JS.join ", " (List.map snd (validationErrors false (body r)))))
                None None), s, w) /\
  (forall msg,
     In msg (List.map snd (validationErrors false (body r))) <->
     (msg = "Name is required" /\
      JS.trim (Model.text (b_name (body r))) = EmptyString) \/
     (msg = "Invalid email address" /\
      isEmail (Model.text (b_email (body r))) = false) \/
     (msg = "Invalid date of birth" /\
      isDate (Model.text (b_dob (body r))) = false) \/
     (msg = "Contact must be a valid 10-digit number" /\
      contact_regex (Model.text (b_contact (body r))) = false) \/
     (msg = "State is required" /\
      JS.trim (Model.text (b_state (body r))) = EmptyString) \/
     (msg = "Country is required" /\
      JS.trim (Model.text (b_country (body r))) = EmptyString)).
Proof.
  intros Hroute _ Herr. split.
  - rewrite (app_routes isEmail isDate parseDate regex_i axios_get worded
               env_ADMIN_USER env_ADMIN_PASS w s r R_submit Hroute).
    cbn [App.handle]. unfold post_submit, keep.
    destruct (validationErrors false (body r)); [congruence|reflexivity].
  - intros msg. rewrite in_map_iff. split.
    + intros ([param m] & Hm & Hin). cbn in Hm. subst m.
      apply validationErrors_spec in Hin. tauto.
    + intros H.
      assert (exists param, In (param, msg) (validationErrors false (body r)))
        as [param Hin].
      { destruct H as [H|[H|[H|[H|[H|H]]]]];
          [exists "name"|exists "email"|exists "dob"|exists "contact"
          |exists "state"|exists "country"];
          apply validationErrors_spec; tauto. }
      exists (param, msg). auto.
Qed.

(** X10: a submission, written in ASCII characters, that passes the field
    checks and the validators of the schema and that the gateway does not
    block, for an address that is already stored once trimmed and put in
    lower case, is answered with "Server error: Email already exists"; the
    collection is left as it is. *)
Theorem duplicate_address_refused (w : World) (s : Session) (r : Request) :
  route_of (meth r) (path r) = Some R_submit ->
  plain_body (body r) = true ->
  validationErrors false (body r) = [] ->
  (forall v, validateEmail (axios_get (b_email (body r))) = Returned v ->
             isValid v = true) ->
  validate (now r) (new_user (sanitized false (body r)) None) = [] ->
  In (JS.toLowerCase (JS.trim (Model.text (b_email (body r)))))
     (List.map email (users w)) ->
  app w s r =
    (Render 200 (V_index (Some "Server error: Email already exists") None None),
     s, with_call w (b_email (body r))).
Proof.
  intros Hroute _ Hv Hgate Hschema Hdup.
  rewrite (app_routes isEmail isDate parseDate regex_i axios_get worded
             env_ADMIN_USER env_ADMIN_PASS w s r R_submit Hroute).
  cbn [App.handle]. unfold post_submit, call_gateway, keep. rewrite Hv.
  cbn [b_email sanitized].
  assert (Hsave : forall st,
             save (now r) (users w) (new_user (sanitized false (body r)) st)
             = Throw EmailExists).
  { intros st. unfold save.
    change (validate (now r) (new_user (sanitized false (body r)) st))
      with (validate (now r) (new_user (sanitized false (body r)) None)).
    rewrite Hschema.
    destruct (p_dob (new_user (sanitized false (body r)) st)) eqn:D.
    - exfalso. unfold validate in Hschema.
      change (p_dob (new_user (sanitized false (body r)) None))
        with (p_dob (new_user (sanitized false (body r)) st)) in Hschema.
      rewrite D in Hschema.
      repeat (apply app_eq_nil in Hschema as [? Hschema]);
        match goal with H : validate_dob _ _ = [] |- _ => discriminate H end.
    - exfalso. unfold validate in Hschema.
      change (p_dob (new_user (sanitized false (body r)) None))
        with (p_dob (new_user (sanitized false (body r)) st)) in Hschema.
      rewrite D in Hschema. discriminate Hschema.
    - assert (email_taken (users w)
                (Model.text (p_email (new_user (sanitized false (body r)) st)))
              = true) as ->; [|reflexivity].
      cbn [App.new_user p_email sanitized b_email].
      apply validate_parts in Hschema as (_ & He & _).
      cbn [App.new_user p_email sanitized b_email] in He.
      destruct (b_email (body r)) as [x|]; [|discriminate He].
      cbn [set_email Model.text] in *.
      unfold email_taken. apply existsb_exists.
      apply in_map_iff in Hdup as (u & Hu & Hin).
      exists u. split; [assumption|]. now apply String.eqb_eq. }
  destruct (validateEmail (axios_get (b_email (body r)))) as [v|msg] eqn:G.
  - rewrite (Hgate v eq_refl). cbn [users with_call]. rewrite Hsave. reflexivity.
  - cbn [users with_call]. rewrite Hsave. reflexivity.
Qed.

(** X11: what a successful submission, written in ASCII characters,
    stores: one new document, with the name, state and country trimmed,
    the address trimmed and in lower case, the contact as sent, the date
    the text of [dob] parses to, the clock as [createdAt] and the gateway's
    outcome as [validationStatus]; the address was not stored before and
    the document is within the lengths and patterns of the schema. *)
Theorem submission_stored (w w' : World) (s s' : Session) (r : Request)
        (validationMessage : option string) :
  route_of (meth r) (path r) = Some R_submit ->
  plain_body (body r) = true ->
  app w s r =
    (Render 200 (V_index None (Some "Form submitted successfully!")
                         validationMessage), s', w') ->
  exists u,
    users w' = (users w ++ [u])%list /\
    name u = JS.trim (Model.text (b_name (body r))) /\
    email u = JS.toLowerCase (JS.trim (Model.text (b_email (body r)))) /\
    contact u = Model.text (b_contact (body r)) /\
    state u = JS.trim (Model.text (b_state (body r))) /\
    country u = JS.trim (Model.text (b_country (body r))) /\
    parseDate (Model.text (b_dob (body r))) = Some (dob u) /\
    createdAt u = now r /\
    validationStatus u = validationMessage /\
    (validationMessage = Some "Email validated" \/
     validationMessage = Some "Validation unavailable") /\
    ~ In (email u) (List.map email (users w)) /\
    Run.conforms u.
Proof.
  intros Hroute _ H.
  rewrite (app_routes isEmail isDate parseDate regex_i axios_get worded
             env_ADMIN_USER env_ADMIN_PASS w s r R_submit Hroute) in H.
  cbn [App.handle] in H. unfold post_submit, call_gateway, keep in H.
  destruct (validationErrors false (body r)) eqn:Hv; [|discriminate H].
  assert (Core : forall st u db',
             save (now r) (users w) (new_user (sanitized false (body r)) (Some st))
             = Ok (u, db') ->
             db' = (users w ++ [u])%list /\
             name u = JS.trim (Model.text (b_name (body r))) /\
             email u = JS.toLowerCase (JS.trim (Model.text (b_email (body r)))) /\
             contact u = Model.text (b_contact (body r)) /\
             state u = JS.trim (Model.text (b_state (body r))) /\
             country u = JS.trim (Model.text (b_country (body r))) /\
             parseDate (Model.text (b_dob (body r))) = Some (dob u) /\
             createdAt u = now r /\
             validationStatus u = st /\
             ~ In (email u) (List.map email (users w)) /\
             Run.conforms u).
  { intros st u db' S. pose proof (conforms_save _ _ _ _ _ S) as Hc.
    apply save_inv in S
      as (-> & V & _ & Ht & Hn & He & Hk & Hst & Hco & Hd & Hcr & Hvs).
    apply validate_parts in V as (_ & Ve & _ & Vs & Vc).
    cbn [App.new_user sanitized p_name p_email p_dob p_contact p_state
         p_country p_validationStatus b_name b_email b_dob b_contact b_state
         b_country] in *.
    repeat split; auto.
    - rewrite Hn. destruct (b_name (body r)) as [x|]; cbn; [|reflexivity].
      apply trim_idempotent.
    - rewrite He. destruct (b_email (body r)) as [x|]; [reflexivity|].
      discriminate Ve.
    - rewrite Hst. destruct (b_state (body r)) as [x|]; cbn; [|reflexivity].
      apply trim_idempotent.
    - rewrite Hco. destruct (b_country (body r)) as [x|]; cbn; [|reflexivity].
      apply trim_idempotent.
    - unfold cast_date_text in Hd.
      destruct (b_dob (body r)) as [[|c x]|]; try discriminate Hd.
      cbn [Model.text]. destruct (parseDate (String c x)); inversion Hd; auto.
    - now apply email_taken_In. }
  cbn [b_email sanitized] in H.
  destruct (validateEmail (axios_get (b_email (body r)))) as [v|msg] eqn:G.
  - destruct (isValid v) eqn:Valid; [|discriminate H].
    destruct (save _ _ _) as [[u db']|err] eqn:S; cbn [fst snd] in H;
      [|discriminate H].
    inversion H; subst. cbn [users with_users with_call] in *.
    destruct (Core _ _ _ S) as (-> & ? & ? & ? & ? & ? & ? & ? & ? & ? & ?).
    exists u. repeat split; auto.
    left. f_equal. eapply valid_verdict_message; eauto.
  - destruct (save _ _ _) as [[u db']|err] eqn:S; cbn [fst snd] in H;
      [|discriminate H].
    inversion H; subst. cbn [users with_users with_call] in *.
    destruct (Core _ _ _ S) as (-> & ? & ? & ? & ? & ? & ? & ? & ? & ? & ?).
    exists u. repeat split; auto.
Qed.

(** ** Calls to the deliverability service *)

Lemma handle_calls (rt : route) (w w' : World) (s s' : Session) (r : Request)
      (resp : response) :
  handle rt w s r = (resp, s', w') ->
  outbound w' = outbound w \/
  (rt = R_validate_email /\ JS.truthy (q_email (query r)) = true /\
   outbound w' = q_email (query r) :: outbound w) \/
  ((rt = R_submit \/ (isAdmin s = true /\ exists id, rt = R_update id)) /\
   validationErrors false (body r) = [] /\
   outbound w' = b_email (body r) :: outbound w).
Proof.
  intros H.
  destruct rt; cbn [App.handle] in H;
    unfold ensureAdmin, keep, get_validate_email, api_list, api_get, api_create,
      api_update, api_delete, api_delete_all, post_submit, get_users,
      get_delete_all, get_export, get_edit, post_update, get_delete,
      get_dashboard, call_gateway in H;
    destruct (isAdmin s) eqn:Hadmin;
    split_matches H;
    cbn [fst snd] in H; inversion H; subst; clear H;
    cbn [outbound with_users with_call sanitized b_email];
    try (left; reflexivity);
    try (right; left; repeat split; auto;
         match goal with
         | E : negb _ = false |- _ => now apply negb_false_iff in E
         end);
    right; right; repeat split; eauto.
Qed.

(** X12: a request makes at most one call to the deliverability service,
    and only three routes make one: the public check for the address of the
    query, and a submission or a form update that passed the field checks
    for the address of the body. *)
Theorem one_gateway_call_at_most (w w' : World) (s s' : Session) (r : Request)
        (resp : response) :
  app w s r = (resp, s', w') ->
  outbound w' = outbound w \/
  (route_of (meth r) (path r) = Some R_validate_email /\
   JS.truthy (q_email (query r)) = true /\
   outbound w' = q_email (query r) :: outbound w) \/
  ((route_of (meth r) (path r) = Some R_submit \/
    (isAdmin s = true /\ exists id, route_of (meth r) (path r) = Some (R_update id))) /\
   validationErrors false (body r) = [] /\
   outbound w' = b_email (body r) :: outbound w).
Proof.
  intros H.
  destruct (app_cases _ _ _ _ _ _ H) as [(rt & Hrt & Hh)|(_ & _ & Ho & _)];
    [|now left].
  rewrite Hrt.
  destruct (handle_calls _ _ _ _ _ _ _ Hh)
    as [?|[(-> & ? & ?)|([->|(? & id & ->)] & ? & ?)]]; eauto 10.
Qed.

(** X13: every check of an address on [/api/validate-email] reaches the
    deliverability service: [n] requests of one client make [n] calls,
    none is answered with a rejection of the limiter, and the limiter's
    table, the session and the collection stay as they were. *)
Theorem validation_requests_reach_service (n : nat) (w w' : World)
        (s s' : Session) (r : Request) (resps : list response) :
  meth r = GET ->
  path r = "/api/validate-email" ->
  JS.truthy (q_email (query r)) = true ->
  serve_all (List.repeat r n) w s = (resps, s', w') ->
  outbound w' = (List.repeat (q_email (query r)) n ++ outbound w)%list /\
  length resps = n /\
  Forall (fun resp => resp <> TooManyRequests) resps /\
  hits w' = hits w /\ s' = s /\ users w' = users w.
Proof.
  intros Hm Hp Hq.
  assert (Hstep : forall w0, exists resp,
             app w0 s r = (resp, s, with_call w0 (q_email (query r))) /\
             resp <> TooManyRequests).
  { intros w0.
    rewrite (app_routes isEmail isDate parseDate regex_i axios_get worded
               env_ADMIN_USER env_ADMIN_PASS w0 s r R_validate_email)
      by (rewrite Hm, Hp; reflexivity).
    cbn [App.handle]. unfold get_validate_email, call_gateway, keep. rewrite Hq.
    cbn [negb]. destruct (validateEmail _); eexists; (split; [reflexivity|discriminate]). }
  revert w w' resps. induction n as [|n IH]; intros w w' resps H.
  - cbn in H. inversion H; subst. repeat split; auto.
  - cbn [List.repeat Run.serve_all] in H.
    destruct (Hstep w) as (resp & Hr & Hne). rewrite Hr in H.
    destruct (serve_all (List.repeat r n) _ s) as [[resps0 s0] w0] eqn:E.
    inversion H; subst.
    destruct (IH _ _ _ E) as (Ho & Hl & Hf & Hh & Hs & Hu).
    cbn [outbound hits users with_call] in *.
    repeat split; auto.
    + rewrite Ho. clear. induction n as [|n IHn]; [reflexivity|].
      cbn [List.repeat List.app]. rewrite IHn. reflexivity.
    + cbn. now rewrite Hl.
Qed.

(** ** Removing documents *)

(** X14: deleting by identifier, by either delete route, in a collection
    whose identifiers are distinct.  When a document has the identifier it
    is the one document removed and a later lookup finds nothing; when none
    has it, or the identifier is malformed, the collection is left as it
    is.  The JSON route answers 204, 404 "User not found" and 500 "Error
    deleting user" in these three cases; the rendered route always
    redirects to the list. *)
Theorem delete_by_id (w w' : World) (s s' : Session) (r : Request) (id : string)
        (rt : route) (resp : response) :
  isAdmin s = true ->
  List.NoDup (List.map _id (users w)) ->
  route_of (meth r) (path r) = Some rt ->
  rt = R_api_delete id \/ rt = R_delete id ->
  app w s r = (resp, s', w') ->
  (rt = R_delete id -> resp = Redirect "/users") /\
  match findById (users w) id with
  | Ok (Some u) =>
      (rt = R_api_delete id -> resp = Empty 204) /\
      findById (users w') id = Ok None /\
      (forall v, In v (users w') <-> In v (users w) /\ v <> u) /\
      S (length (users w')) = length (users w)
  | Ok None =>
      (rt = R_api_delete id -> resp = Json 404 (J_error "User not found")) /\
      users w' = users w
  | Throw _ =>
      (rt = R_api_delete id -> resp = Json 500 (J_error "Error deleting user")) /\
      users w' = users w
  end.
Proof.
  intros Hs Hnd Hroute Hrt H.
  rewrite (app_routes isEmail isDate parseDate regex_i axios_get worded
             env_ADMIN_USER env_ADMIN_PASS w s r rt Hroute) in H.
  assert (Hrun : (rt = R_delete id -> resp = Redirect "/users") /\
                 match findByIdAndDelete (users w) id with
                 | Ok (Some _, db') =>
                     (rt = R_api_delete id -> resp = Empty 204) /\ users w' = db'
                 | Ok (None, _) =>
                     (rt = R_api_delete id ->
                      resp = Json 404 (J_error "User not found")) /\
                     (rt = R_api_delete id -> users w' = users w) /\
                     (rt = R_delete id ->
                      exists db', findByIdAndDelete (users w) id = Ok (None, db') /\
                                  users w' = db')
                 | Throw _ =>
                     (rt = R_api_delete id ->
                      resp = Json 500 (J_error "Error deleting user")) /\
                     users w' = users w
                 end).
  { destruct Hrt as [-> | ->]; cbn [App.handle] in H;
      unfold ensureAdmin, keep, api_delete, get_delete in H; rewrite Hs in H;
      destruct (findByIdAndDelete (users w) id) as [[[u|] db']|err] eqn:D;
      cbn [fst snd] in H; inversion H; subst; clear H; cbn [users with_users];
      repeat split; intros; try reflexivity; try discriminate; eauto. }
  destruct Hrun as [Hredirect Hrun]. split; [exact Hredirect|].
  unfold findByIdAndDelete, findById in *.
  destruct (castObjectId id) as [i|] eqn:Hi; [|exact Hrun].
  destruct (find_id i (users w)) as [u|] eqn:Hf.
  - destruct Hrun as [Hresp ->].
    destruct (remove_id_spec _ _ _ Hnd Hf) as (Hnone & Hin & Hlen).
    rewrite Hnone. auto.
  - destruct Hrun as (Hresp & Hapi & Hform). split; [exact Hresp|].
    destruct Hrt as [-> | ->]; [now apply Hapi|].
    destruct (Hform eq_refl) as (db' & Hd & ->). inversion Hd.
    now apply remove_id_missing.
Qed.

Local Abbreviation page_of r := (JS.parseInt_or (q_page (query r)) 1).
Local Abbreviation limit_of r := (JS.parseInt_or (q_limit (query r)) 50).

(** The methods of the two routes that empty the collection. *)
Lemma delete_all_methods (m : method) (path : string) :
  (route_of m path = Some R_api_delete_all -> m = DELETE) /\
  (route_of m path = Some R_delete_all -> m = GET).
Proof.
  split; intros H; unfold route_of, with_param in H; cbv zeta in H;
    destruct m; try reflexivity;
    repeat (match type of H with
            | context [undecodable ?a] => destruct (undecodable a)
            | context [param_after ?a ?b] => destruct (param_after a b)
            | context [JS.decodeURIComponent ?a] =>
                destruct (JS.decodeURIComponent a)
            | context [path_is ?a ?b] => destruct (path_is a b)
            | context [path_is_root ?a] => destruct (path_is_root a)
            end; cbv iota beta in H);
    discriminate H.
Qed.

(** X15: after a delete-all, by either route, both lists are empty: the
    JSON list answers with no users, a total of 0 and 0 pages, the rendered
    list with no users and 0 pages, for a page and a limit that are at
    least 1, written in ASCII characters, and whose product is an exact
    number of the language. *)
Theorem delete_all_then_list (w : World) (s : Session) (r1 r2 : Request)
        (rt1 : route) :
  isAdmin s = true ->
  route_of (meth r1) (path r1) = Some rt1 ->
  rt1 = R_api_delete_all \/ rt1 = R_delete_all ->
  plain_query (query r2) = true ->
  1 <= page_of r2 ->
  (route_of (meth r2) (path r2) = Some R_api_list ->
   q_search (query r2) = None ->
   1 <= limit_of r2 ->
   page_of r2 * limit_of r2 <= JS.max_exact ->
   serve_all [r1; r2] w s =
     ([if Run.meth_is_delete (meth r1) then Empty 204 else Redirect "/users";
       Json 200 (J_users [] (page_of r2) 0 0)], s, with_users w [])) /\
  (route_of (meth r2) (path r2) = Some R_users ->
   page_of r2 * 10 <= JS.max_exact ->
   serve_all [r1; r2] w s =
     ([if Run.meth_is_delete (meth r1) then Empty 204 else Redirect "/users";
       Render 200 (V_users [] (page_of r2) 0 None)], s, with_users w [])).
Proof.
  intros Hs Hroute Hrt _ Hpage.
  assert (Hfirst : app w s r1 =
            (if Run.meth_is_delete (meth r1) then Empty 204 else Redirect "/users",
             s, with_users w [])).
  { rewrite (app_routes isEmail isDate parseDate regex_i axios_get worded
               env_ADMIN_USER env_ADMIN_PASS w s r1 rt1 Hroute).
    destruct Hrt as [-> | ->];
      [rewrite (proj1 (delete_all_methods _ _) Hroute)
      |rewrite (proj2 (delete_all_methods _ _) Hroute)];
      cbn [App.handle Run.meth_is_delete];
      unfold ensureAdmin, keep, api_delete_all, get_delete_all; rewrite Hs;
      reflexivity. }
  split.
  - intros Hlist Hsearch Hlimit _. cbn [Run.serve_all]. rewrite Hfirst.
    assert (Hskip : 0 <= (page_of r2 - 1) * limit_of r2) by nia.
    rewrite (app_routes isEmail isDate parseDate regex_i axios_get worded
               env_ADMIN_USER env_ADMIN_PASS _ s r2 R_api_list Hlist).
    cbn [App.handle]. unfold ensureAdmin, keep, api_list. rewrite Hs, Hsearch.
    cbn [JS.truthy matching users with_users length Z.of_nat].
    unfold find_page. destruct (Z.ltb_spec ((page_of r2 - 1) * limit_of r2) 0); [lia|].
    rewrite skipn_nil, firstn_nil. unfold ceil_div. reflexivity.
  - intros Hlist _. cbn [Run.serve_all]. rewrite Hfirst.
    rewrite (app_routes isEmail isDate parseDate regex_i axios_get worded
               env_ADMIN_USER env_ADMIN_PASS _ s r2 R_users Hlist).
    cbn [App.handle]. unfold ensureAdmin, keep, get_users. rewrite Hs.
    cbn [users with_users length Z.of_nat].
    unfold find_page. destruct (Z.ltb_spec ((page_of r2 - 1) * 10) 0); [lia|].
    rewrite skipn_nil, firstn_nil. reflexivity.
Qed.

(** X16: with a limit of at least 1, the pages 1 to [totalPages] that the
    list query cuts out of the matching documents, one after the other, are
    these documents in their order, each one once; every page after the
    last one is empty. *)
Theorem pages_cover_collection (db : collection) (limit : Z) :
  1 <= limit ->
  flat_map (fun k => default [] (find_page db ((Z.of_nat k - 1) * limit) limit))
           (seq 1 (Z.to_nat (ceil_div (Z.of_nat (length db)) limit)))
  = db /\
  (forall page, ceil_div (Z.of_nat (length db)) limit < page ->
                find_page db ((page - 1) * limit) limit = Some []).
Proof.
  intros Hl.
  pose proof (ceil_div_bounds (Z.of_nat (length db)) limit Hl) as [Hlow Hhigh].
  assert (Hpos : 0 <= ceil_div (Z.of_nat (length db)) limit) by nia.
  split.
  - transitivity (firstn (Z.to_nat (ceil_div (Z.of_nat (length db)) limit)
                          * Z.to_nat limit) db); [|apply firstn_all2; nia].
    rewrite <- chunks_cover. rewrite !flat_map_concat_map. f_equal.
    apply map_ext_in. intros k Hk. apply in_seq in Hk.
    rewrite find_page_ok by lia. cbn [default from_option id].
    f_equal. f_equal. nia.
  - intros page Hpage. rewrite find_page_ok by lia.
    rewrite skipn_all2 by nia. now rewrite firstn_nil.
Qed.

(** X17: a page number below 1 makes the list query fail: the JSON list
    answers 500 with its error body, the rendered list renders the error
    with page 1 of 1; nothing is changed. *)
Theorem list_rejects_negative_page (w : World) (s : Session) (r : Request) :
  isAdmin s = true ->
  page_of r < 1 ->
  (route_of (meth r) (path r) = Some R_api_list ->
   1 <= limit_of r ->
   app w s r = (Json 500 (J_users_error "Error fetching users"), s, w)) /\
  (route_of (meth r) (path r) = Some R_users ->
   app w s r =
     (Render 200 (V_users [] 1 1 (Some "Error loading users. Please try again.")),
      s, w)).
Proof.
  intros Hs Hpage.
  assert (Hneq : page_of r <> 0).
  { unfold JS.parseInt_or. destruct (JS.parseInt _) as [[| |]|]; discriminate. }
  split; intros Hroute.
  - intros Hlimit.
    rewrite (app_routes isEmail isDate parseDate regex_i axios_get worded
               env_ADMIN_USER env_ADMIN_PASS w s r R_api_list Hroute).
    cbn [App.handle]. unfold ensureAdmin, keep, api_list. rewrite Hs.
    destruct (matching _ _ _); [|reflexivity].
    unfold find_page.
    destruct (Z.ltb_spec ((page_of r - 1) * limit_of r) 0); [reflexivity|nia].
  - rewrite (app_routes isEmail isDate parseDate regex_i axios_get worded
               env_ADMIN_USER env_ADMIN_PASS w s r R_users Hroute).
    cbn [App.handle]. unfold ensureAdmin, keep, get_users. rewrite Hs.
    unfold find_page.
    destruct (Z.ltb_spec ((page_of r - 1) * 10) 0); [reflexivity|lia].
Qed.

(** ** The user grid *)

(** X18: the grid asks for 50 users a page and counts its pages from the
    users of the response, so it finds one page whatever the collection
    holds and its page bar stays empty. *)
Theorem grid_never_paginates (w w' : World) (s s' : Session) (r : Request)
        (us : list User) (page totalPages total currentPage : Z)
        (searchQuery : string) :
  route_of (meth r) (path r) = Some R_api_list ->
  q_limit (query r) = Some "50" ->
  app w s r = (Json 200 (J_users us page totalPages total), s', w') ->
  Z.of_nat (length us) <= Client.limit /\
  Client.totalPages (Client.shown searchQuery us) = 1 /\
  Client.updatePagination currentPage
    (Client.totalPages (Client.shown searchQuery us)) = [].
Proof.
  intros Hroute Hlimit H.
  rewrite (app_routes isEmail isDate parseDate regex_i axios_get worded
             env_ADMIN_USER env_ADMIN_PASS w s r R_api_list Hroute) in H.
  cbn [App.handle] in H. unfold ensureAdmin, keep, api_list in H.
  rewrite Hlimit in H. change (JS.parseInt_or (Some "50") 50) with 50 in H.
  destruct (isAdmin s); [|discriminate H].
  destruct (matching _ _ _) as [found|]; [|discriminate H].
  unfold find_page in H.
  destruct ((page_of r - 1) * 50 <? 0); [discriminate H|].
  cbn [fst snd] in H. inversion H; subst. clear H.
  assert (Hlen : Z.of_nat (length (firstn (Z.to_nat (Z.abs 50))
                                    (skipn (Z.to_nat ((page_of r - 1) * 50)) found)))
                 <= 50).
  { pose proof (firstn_le_length (Z.to_nat (Z.abs 50))
                  (skipn (Z.to_nat ((page_of r - 1) * 50)) found)). lia. }
  split; [exact Hlen|].
  assert (Hone : Client.totalPages
                   (Client.shown searchQuery
                      (firstn (Z.to_nat (Z.abs 50))
                         (skipn (Z.to_nat ((page_of r - 1) * 50)) found))) = 1).
  { unfold Client.totalPages, Client.limit.
    set (shown := Client.shown _ _).
    assert (Hs : Z.of_nat (length shown) <= 50).
    { subst shown. unfold Client.shown. destruct searchQuery; [exact Hlen|].
      etransitivity; [|exact Hlen]. apply inj_le. apply filter_length_le. }
    pose proof (ceil_div_bounds (Z.of_nat (length shown)) 50 ltac:(lia)) as [Hlo Hhi].
    destruct (ceil_div (Z.of_nat (length shown)) 50) eqn:E; lia. }
  split; [exact Hone|]. rewrite Hone. reflexivity.
Qed.

End Behaviour.

(* ===================================================================== *)
(** * Further properties of the dashboard *)
(* ===================================================================== *)

Section Groups.

Context {K : Type} (eqb : K -> K -> bool).
Hypothesis eqb_spec : forall a b, eqb a b = true <-> a = b.

Lemma bump_sum (k : K) (groups : list (K * Z)) :
  Run.sum (List.map snd (Dashboard.bump eqb k groups))
  = Run.sum (List.map snd groups) + 1.
Proof.
  induction groups as [|[k' n] groups IH]; simpl; [reflexivity|].
  destruct (eqb k k'); simpl; lia.
Qed.

Lemma bump_keys (k : K) (groups : list (K * Z)) :
  List.map fst (Dashboard.bump eqb k groups)
  = if existsb (eqb k) (List.map fst groups)
    then List.map fst groups
    else (List.map fst groups ++ [k])%list.
Proof.
  induction groups as [|[k' n] groups IH]; simpl; [reflexivity|].
  destruct (eqb k k'); simpl; [reflexivity|].
  rewrite IH. now destruct (existsb (eqb k) (List.map fst groups)).
Qed.

Lemma bump_NoDup (k : K) (groups : list (K * Z)) :
  List.NoDup (List.map fst groups) ->
  List.NoDup (List.map fst (Dashboard.bump eqb k groups)).
Proof using eqb_spec.
  intros H. rewrite bump_keys.
  destruct (existsb (eqb k) (List.map fst groups)) eqn:E; [assumption|].
  apply List.NoDup_app; [assumption|repeat constructor; simpl; tauto|].
  intros a Ha [<-|[]].
  assert (existsb (eqb k) (List.map fst groups) = true); [|congruence].
  apply existsb_exists. exists k. split; [assumption|]. now apply eqb_spec.
Qed.

Lemma bump_positive (k : K) (groups : list (K * Z)) :
  Forall (fun g => 0 < snd g) groups ->
  Forall (fun g => 0 < snd g) (Dashboard.bump eqb k groups).
Proof.
  induction 1 as [|[k' n] groups Hn Hall IH]; simpl.
  - repeat constructor.
  - destruct (eqb k k'); constructor; simpl in *; auto; lia.
Qed.

Lemma bump_key_in (k x : K) (groups : list (K * Z)) :
  In x (List.map fst (Dashboard.bump eqb k groups)) ->
  x = k \/ In x (List.map fst groups).
Proof.
  rewrite bump_keys. destruct (existsb _ _); [tauto|].
  rewrite in_app_iff. simpl. intuition.
Qed.

Lemma group_count_spec (keys : list K) :
  Run.sum (List.map snd (Dashboard.group_count eqb keys)) = Z.of_nat (length keys) /\
  List.NoDup (List.map fst (Dashboard.group_count eqb keys)) /\
  Forall (fun g => 0 < snd g) (Dashboard.group_count eqb keys) /\
  (forall x, In x (List.map fst (Dashboard.group_count eqb keys)) -> In x keys).
Proof using eqb_spec.
  unfold Dashboard.group_count.
  assert (G : forall groups,
             List.NoDup (List.map fst groups) ->
             Forall (fun g => 0 < snd g) groups ->
             let out := fold_left (fun groups k => Dashboard.bump eqb k groups)
                                  keys groups in
             Run.sum (List.map snd out)
             = Run.sum (List.map snd groups) + Z.of_nat (length keys) /\
             List.NoDup (List.map fst out) /\
             Forall (fun g => 0 < snd g) out /\
             (forall x, In x (List.map fst out) ->
                        In x keys \/ In x (List.map fst groups))).
  { induction keys as [|k keys IH]; intros groups Hnd Hpos; cbn [fold_left].
    - cbv zeta. cbn [length Z.of_nat]. repeat split; auto. lia.
    - destruct (IH (Dashboard.bump eqb k groups) (bump_NoDup k groups Hnd)
                   (bump_positive k groups Hpos)) as (Hs & Hn & Hp & Hin).
      cbv zeta in *. repeat split; auto.
      + rewrite Hs, bump_sum. cbn [length]. lia.
      + intros x Hx. destruct (Hin x Hx) as [H|H]; [left; now right|].
        apply bump_key_in in H as [->|H]; [left; now left|now right]. }
  destruct (G [] ltac:(constructor) ltac:(constructor)) as (Hs & Hn & Hp & Hin).
  cbv zeta in *. repeat split; auto.
  intros x Hx. destruct (Hin x Hx) as [H|[]]. exact H.
Qed.

Lemma bump_key_kept (k x : K) (groups : list (K * Z)) :
  x = k \/ In x (List.map fst groups) ->
  In x (List.map fst (Dashboard.bump eqb k groups)).
Proof using eqb_spec.
  rewrite bump_keys. intros [->|H].
  - destruct (existsb (eqb k) (List.map fst groups)) eqn:E.
    + apply existsb_exists in E as (y & Hy & Heq).
      apply eqb_spec in Heq. now subst.
    + apply in_or_app. right. now left.
  - destruct (existsb _ _); [assumption|]. apply in_or_app. now left.
Qed.

Lemma group_count_keys (keys : list K) (x : K) :
  In x keys -> In x (List.map fst (Dashboard.group_count eqb keys)).
Proof using eqb_spec.
  unfold Dashboard.group_count.
  assert (G : forall groups,
             In x keys \/ In x (List.map fst groups) ->
             In x (List.map fst
                     (fold_left (fun groups k => Dashboard.bump eqb k groups)
                                keys groups))).
  { induction keys as [|k keys IH]; intros groups H; cbn [fold_left].
    - destruct H as [[]|H]. exact H.
    - apply IH. destruct H as [[->|H]|H]; [right|now left|right];
        apply bump_key_kept; auto. }
  intros H. apply G. now left.
Qed.

End Groups.

Section Sorts.

Context {A : Type} (before : A -> A -> bool).
Hypothesis before_total : forall a b, before a b = true \/ before b a = true.

Local Abbreviation R := (fun a b : A => before a b = true).

Lemma insert_sorted_perm (x : A) (l : list A) :
  Permutation (Dashboard.insert_sorted before x l) (x :: l).
Proof.
  induction l as [|y l IH]; simpl; [reflexivity|].
  destruct (before y x); [|reflexivity].
  rewrite IH. apply perm_swap.
Qed.

Lemma insert_sorted_hd (x a : A) (l : list A) :
  R a x -> HdRel R a l -> HdRel R a (Dashboard.insert_sorted before x l).
Proof.
  intros Hax Hl. destruct l as [|y l]; simpl; [now constructor|].
  inversion Hl; subst. destruct (before y x); now constructor.
Qed.

Lemma insert_sorted_Sorted (x : A) (l : list A) :
  Sorted R l -> Sorted R (Dashboard.insert_sorted before x l).
Proof using before_total.
  induction 1 as [|y l Hs IH Hhd]; simpl; [repeat constructor|].
  destruct (before y x) eqn:E.
  - constructor; [assumption|]. now apply insert_sorted_hd.
  - constructor; [now constructor|]. constructor.
    destruct (before_total x y) as [H|H]; [exact H|]. cbv beta. congruence.
Qed.

Lemma sort_spec (l : list A) :
  Sorted R (Dashboard.sort before l) /\ Permutation (Dashboard.sort before l) l.
Proof using before_total.
  unfold Dashboard.sort.
  assert (G : forall acc, Sorted R acc ->
             Sorted R (fold_left (fun acc x => Dashboard.insert_sorted before x acc)
                                 l acc) /\
             Permutation (fold_left (fun acc x => Dashboard.insert_sorted before x acc)
                                    l acc) (acc ++ l)).
  { induction l as [|x l IH]; intros acc Hacc; cbn [fold_left].
    - split; [assumption|]. now rewrite List.app_nil_r.
    - destruct (IH _ (insert_sorted_Sorted x acc Hacc)) as [Hs Hp].
      split; [assumption|]. rewrite Hp, insert_sorted_perm.
      apply Permutation_middle. }
  destruct (G [] ltac:(constructor)) as [Hs Hp]. split; assumption.
Qed.

End Sorts.

Lemma sum_perm (l l' : list (string * Z)) :
  Permutation l l' -> Run.sum (List.map snd l) = Run.sum (List.map snd l').
Proof.
  induction 1 as [|[] ? ? ? IH|[] [] ?|? ? ? ? IH1 ? IH2]; simpl in *; lia.
Qed.

Lemma sum_perm_Z (l l' : list (Z * Z)) :
  Permutation l l' -> Run.sum (List.map snd l) = Run.sum (List.map snd l').
Proof.
  induction 1 as [|[] ? ? ? IH|[] [] ?|? ? ? ? IH1 ? IH2]; simpl in *; lia.
Qed.

Lemma Sorted_firstn {A : Type} (R : A -> A -> Prop) (n : nat) (l : list A) :
  Sorted R l -> Sorted R (firstn n l).
Proof.
  intros H. revert n. induction H as [|x l Hs IH Hhd]; intros [|n]; simpl;
    try constructor; auto.
  destruct l as [|y l]; destruct n; simpl; constructor.
  now inversion Hhd.
Qed.

Lemma Sorted_map {A B : Type} (R : A -> A -> Prop) (S : B -> B -> Prop)
      (f : A -> B) (l : list A) :
  (forall a b, R a b -> S (f a) (f b)) -> Sorted R l -> Sorted S (List.map f l).
Proof.
  intros Hf. induction 1 as [|x l Hs IH Hhd]; simpl; constructor; auto.
  destruct Hhd; simpl; constructor; auto.
Qed.

Lemma count_desc_total {K : Type} (a b : K * Z) :
  Dashboard.count_desc a b = true \/ Dashboard.count_desc b a = true.
Proof. unfold Dashboard.count_desc. lia. Qed.

Lemma key_asc_total (a b : Z * Z) :
  (fst a <=? fst b) = true \/ (fst b <=? fst a) = true.
Proof. lia. Qed.

Lemma created_desc_total (a b : User) :
  (createdAt b <=? createdAt a) = true \/ (createdAt a <=? createdAt b) = true.
Proof. lia. Qed.

(** The buckets count every document once. *)
Lemma buckets_partition (today : Z) (db : collection) :
  Run.sum (List.map (Dashboard.bucket_count today db) Dashboard.bucket_ids)
  = Z.of_nat (length db).
Proof.
  unfold Dashboard.bucket_ids, Dashboard.bucket_count. cbn [List.map Run.sum fold_right].
  induction db as [|u db IH]; [reflexivity|].
  cbn [List.filter length].
  assert (Hb : In (Dashboard.bucket_of today u) Dashboard.bucket_ids).
  { unfold Dashboard.bucket_of, Dashboard.boundaries, Dashboard.bucket_in,
      Dashboard.bucket_ids.
    repeat match goal with
           | |- context [if ?c then _ else _] => destruct c
           end; simpl; tauto. }
  unfold Dashboard.bucket_ids in Hb. cbn [In] in Hb.
  destruct Hb as [H|[H|[H|[H|[H|[H|[]]]]]]]; rewrite <- H;
    cbn [Dashboard.bucket_eqb Z.eqb Pos.eqb length]; lia.
Qed.

Lemma sum_positive_entries {K : Type} (l : list (K * Z)) :
  Forall (fun g => 0 <= snd g) l ->
  Run.sum (List.map snd (List.filter (fun g => 0 <? snd g) l))
  = Run.sum (List.map snd l).
Proof.
  induction 1 as [|[k n] l Hn Hall IH]; simpl in *; [reflexivity|].
  destruct (Z.ltb_spec 0 n); simpl; lia.
Qed.

Lemma ageDistribution_sum (today : Z) (db : collection) :
  Run.sum (List.map snd (Dashboard.ageDistributionAgg today db))
  = Z.of_nat (length db).
Proof.
  unfold Dashboard.ageDistributionAgg.
  rewrite sum_positive_entries.
  - rewrite List.map_map. cbn [snd]. apply buckets_partition.
  - apply List.Forall_forall. intros [b n] Hin.
    apply in_map_iff in Hin as (b' & Hb & _). inversion Hb; subst.
    unfold Dashboard.bucket_count. cbn [snd]. lia.
Qed.

Lemma Z_eqb_spec' (a b : Z) : Z.eqb a b = true <-> a = b.
Proof. apply Z.eqb_eq. Qed.

Lemma string_eqb_spec' (a b : string) : String.eqb a b = true <-> a = b.
Proof. apply String.eqb_eq. Qed.

(** X19: on the dashboard, the counts of the yearly series, those of the
    country series and those of the age histogram each add up to the total
    number of documents; the chart of the states adds up to no more; every
    series has as many labels as counts. *)
Theorem dashboard_counts_every_document (today : Z) (db : collection) :
  match Dashboard.compute today db with
  | V_dashboard totalUsers usersOverTime usersByCountry ageDistribution topStates _ =>
      totalUsers = Z.of_nat (length db) /\
      Run.sum (data usersOverTime) = totalUsers /\
      Run.sum (data usersByCountry) = totalUsers /\
      Run.sum (data ageDistribution) = totalUsers /\
      0 <= Run.sum (data topStates) <= totalUsers /\
      Forall (fun s => length (labels s) = length (data s))
             [usersOverTime; usersByCountry; ageDistribution; topStates]
  | _ => False
  end.
Proof.
  unfold Dashboard.compute.
  destruct (Z.ltb_spec 0 (Z.of_nat (length db))) as [Hpos|Hzero].
  - assert (Hyear : Run.sum (List.map snd (Dashboard.usersByYear db))
                    = Z.of_nat (length db)).
    { unfold Dashboard.usersByYear.
      rewrite (sum_perm_Z _ _ (proj2 (sort_spec _ key_asc_total _))).
      rewrite (proj1 (group_count_spec Z.eqb Z_eqb_spec' _)).
      now rewrite length_map. }
    assert (Hcountry : Run.sum (List.map snd (Dashboard.usersByCountryAgg db))
                       = Z.of_nat (length db)).
    { unfold Dashboard.usersByCountryAgg.
      rewrite (sum_perm _ _ (proj2 (sort_spec _ count_desc_total _))).
      rewrite (proj1 (group_count_spec String.eqb string_eqb_spec' _)).
      now rewrite length_map. }
    assert (Hstates : forall c,
               0 <= Run.sum (List.map snd (Dashboard.topStatesAgg db c))
                 <= Z.of_nat (length db)).
    { intros c. unfold Dashboard.topStatesAgg.
      set (states := List.map state (List.filter _ db)).
      destruct (sort_spec Dashboard.count_desc count_desc_total
                  (Dashboard.group_count String.eqb states)) as [_ Hp].
      destruct (group_count_spec String.eqb string_eqb_spec' states)
        as (Hsum & _ & Hall & _).
      assert (Hall' : Forall (fun g : string * Z => 0 < snd g)
                        (Dashboard.sort Dashboard.count_desc
                           (Dashboard.group_count String.eqb states))).
      { apply List.Forall_forall. intros g Hg.
        rewrite List.Forall_forall in Hall. apply Hall.
        eapply Permutation_in; eauto. }
      assert (Hlen : Z.of_nat (length states) <= Z.of_nat (length db)).
      { subst states. rewrite length_map. apply inj_le, filter_length_le. }
      rewrite <- (sum_perm _ _ Hp) in Hsum.
      revert Hall' Hsum. generalize (Dashboard.sort Dashboard.count_desc
                                       (Dashboard.group_count String.eqb states)).
      intros l Hall' Hsum.
      assert (G : forall n,
                 0 <= Run.sum (List.map snd (firstn n l))
                   <= Run.sum (List.map snd l)).
      { clear -Hall'. induction Hall' as [|[k c0] l Hc Hall IH]; intros [|n];
          simpl in *; try lia.
        - specialize (IH 0%nat). simpl in IH. lia.
        - specialize (IH n). lia. }
      specialize (G 5%nat). lia. }
    repeat split.
    + unfold Dashboard.series_of. cbn [data]. exact Hyear.
    + unfold Dashboard.series_of. cbn [data]. exact Hcountry.
    + unfold Dashboard.series_of. cbn [data]. apply ageDistribution_sum.
    + destruct (Dashboard.usersByCountryAgg db) as [|[[|c0 c] n] agg];
        unfold Dashboard.series_of; cbn [data empty_series Run.sum List.map fold_right];
        try lia; apply Hstates.
    + destruct (Dashboard.usersByCountryAgg db) as [|[[|c0 c] n] agg];
        unfold Dashboard.series_of; cbn [data empty_series Run.sum List.map fold_right];
        try lia; apply Hstates.
    + repeat constructor; unfold Dashboard.series_of; cbn [labels data];
        try (now rewrite !length_map).
      destruct (Dashboard.usersByCountryAgg db) as [|[[|c0 c] n] agg];
        cbn [labels data empty_series]; now rewrite ?length_map.
  - assert (length db = 0%nat) as Hlen by lia. rewrite Hlen.
    cbn. repeat split; try lia. repeat constructor.
Qed.

Lemma Sorted_impl {A : Type} (R S : A -> A -> Prop) (l : list A) :
  (forall a b, R a b -> S a b) -> Sorted R l -> Sorted S l.
Proof.
  intros H Hl. rewrite <- (List.map_id l). now apply (Sorted_map R S id).
Qed.

Lemma StronglySorted_strict (l : list Z) :
  StronglySorted Z.le l -> List.NoDup l -> StronglySorted Z.lt l.
Proof.
  induction 1 as [|x l Hs IH Hall]; intros Hnd; constructor;
    inversion Hnd as [|? ? Hx Hnd']; subst; auto.
  apply List.Forall_forall. intros y Hy.
  rewrite List.Forall_forall in Hall. specialize (Hall y Hy).
  assert (x <> y) by (intros ->; contradiction). lia.
Qed.

Lemma StronglySorted_app_cross {A : Type} (R : A -> A -> Prop) (l1 l2 : list A) :
  StronglySorted R (l1 ++ l2) ->
  forall a b, In a l1 -> In b l2 -> R a b.
Proof.
  induction l1 as [|x l1 IH]; intros Hs a b Ha Hb; [destruct Ha|].
  cbn [List.app] in Hs. inversion Hs as [|? ? Hs' Hall]; subst.
  destruct Ha as [->|Ha]; [|now apply IH].
  rewrite List.Forall_forall in Hall. apply Hall, in_or_app. now right.
Qed.

Lemma usersByYear_years (db : collection) :
  StronglySorted Z.lt (List.map fst (Dashboard.usersByYear db)) /\
  (forall y, In y (List.map fst (Dashboard.usersByYear db)) <->
             exists u, In u db /\ Dates.YearFromTime (createdAt u) = y).
Proof.
  unfold Dashboard.usersByYear.
  set (keys := List.map (fun u => Dates.YearFromTime (createdAt u)) db).
  destruct (sort_spec (fun a b : Z * Z => fst a <=? fst b) key_asc_total
              (Dashboard.group_count Z.eqb keys)) as [Hs Hp].
  destruct (group_count_spec Z.eqb Z_eqb_spec' keys) as (_ & Hnd & _ & Hin).
  split.
  - apply StronglySorted_strict.
    + apply Sorted_StronglySorted; [exact Z.le_trans|].
      apply (Sorted_map (fun a b : Z * Z => (fst a <=? fst b) = true)); [|exact Hs].
      intros a b H. now apply Z.leb_le.
    + eapply Permutation_NoDup; [|exact Hnd].
      apply Permutation_map, Permutation_sym, Hp.
  - intros y. split.
    + intros Hy.
      assert (Hk : In y keys).
      { apply Hin. eapply Permutation_in; [|exact Hy]. now apply Permutation_map. }
      subst keys. apply in_map_iff in Hk as (u & Hu & Hdb). eauto.
    + intros (u & Hu & <-).
      eapply Permutation_in; [apply Permutation_map, Permutation_sym, Hp|].
      apply group_count_keys; [exact Z_eqb_spec'|].
      subst keys. apply in_map_iff. eauto.
Qed.

(** X20: the charts of the dashboard come in order: the yearly series
    lists the years in which a document was created, each once and
    ascending; the counts of the countries descend; the chart of the states has five bars at most, and their
    counts descend. *)
Theorem dashboard_charts_in_order (today : Z) (db : collection) :
  match Dashboard.compute today db with
  | V_dashboard _ usersOverTime usersByCountry _ topStates _ =>
      (exists years,
          labels usersOverTime = List.map JS.string_of_Z years /\
          StronglySorted Z.lt years /\
          (forall y, In y years <->
                     exists u, In u db /\ Dates.YearFromTime (createdAt u) = y)) /\
      Sorted Z.ge (data usersByCountry) /\
      Sorted Z.ge (data topStates) /\
      (length (data topStates) <= 5)%nat
  | _ => False
  end.
Proof.
  assert (Hdesc : forall l : list (string * Z),
             Sorted (fun a b => Dashboard.count_desc a b = true) l ->
             Sorted Z.ge (List.map snd l)).
  { intros l. apply Sorted_map. intros a b H.
    unfold Dashboard.count_desc in H. apply Z.leb_le in H. lia. }
  unfold Dashboard.compute.
  destruct (Z.ltb_spec 0 (Z.of_nat (length db))) as [Hpos|Hzero].
  - split; [|split; [|split]].
    + exists (List.map fst (Dashboard.usersByYear db)). split.
      * unfold Dashboard.series_of. cbn [labels]. now rewrite List.map_map.
      * apply usersByYear_years.
    + unfold Dashboard.series_of. cbn [data]. apply Hdesc.
      apply (sort_spec _ count_desc_total).
    + destruct (Dashboard.usersByCountryAgg db) as [|[[|c0 c] n] agg];
        unfold Dashboard.series_of; cbn [data empty_series]; try constructor.
      apply Hdesc. unfold Dashboard.topStatesAgg.
      apply Sorted_firstn, (sort_spec _ count_desc_total).
    + destruct (Dashboard.usersByCountryAgg db) as [|[[|c0 c] n] agg];
        unfold Dashboard.series_of; cbn [data empty_series length]; try lia.
      rewrite length_map. unfold Dashboard.topStatesAgg.
      rewrite length_firstn. lia.
  - cbn [labels data empty_series length].
    split; [|split; [constructor|split; [constructor|lia]]].
    exists []. split; [reflexivity|]. split; [constructor|].
    intros y. split; [intros []|intros (u & Hu & _)].
    destruct db; [destruct Hu|cbn [length] in Hzero; lia].
Qed.

Lemma created_desc_trans :
  Relation_Definitions.transitive User
    (fun a b => (createdAt b <=? createdAt a) = true).
Proof. intros a b c H1 H2. apply Z.leb_le in H1, H2. apply Z.leb_le. lia. Qed.

Lemma recentUsers_spec (db : collection) :
  length (Dashboard.recentUsers db) = Nat.min 5 (length db) /\
  Sorted (fun a b => createdAt b <= createdAt a) (Dashboard.recentUsers db) /\
  (forall u, In u (Dashboard.recentUsers db) -> In u db) /\
  (forall u v, In u (Dashboard.recentUsers db) -> In v db ->
               ~ In v (Dashboard.recentUsers db) -> createdAt v <= createdAt u).
Proof.
  unfold Dashboard.recentUsers.
  destruct (sort_spec (fun a b : User => createdAt b <=? createdAt a)
              created_desc_total db) as [Hs Hp].
  set (l := Dashboard.sort _ db) in *.
  repeat split.
  - rewrite length_firstn. now rewrite (Permutation_length Hp).
  - apply Sorted_firstn.
    apply (Sorted_impl (fun a b : User => (createdAt b <=? createdAt a) = true));
      [|exact Hs].
    intros a b H. now apply Z.leb_le.
  - intros u Hu. eapply Permutation_in; [exact Hp|].
    rewrite <- (firstn_skipn 5 l). apply in_or_app. now left.
  - intros u v Hu Hv Hnot.
    assert (Hv' : In v (skipn 5 l)).
    { apply Permutation_sym in Hp. apply (Permutation_in _ Hp) in Hv.
      rewrite <- (firstn_skipn 5 l) in Hv.
      apply in_app_or in Hv as [Hv|Hv]; [contradiction|exact Hv]. }
    apply Sorted_StronglySorted in Hs; [|exact created_desc_trans].
    rewrite <- (firstn_skipn 5 l) in Hs.
    apply Z.leb_le.
    exact (StronglySorted_app_cross _ _ _ Hs u v Hu Hv').
Qed.

(** X21: the dashboard lists the five documents created last, or all of
    them when the collection holds fewer: the list is made of documents of
    the collection, the newest first, and no document left out was created
    after a listed one. *)
Theorem dashboard_lists_newest (today : Z) (db : collection) :
  match Dashboard.compute today db with
  | V_dashboard _ _ _ _ _ recent =>
      length recent = Nat.min 5 (length db) /\
      Sorted (fun a b => createdAt b <= createdAt a) recent /\
      (forall u, In u recent -> In u db) /\
      (forall u v, In u recent -> In v db -> ~ In v recent ->
                   createdAt v <= createdAt u)
  | _ => False
  end.
Proof.
  unfold Dashboard.compute.
  destruct (Z.ltb_spec 0 (Z.of_nat (length db))) as [Hpos|Hzero].
  - apply recentUsers_spec.
  - assert (length db = 0%nat) as -> by lia.
    split; [reflexivity|]. split; [constructor|].
    split; [intros u []|intros u v []].
Qed.

(** X22: the router of the dashboard, which no guard protects and the
    application does not mount, would render the same total, the same
    yearly series and the same recent users as the guarded handler, for
    every collection: the queries the handler skips on an empty collection
    give the empty values it starts from. *)
Theorem router_agrees_with_handler (today : Z) (db : collection) :
  match Dashboard.compute today db with
  | V_dashboard totalUsers usersOverTime _ _ _ recentUsers =>
      RouterDashboard.get db =
        RouterDashboard.mkLocals totalUsers usersOverTime recentUsers
  | _ => False
  end.
Proof.
  unfold Dashboard.compute, RouterDashboard.get.
  destruct (Z.ltb_spec 0 (Z.of_nat (length db))) as [Hpos|Hzero]; [reflexivity|].
  destruct db as [|u db]; [reflexivity|]. cbn [length] in Hzero. lia.
Qed.

(* ===================================================================== *)
(** * The further properties on sample runs *)
(* ===================================================================== *)

Lemma people_unique : Run.unique (Sample.people 3).
Proof.
  split; vm_compute; repeat constructor; cbn; intuition discriminate.
Qed.

Lemma people_conform : Forall Run.conforms (Sample.people 3).
Proof. repeat constructor. Qed.

(** Three documents, one deleted by its identifier. *)
Lemma requests_keep_documents_unique_witness :
  Run.unique (users (Sample.world_of (Sample.people 3))) /\
  Run.unique
    (users (snd (Sample.run (Sample.world_of (Sample.people 3)) Sample.admin
                   (Scenario.plain DELETE ("/api/users/" +:+ Sample.third))))).
Proof.
  split; [exact people_unique|].
  set (r := Scenario.plain DELETE ("/api/users/" +:+ Sample.third)).
  destruct (Sample.run (Sample.world_of (Sample.people 3)) Sample.admin r)
    as [[resp s'] w'] eqn:E.
  exact (requests_keep_documents_unique Sample.isEmail Sample.isDate
           Sample.parseDate Sample.regex_i Sample.axios_get Sample.worded None None
           (Sample.world_of (Sample.people 3)) w' Sample.admin s' r resp
           people_unique E).
Defined.

(** Three documents and a submission. *)
Lemma requests_keep_documents_conforming_witness :
  Forall Run.conforms (users (Sample.world_of (Sample.people 3))) /\
  Forall Run.conforms
    (users (snd (Sample.run (Sample.world_of (Sample.people 3)) fresh_session
                   (Scenario.submit (Scenario.asha "a@b.co"))))).
Proof.
  split; [exact people_conform|].
  set (r := Scenario.submit (Scenario.asha "a@b.co")).
  destruct (Sample.run (Sample.world_of (Sample.people 3)) fresh_session r)
    as [[resp s'] w'] eqn:E.
  refine (requests_keep_documents_conforming Sample.isEmail Sample.isDate
            Sample.parseDate Sample.regex_i Sample.axios_get Sample.worded None None
            (Sample.world_of (Sample.people 3)) w' fresh_session s' r resp
            people_conform eq_refl _ E).
  intros id H. discriminate H.
Defined.

(** A visitor asks for the deletion of a document, and submits the form. *)
Lemma visitors_only_append_witness :
  isAdmin fresh_session = false /\
  users (snd (Sample.run (Sample.world_of (Sample.people 3)) fresh_session
                (Scenario.plain DELETE ("/api/users/" +:+ Sample.third))))
  = Sample.people 3 /\
  exists u,
    users (snd (Sample.run (Sample.world_of (Sample.people 3)) fresh_session
                  (Scenario.submit (Scenario.asha "a@b.co"))))
    = (Sample.people 3 ++ [u])%list.
Proof.
  split; [reflexivity|]. split.
  - set (r := Scenario.plain DELETE ("/api/users/" +:+ Sample.third)).
    destruct (Sample.run (Sample.world_of (Sample.people 3)) fresh_session r)
      as [[resp s'] w'] eqn:E.
    destruct (visitors_only_append Sample.isEmail Sample.isDate
                Sample.parseDate Sample.regex_i Sample.axios_get Sample.worded None None
                (Sample.world_of (Sample.people 3)) w' fresh_session s' r resp
                eq_refl E) as [H|[H _]]; [exact H|discriminate H].
  - set (r := Scenario.submit (Scenario.asha "a@b.co")).
    destruct (Sample.run (Sample.world_of (Sample.people 3)) fresh_session r)
      as [[resp s'] w'] eqn:E.
    destruct (visitors_only_append Sample.isEmail Sample.isDate
                Sample.parseDate Sample.regex_i Sample.axios_get Sample.worded None None
                (Sample.world_of (Sample.people 3)) w' fresh_session s' r resp
                eq_refl E) as [H|[_ H]]; [|exact H].
    exfalso. apply (f_equal (@length User)) in H.
    assert (Hw : w' = snd (Sample.run (Sample.world_of (Sample.people 3))
                             fresh_session r)) by now rewrite E.
    rewrite Hw in H. vm_compute in H. discriminate H.
Defined.

(** A login with the default credentials. *)
Lemma admin_only_through_login_witness :
  isAdmin fresh_session = false /\
  Sample.run Sample.empty_world fresh_session (Scenario.login "admin" "admin123")
  = (Redirect "/dashboard", Sample.admin, Sample.empty_world) /\
  isAdmin Sample.admin = true /\
  route_of POST "/admin" = Some R_login /\
  failed_attempts fresh_session < 3.
Proof.
  destruct (admin_only_through_login Sample.isEmail Sample.isDate
              Sample.parseDate Sample.regex_i Sample.axios_get Sample.worded None None
              Sample.empty_world Sample.empty_world fresh_session Sample.admin
              (Scenario.login "admin" "admin123") (Redirect "/dashboard")
              eq_refl eq_refl eq_refl) as (Hroute & _ & Hlt & _).
  repeat split; assumption.
Defined.

(** A locked session asks for the list and tries the right credentials. *)
Lemma lockout_stays_witness :
  3 <= failed_attempts Scenario.locked /\
  snd (fst (Sample.run Sample.empty_world Scenario.locked
              (Scenario.plain GET "/users"))) = Scenario.locked /\
  fst (fst (Sample.run Sample.empty_world Scenario.locked
              (Scenario.login "admin" "admin123")))
  = Render 200 (V_admin (Some lockout_message)).
Proof.
  assert (H3 : 3 <= failed_attempts Scenario.locked) by (vm_compute; discriminate).
  split; [exact H3|]. split.
  - set (r := Scenario.plain GET "/users").
    destruct (Sample.run Sample.empty_world Scenario.locked r)
      as [[resp s'] w'] eqn:E.
    destruct (lockout_stays Sample.isEmail Sample.isDate
                Sample.parseDate Sample.regex_i Sample.axios_get Sample.worded None None
                Sample.empty_world w' Scenario.locked s' r resp H3
                ltac:(discriminate) E) as (Hn & Ha & _).
    cbn [fst snd]. destruct s' as [a [n|]]; cbn in Hn, Ha; subst; try reflexivity.
    discriminate Hn.
  - set (r := Scenario.login "admin" "admin123").
    destruct (Sample.run Sample.empty_world Scenario.locked r)
      as [[resp s'] w'] eqn:E.
    destruct (lockout_stays Sample.isEmail Sample.isDate
                Sample.parseDate Sample.regex_i Sample.axios_get Sample.worded None None
                Sample.empty_world w' Scenario.locked s' r resp H3
                ltac:(discriminate) E) as (_ & _ & Hresp).
    exact (Hresp eq_refl).
Defined.

(** Three wrong passwords, then the right one. *)
Lemma three_failures_lock_witness :
  failed_attempts fresh_session = 0 /\
  ~ Run.right_credentials None None (Scenario.login "admin" "letmein") /\
  Run.right_credentials None None (Scenario.login "admin" "admin123") /\
  Scenario.run_all
    [Scenario.login "admin" "letmein"; Scenario.login "admin" "letmein";
     Scenario.login "admin" "letmein"; Scenario.login "admin" "admin123"]
    Sample.empty_world fresh_session
  = ([Render 200 (V_admin (Some (invalid_message 1)));
      Render 200 (V_admin (Some (invalid_message 2)));
      Render 200 (V_admin (Some (invalid_message 3)));
      Render 200 (V_admin (Some lockout_message))],
     Scenario.locked, Sample.empty_world).
Proof.
  assert (Hwrong : ~ Run.right_credentials None None
                       (Scenario.login "admin" "letmein")).
  { intros [_ H]. discriminate H. }
  split; [reflexivity|]. split; [exact Hwrong|]. split; [split; reflexivity|].
  apply (three_failures_lock Sample.isEmail Sample.isDate
           Sample.parseDate Sample.regex_i Sample.axios_get Sample.worded None None
           Sample.empty_world fresh_session).
  - reflexivity.
  - repeat constructor.
  - repeat constructor; exact Hwrong.
Defined.

(** A locked session logs out and logs in. *)
Lemma logout_lifts_lockout_witness :
  route_of GET "/logout" = Some R_logout /\
  Run.right_credentials None None (Scenario.login "admin" "admin123") /\
  Scenario.run_all
    [Scenario.plain GET "/logout"; Scenario.login "admin" "admin123"]
    Sample.empty_world Scenario.locked
  = ([Redirect "/admin"; Redirect "/dashboard"], Sample.admin,
     Sample.empty_world).
Proof.
  split; [reflexivity|]. split; [split; reflexivity|].
  apply (logout_lifts_lockout Sample.isEmail Sample.isDate
           Sample.parseDate Sample.regex_i Sample.axios_get Sample.worded None None
           Sample.empty_world Scenario.locked
           (Scenario.plain GET "/logout") (Scenario.login "admin" "admin123")).
  - reflexivity.
  - reflexivity.
  - split; reflexivity.
Defined.

(** A form without a name, with a malformed address and a short contact. *)
Lemma invalid_submission_rejected_witness :
  Sample.run Sample.empty_world fresh_session
    (Scenario.submit
       (Sample.form "  " "asha.example.com" "2000-01-15" "12345" "Goa" "India"))
  = (Render 200
       (V_index
          (Some "Name is required, Invalid email address, Contact must be a valid 10-digit number")
          None None),
     fresh_session, Sample.empty_world).
Proof.
  set (r := Scenario.submit
              (Sample.form "  " "asha.example.com" "2000-01-15" "12345" "Goa"
                           "India")).
  destruct (invalid_submission_rejected Sample.isEmail Sample.isDate
              Sample.parseDate Sample.regex_i Sample.axios_get Sample.worded None None
              Sample.empty_world fresh_session r eq_refl eq_refl) as [H _].
  - vm_compute. discriminate.
  - etransitivity; [exact H|]. reflexivity.
Defined.

(** An address stored in lower case, submitted again with a capital. *)
Lemma duplicate_address_refused_witness :
  In (JS.toLowerCase (JS.trim "A@b.co"))
     (List.map email [Sample.person 1 "Asha" "a@b.co" 0]) /\
  Sample.run (Sample.world_of [Sample.person 1 "Asha" "a@b.co" 0]) fresh_session
    (Scenario.submit (Scenario.asha "A@b.co"))
  = (Render 200 (V_index (Some "Server error: Email already exists") None None),
     fresh_session,
     with_call (Sample.world_of [Sample.person 1 "Asha" "a@b.co" 0])
               (Some "A@b.co")).
Proof.
  assert (Hin : In (JS.toLowerCase (JS.trim "A@b.co"))
                   (List.map email [Sample.person 1 "Asha" "a@b.co" 0])).
  { left. reflexivity. }
  split; [exact Hin|].
  apply (duplicate_address_refused Sample.isEmail Sample.isDate
           Sample.parseDate Sample.regex_i Sample.axios_get Sample.worded None None
           (Sample.world_of [Sample.person 1 "Asha" "a@b.co" 0]) fresh_session
           (Scenario.submit (Scenario.asha "A@b.co"))).
  - reflexivity.
  - reflexivity.
  - reflexivity.
  - intros v H. vm_compute in H. discriminate H.
  - reflexivity.
  - exact Hin.
Defined.

(** A submission with a deliverable address and spaces around the
    name. *)
Lemma submission_stored_witness :
  exists u,
    users (snd (Sample.run Sample.empty_world fresh_session
                  (Scenario.submit
                     (Sample.form " Asha " "good@example.com" "2000-01-15"
                                  "0123456789" "Goa" "India"))))
    = [u] /\
    name u = "Asha" /\ email u = "good@example.com" /\
    createdAt u = Sample.today /\
    validationStatus u = Some "Email validated" /\
    Run.conforms u.
Proof.
  set (r := Scenario.submit
              (Sample.form " Asha " "good@example.com" "2000-01-15"
                           "0123456789" "Goa" "India")).
  assert (E : Sample.run Sample.empty_world fresh_session r
              = (Render 200 (V_index None (Some "Form submitted successfully!")
                                     (Some "Email validated")),
                 fresh_session,
                 snd (Sample.run Sample.empty_world fresh_session r)))
    by (vm_compute; reflexivity).
  destruct (submission_stored Sample.isEmail Sample.isDate
              Sample.parseDate Sample.regex_i Sample.axios_get Sample.worded None None
              Sample.empty_world _ fresh_session _ r _ eq_refl eq_refl E)
    as (u & Hu & Hname & Hemail & _ & _ & _ & _ & Hcreated & Hstatus & _ & _ & Hconf).
  exists u. repeat split; assumption.
Defined.

(** One check of an address. *)
Lemma one_gateway_call_at_most_witness :
  (length (outbound (snd (Sample.run Sample.empty_world fresh_session
                            (Sample.check_address "good@example.com"))))
   <= 1)%nat.
Proof.
  set (r := Sample.check_address "good@example.com").
  destruct (Sample.run Sample.empty_world fresh_session r)
    as [[resp s'] w'] eqn:E.
  destruct (one_gateway_call_at_most Sample.isEmail Sample.isDate
              Sample.parseDate Sample.regex_i Sample.axios_get Sample.worded None None
              Sample.empty_world w' fresh_session s' r resp E)
    as [H|[(_ & _ & H)|(_ & _ & H)]]; cbn [snd]; rewrite H; cbn; lia.
Defined.

(** 150 checks of one address by one client. *)
Lemma validation_requests_reach_service_witness :
  length (outbound (snd (Scenario.run_all
                           (List.repeat (Sample.check_address "good@example.com") 150)
                           Sample.empty_world fresh_session)))
  = 150%nat.
Proof.
  set (r := Sample.check_address "good@example.com").
  destruct (Scenario.run_all (List.repeat r 150) Sample.empty_world fresh_session)
    as [[resps s'] w'] eqn:E.
  destruct (validation_requests_reach_service Sample.isEmail Sample.isDate
              Sample.parseDate Sample.regex_i Sample.axios_get Sample.worded None None
              150 Sample.empty_world w' fresh_session s' r resps
              eq_refl eq_refl eq_refl E) as (H & _).
  cbn [snd]. rewrite H, length_app, repeat_length. reflexivity.
Defined.

(** The third of three documents, deleted through the JSON route. *)
Lemma delete_by_id_witness :
  List.NoDup (List.map _id (Sample.people 3)) /\
  fst (fst (Sample.run (Sample.world_of (Sample.people 3)) Sample.admin
              (Scenario.plain DELETE ("/api/users/" +:+ Sample.third))))
  = Empty 204 /\
  length (users (snd (Sample.run (Sample.world_of (Sample.people 3)) Sample.admin
                        (Scenario.plain DELETE ("/api/users/" +:+ Sample.third)))))
  = 2%nat.
Proof.
  split; [exact (proj1 people_unique)|].
  set (r := Scenario.plain DELETE ("/api/users/" +:+ Sample.third)).
  destruct (Sample.run (Sample.world_of (Sample.people 3)) Sample.admin r)
    as [[resp s'] w'] eqn:E.
  destruct (delete_by_id Sample.isEmail Sample.isDate
              Sample.parseDate Sample.regex_i Sample.axios_get Sample.worded None None
              (Sample.world_of (Sample.people 3)) w' Sample.admin s' r
              Sample.third (R_api_delete Sample.third) resp
              eq_refl (proj1 people_unique) eq_refl (or_introl eq_refl) E)
    as [_ H].
  change (findById (users (Sample.world_of (Sample.people 3))) Sample.third)
    with (Ok (Some (Sample.person 3 "Asha" "3@example.com"
                      (Dates.MakeDate (Dates.MakeDay 2000 0 15) 0)))) in H.
  destruct H as (Hresp & _ & _ & Hlen).
  cbn [fst snd]. split; [exact (Hresp eq_refl)|].
  change (length (users (Sample.world_of (Sample.people 3)))) with 3%nat in Hlen.
  now injection Hlen.
Defined.

(** Three documents, the delete-all of the JSON interface, then its
    list. *)
Lemma delete_all_then_list_witness :
  Scenario.run_all
    [Scenario.plain DELETE "/api/users"; Sample.list_page "/api/users" "1" "10"]
    (Sample.world_of (Sample.people 3)) Sample.admin
  = ([Empty 204; Json 200 (J_users [] 1 0 0)], Sample.admin, Sample.empty_world).
Proof.
  destruct (delete_all_then_list Sample.isEmail Sample.isDate
              Sample.parseDate Sample.regex_i Sample.axios_get Sample.worded None None
              (Sample.world_of (Sample.people 3)) Sample.admin
              (Scenario.plain DELETE "/api/users")
              (Sample.list_page "/api/users" "1" "10")
              R_api_delete_all eq_refl eq_refl (or_introl eq_refl) eq_refl
              ltac:(vm_compute; discriminate)) as [H _].
  etransitivity; [apply H|]; try reflexivity; vm_compute; discriminate.
Defined.

(** 25 documents, 10 a page: three pages, and nothing on the fourth. *)
Lemma pages_cover_collection_witness :
  flat_map (fun k => default [] (find_page (Sample.people 25)
                                           ((Z.of_nat k - 1) * 10) 10))
           [1%nat; 2%nat; 3%nat]
  = Sample.people 25 /\
  find_page (Sample.people 25) ((4 - 1) * 10) 10 = Some [].
Proof.
  destruct (pages_cover_collection (Sample.people 25) 10 ltac:(lia)) as [H1 H2].
  split; [exact H1|]. apply H2. reflexivity.
Defined.

(** Page -1 of both lists. *)
Lemma list_rejects_negative_page_witness :
  Sample.run (Sample.world_of (Sample.people 3)) Sample.admin
    (Sample.list_page "/api/users" "-1" "10")
  = (Json 500 (J_users_error "Error fetching users"), Sample.admin,
     Sample.world_of (Sample.people 3)) /\
  Sample.run (Sample.world_of (Sample.people 3)) Sample.admin
    (Sample.list_page "/users" "-1" "10")
  = (Render 200 (V_users [] 1 1 (Some "Error loading users. Please try again.")),
     Sample.admin, Sample.world_of (Sample.people 3)).
Proof.
  split.
  - apply (list_rejects_negative_page Sample.isEmail Sample.isDate
             Sample.parseDate Sample.regex_i Sample.axios_get Sample.worded None None
             (Sample.world_of (Sample.people 3)) Sample.admin
             (Sample.list_page "/api/users" "-1" "10"));
      try reflexivity.
    vm_compute. discriminate.
  - apply (list_rejects_negative_page Sample.isEmail Sample.isDate
             Sample.parseDate Sample.regex_i Sample.axios_get Sample.worded None None
             (Sample.world_of (Sample.people 3)) Sample.admin
             (Sample.list_page "/users" "-1" "10"));
      reflexivity.
Defined.

(** 60 documents: the server counts two pages of 50, the grid one. *)
Lemma grid_never_paginates_witness :
  Sample.run (Sample.world_of (Sample.people 60)) Sample.admin
    (Sample.list_page "/api/users" "1" "50")
  = (Json 200 (J_users (firstn 50 (Sample.people 60)) 1 2 60), Sample.admin,
     Sample.world_of (Sample.people 60)) /\
  Client.totalPages (Client.shown "" (firstn 50 (Sample.people 60))) = 1 /\
  Client.updatePagination 1
    (Client.totalPages (Client.shown "" (firstn 50 (Sample.people 60)))) = [].
Proof.
  assert (E : Sample.run (Sample.world_of (Sample.people 60)) Sample.admin
                (Sample.list_page "/api/users" "1" "50")
              = (Json 200 (J_users (firstn 50 (Sample.people 60)) 1 2 60),
                 Sample.admin, Sample.world_of (Sample.people 60)))
    by (vm_compute; reflexivity).
  split; [exact E|].
  exact (proj2 (grid_never_paginates Sample.isEmail Sample.isDate
                  Sample.parseDate Sample.regex_i Sample.axios_get Sample.worded None None
                  (Sample.world_of (Sample.people 60))
                  (Sample.world_of (Sample.people 60)) Sample.admin Sample.admin
                  (Sample.list_page "/api/users" "1" "50")
                  (firstn 50 (Sample.people 60)) 1 2 60 1 ""
                  eq_refl eq_refl E)).
Defined.
